(** * BiometricFlow-ZK: the aggregation gateway and its security layer

    A shallow embedding of
      - [src/biometric_flow/core/security.py] (token service, content
        filter, IP allow-list, rate limiter, security middleware,
        credential check, API keys), and
      - [src/biometric_flow/backend/unified_gateway.py] (per-backend call
        classification, fan-out, merge, tagging, user deduplication,
        direct place and device endpoints, health, backend registry),
    followed by the properties of the specification stated over it and by
    further properties of the code.

    Conventions.
      - Python values that travel as JSON are values of [json]; a Python
        [dict] is an association list in insertion order.
      - Code that may raise returns a [py_result]; [Raise e] is the Python
        exception leaving the function.
      - Clock readings ([time.time()], [datetime.utcnow()]) are inputs of
        the functions that read the clock, as rationals (seconds since the
        epoch); the float sum and difference that the rate limiter takes
        of them are rounded as IEEE 754 binary64 rounds them.
      - Text is a [string] of Latin-1 characters (code points 0 to 255),
        as header values are decoded. *)

From Stdlib Require Import ZArith QArith Qround Lqa Lia.
From Stdlib Require Import String Ascii List Bool DecimalString.
From stdpp Require Import gmap strings list.

Local Open Scope Z_scope.

(** ** Python values *)

Set Warnings "-register-all".

Module Py.

(** What [json.loads] / [response.json()] can return.  Numbers with a
    fractional part are not represented. *)
Inductive json : Type :=
| JNull
| JBool (b : bool)
| JInt (n : Z)
| JStr (s : string)
| JList (l : list json)
| JDict (d : list (string * json)).

(** A Python [dict] with [str] keys, in insertion order. *)
Abbreviation pydict := (list (string * json)).

(** Exceptions that the modelled code lets escape.  [Unhandled what] is an
    exception of class [what] raised by the application below the
    middleware that no exception handler of the application turns into a
    response. *)
Inductive exn : Type :=
| TypeError
| AttributeError
| RuntimeError
| RecursionError
| ValueError
| HTTPException (status_code : Z) (detail : string)
| Unhandled (what : string).

Inductive py_result (A : Type) : Type :=
| Return (a : A)
| Raise (e : exn).
Arguments Return {A} a.
Arguments Raise {A} e.

Definition bind {A B} (m : py_result A) (f : A -> py_result B) : py_result B :=
  match m with
  | Return a => f a
  | Raise e => Raise e
  end.

(** [d.get(k)] *)
Fixpoint dict_get (k : string) (d : pydict) : option json :=
  match d with
  | [] => None
  | (k', v) :: d' => if String.eqb k k' then Some v else dict_get k d'
  end.

(** [d.get(k, dflt)] *)
Definition dict_get_default (k : string) (dflt : json) (d : pydict) : json :=
  match dict_get k d with
  | Some v => v
  | None => dflt
  end.

(** [k in d] *)
Definition dict_has (k : string) (d : pydict) : bool :=
  match dict_get k d with
  | Some _ => true
  | None => false
  end.

(** [d[k] = v]: an existing key keeps its position, a new key goes last. *)
Fixpoint dict_set (k : string) (v : json) (d : pydict) : pydict :=
  match d with
  | [] => [(k, v)]
  | (k', v') :: d' =>
      if String.eqb k k' then (k, v) :: d' else (k', v') :: dict_set k v d'
  end.

(** [d.update(u)] *)
Definition dict_update (u : pydict) (d : pydict) : pydict :=
  fold_left (fun acc kv => dict_set (fst kv) (snd kv) acc) u d.

(** Truth value of an object, as [if x:] and [and] test it. *)
Definition py_truthy (v : json) : bool :=
  match v with
  | JNull => false
  | JBool b => b
  | JInt n => negb (n =? 0)
  | JStr s => negb (String.eqb s EmptyString)
  | JList l => match l with [] => false | _ => true end
  | JDict d => match d with [] => false | _ => true end
  end.

(** [a == b] on JSON values: [bool] is a subtype of [int], lists compare
    element by element, dicts compare as maps. *)
Fixpoint py_eqb (a b : json) {struct a} : bool :=
  match a, b with
  | JNull, JNull => true
  | JBool x, JBool y => Bool.eqb x y
  | JBool x, JInt n | JInt n, JBool x => n =? (if x then 1 else 0)
  | JInt x, JInt y => x =? y
  | JStr x, JStr y => String.eqb x y
  | JList xs, JList ys =>
      (fix go (xs ys : list json) {struct xs} : bool :=
         match xs, ys with
         | [], [] => true
         | x :: xs', y :: ys' => py_eqb x y && go xs' ys'
         | _, _ => false
         end) xs ys
  | JDict xs, JDict ys =>
      (length xs =? length ys)%nat &&
      (fix go (xs : pydict) {struct xs} : bool :=
         match xs with
         | [] => true
         | (k, v) :: xs' =>
             match dict_get k ys with
             | Some w => py_eqb v w && go xs'
             | None => false
             end
         end) xs
  | _, _ => false
  end.

(** [x in l] for a list [l] *)
Definition py_in (x : json) (l : list json) : bool :=
  existsb (py_eqb x) l.

(** [for x in v]: the items the loop visits, or [TypeError]. *)
Definition py_iter (v : json) : py_result (list json) :=
  match v with
  | JList l => Return l
  | JDict d => Return (map (fun kv => JStr (fst kv)) d)
  | JStr s => Return (map (fun c => JStr (String c EmptyString)) (list_ascii_of_string s))
  | JNull | JBool _ | JInt _ => Raise TypeError
  end.

(** [target[k] = v] with a [str] key: only a dict accepts it. *)
Definition py_setitem (k : string) (v : json) (target : json) : py_result json :=
  match target with
  | JDict d => Return (JDict (dict_set k v d))
  | _ => Raise TypeError
  end.

(** [target.get(k, dflt)]: only a dict has the method. *)
Definition py_get (k : string) (dflt : json) (target : json) : py_result json :=
  match target with
  | JDict d => Return (dict_get_default k dflt d)
  | _ => Raise AttributeError
  end.


(** *** [str(x)] and [repr(x)]

    An f-string field [{x}] renders [str(x)]: a [str] is itself, a
    container renders the [repr] of its items. *)

Definition hex_digit (n : N) : ascii :=
  ascii_of_N (if (n <? 10)%N then 48 + n else 87 + n)%N.

Definition quote_single : ascii := ascii_of_nat 39.
Definition quote_double : ascii := ascii_of_nat 34.
Definition backslash : ascii := ascii_of_nat 92.

Definition str_of_char (c : ascii) : string := String c EmptyString.

Fixpoint str_contains_char (c : ascii) (s : string) : bool :=
  match s with
  | EmptyString => false
  | String c' s' => Ascii.eqb c c' || str_contains_char c s'
  end.

(** One character of [repr(s)], for the enclosing quote [q]. *)
Definition repr_char (q c : ascii) : string :=
  let n := N_of_ascii c in
  if Ascii.eqb c backslash then String backslash (str_of_char backslash)
  else if Ascii.eqb c q then String backslash (str_of_char q)
  else if (n =? 10)%N then String backslash "n"
  else if (n =? 13)%N then String backslash "r"
  else if (n =? 9)%N then String backslash "t"
  else if ((n <? 32) || (127 <=? n))%N then
    String backslash (String "x" (String (hex_digit (n / 16)) (str_of_char (hex_digit (n mod 16)))))
  else str_of_char c.

Fixpoint repr_chars (q : ascii) (s : string) : string :=
  match s with
  | EmptyString => EmptyString
  | String c s' => String.append (repr_char q c) (repr_chars q s')
  end.

(** [repr(s)] for a [str]: single quotes unless the text has a single
    quote and no double quote. *)
Definition repr_str (s : string) : string :=
  let q := if str_contains_char quote_single s && negb (str_contains_char quote_double s)
           then quote_double else quote_single in
  String q (String.append (repr_chars q s) (str_of_char q)).

Definition str_of_int (n : Z) : string := NilZero.string_of_int (Z.to_int n).

Fixpoint join (sep : string) (l : list string) : string :=
  match l with
  | [] => EmptyString
  | [x] => x
  | x :: l' => String.append x (String.append sep (join sep l'))
  end.

Fixpoint py_repr (v : json) : string :=
  match v with
  | JNull => "None"
  | JBool b => if b then "True" else "False"
  | JInt n => str_of_int n
  | JStr s => repr_str s
  | JList l =>
      String.append "[" (String.append (join ", " (map py_repr l)) "]")
  | JDict d =>
      String.append "{"
        (String.append
           (join ", " (map (fun kv => String.append (repr_str (fst kv))
                                          (String.append ": " (py_repr (snd kv)))) d))
           "}")
  end.

Definition py_str (v : json) : string :=
  match v with
  | JStr s => s
  | _ => py_repr v
  end.

End Py.

(** ** The aggregation gateway ([unified_gateway.py]) *)

Module Gateway.
Import Py.

(** One value of [config.backends]: [url] is read with [['url']],
    [location] and [timeout] with [.get]. *)
Record backend_config : Type := {
  url : string;
  location : option string;
  timeout : option Z
}.

(** [config.backends]: backend name to configuration, in insertion order. *)
Abbreviation backends := (list (string * backend_config)).

Fixpoint backend_lookup (name : string) (cfg : backends) : option backend_config :=
  match cfg with
  | [] => None
  | (n, bc) :: cfg' => if String.eqb name n then Some bc else backend_lookup name cfg'
  end.

(** What the [try] block around [session.get] observes for one backend:
    a response with its status, its [X-Process-Time] header and the value
    that [response.json()] yields (awaited only for status 200), or the
    exception raised while connecting or reading. *)
Inductive http_outcome : Type :=
| Response (status : Z) (process_time : option string) (data : json)
| TimeoutError
| OtherException (msg : string).

Definition location_or_unknown (bc : backend_config) : string :=
  default "Unknown"%string (location bc).

(** The [success: False] dictionary built in every failure branch. *)
Definition error_result (backend_name : string) (bc : backend_config)
    (error error_code : string) : json :=
  JDict [("success"%string, JBool false);
         ("error"%string, JStr error);
         ("error_code"%string, JStr error_code);
         ("_backend_name"%string, JStr backend_name);
         ("_backend_url"%string, JStr (url bc));
         ("_place_location"%string, JStr (location_or_unknown bc))].

(** The metadata written into a 200 response that is a [dict]. *)
Definition add_backend_metadata (backend_name : string) (bc : backend_config)
    (process_time : option string) (d : pydict) : pydict :=
  dict_set "_response_time" (JStr (default "unknown"%string process_time))
    (dict_set "_place_location" (JStr (location_or_unknown bc))
       (dict_set "_backend_url" (JStr (url bc))
          (dict_set "_backend_name" (JStr backend_name) d))).

(** [call_backend(session, backend_name, endpoint, params)], given what the
    GET to that backend observes.  Request headers (bearer key, gateway
    token) and audit logging do not influence the returned value and are
    left out. *)
Definition call_backend (cfg : backends) (backend_name : string)
    (o : http_outcome) : py_result json :=
  match backend_lookup backend_name cfg with
  | None =>
      Raise (HTTPException 404 ("Backend '" +:+ backend_name +:+ "' not found"))
  | Some bc =>
      match o with
      | Response status process_time data =>
          if status =? 200 then
            match data with
            | JDict d => Return (JDict (add_backend_metadata backend_name bc process_time d))
            | _ => Return data
            end
          else if status =? 401 then
            Return (error_result backend_name bc
                      ("Authentication failed for backend " +:+ backend_name) "AUTH_FAILED")
          else if status =? 403 then
            Return (error_result backend_name bc
                      ("Access denied for backend " +:+ backend_name) "ACCESS_DENIED")
          else if 500 <=? status then
            Return (error_result backend_name bc
                      ("Backend " +:+ backend_name +:+ " server error") "SERVER_ERROR")
          else
            Return (error_result backend_name bc
                      ("Backend " +:+ backend_name +:+ " returned status " +:+ str_of_int status)
                      "HTTP_ERROR")
      | TimeoutError =>
          Return (error_result backend_name bc
                    ("Backend " +:+ backend_name +:+ " timeout") "TIMEOUT")
      | OtherException msg =>
          Return (error_result backend_name bc
                    ("Backend communication error: " +:+ msg) "CONNECTION_ERROR")
      end
  end.

(** The filter of [call_all_backends]: a gathered result is kept when it
    is a [dict] (and so not an exception). *)
Definition valid_result (r : py_result json) : list pydict :=
  match r with
  | Return (JDict d) => [d]
  | _ => []
  end.

(** [call_all_backends(endpoint, params)]: one call per configured backend;
    [asyncio.gather(..., return_exceptions=True)] yields the results in task
    order, and only the [dict] results are kept.  [net name] is what the
    call issued for backend [name] observes. *)
Definition call_all_backends (cfg : backends) (net : string -> http_outcome)
    : list pydict :=
  let results := map (fun b => call_backend cfg (fst b) (net (fst b))) cfg in
  flat_map valid_result results.

(** The three accumulators of a unified handler. *)
Record merged : Type := {
  entities : list json;
  backend_sources : list json;
  places : list json
}.

Definition merged_empty : merged :=
  {| entities := []; backend_sources := []; places := [] |}.

(** [backend_sources.append(backend_name)] and the guarded
    [places.append(place_location)]. *)
Definition record_source (backend_name place_location : json) (acc : merged)
    (entities' : list json) : merged :=
  {| entities := entities';
     backend_sources := backend_sources acc ++ [backend_name];
     places := if py_in place_location (places acc) then places acc
               else places acc ++ [place_location] |}.

(** The inner loop of [/devices/all] and [/attendance/all]: tag and append. *)
Fixpoint tag_entities (backend_name place_location : json) (l : list json)
    : py_result (list json) :=
  match l with
  | [] => Return []
  | e :: l' =>
      bind (py_setitem "backend_name" backend_name e) (fun e1 =>
      bind (py_setitem "place_location" place_location e1) (fun e2 =>
      bind (tag_entities backend_name place_location l') (fun rest =>
      Return (e2 :: rest))))
  end.

(** Body of [for result in results] in [/devices/all] ([key = "devices"])
    and [/attendance/all] ([key = "data"]). *)
Definition merge_result (key : string) (acc : merged) (result : pydict)
    : py_result merged :=
  if py_truthy (dict_get_default "success" JNull result) && dict_has key result then
    let backend_name := dict_get_default "_backend_name" (JStr "Unknown") result in
    let place_location := dict_get_default "_place_location" (JStr "Unknown") result in
    bind (py_iter (dict_get_default key JNull result)) (fun l =>
    bind (tag_entities backend_name place_location l) (fun tagged =>
    Return (record_source backend_name place_location acc (entities acc ++ tagged))))
  else Return acc.

Fixpoint for_each {A B} (body : A -> B -> py_result A) (acc : A) (l : list B)
    : py_result A :=
  match l with
  | [] => Return acc
  | x :: l' => bind (body acc x) (fun acc' => for_each body acc' l')
  end.

Definition len (l : list json) : json := JInt (Z.of_nat (length l)).

(** [GET /devices/all] *)
Definition get_all_devices_unified (cfg : backends) (net : string -> http_outcome)
    : py_result json :=
  bind (for_each (merge_result "devices") merged_empty (call_all_backends cfg net))
    (fun acc =>
       Return (JDict [("success"%string, JBool true);
                      ("devices"%string, JList (entities acc));
                      ("total_devices"%string, len (entities acc));
                      ("backend_sources"%string, JList (backend_sources acc));
                      ("places"%string, JList (places acc));
                      ("message"%string,
                       JStr ("Retrieved " +:+ py_str (len (entities acc)) +:+ " devices from "
                             +:+ py_str (len (backend_sources acc)) +:+ " places"))])).

(** [GET /attendance/all] *)
Definition get_all_attendance_unified (cfg : backends) (net : string -> http_outcome)
    : py_result json :=
  bind (for_each (merge_result "data") merged_empty (call_all_backends cfg net))
    (fun acc =>
       Return (JDict [("success"%string, JBool true);
                      ("data"%string, JList (entities acc));
                      ("total_records"%string, len (entities acc));
                      ("backend_sources"%string, JList (backend_sources acc));
                      ("places"%string, JList (places acc));
                      ("message"%string,
                       JStr ("Retrieved " +:+ py_str (len (entities acc)) +:+ " records from "
                             +:+ py_str (len (backend_sources acc)) +:+ " places"))])).

(** The deduplication key of [/users/all]:
    [f"{user.get('name', '')}-{user.get('userid', '')}"]. *)
Definition user_key (user : json) : py_result string :=
  bind (py_get "name" (JStr EmptyString) user) (fun name =>
  bind (py_get "userid" (JStr EmptyString) user) (fun userid =>
  Return (py_str name +:+ "-" +:+ py_str userid))).

(** Body of [for user in result["users"]]; the state is the pair
    [(user_set, all_users)]. *)
Definition add_user (backend_name place_location : json)
    (st : gset string * list json) (user : json)
    : py_result (gset string * list json) :=
  bind (user_key user) (fun k =>
    if decide (k ∈ st.1) then Return st
    else
      bind (py_setitem "backend_name" backend_name user) (fun u1 =>
      bind (py_setitem "place_location" place_location u1) (fun u2 =>
      Return ({[k]} ∪ st.1, st.2 ++ [u2])))).

(** Body of [for result in results] in [/users/all]. *)
Definition merge_users_result (acc : merged * gset string) (result : pydict)
    : py_result (merged * gset string) :=
  if py_truthy (dict_get_default "success" JNull result) && dict_has "users" result then
    let backend_name := dict_get_default "_backend_name" (JStr "Unknown") result in
    let place_location := dict_get_default "_place_location" (JStr "Unknown") result in
    bind (py_iter (dict_get_default "users" JNull result)) (fun l =>
    bind (for_each (add_user backend_name place_location) (acc.2, entities acc.1) l)
      (fun st =>
         Return (record_source backend_name place_location acc.1 st.2, st.1)))
  else Return acc.

(** [GET /users/all] *)
Definition get_all_users_unified (cfg : backends) (net : string -> http_outcome)
    : py_result json :=
  bind (for_each merge_users_result (merged_empty, ∅) (call_all_backends cfg net))
    (fun st =>
       let acc := st.1 in
       Return (JDict [("success"%string, JBool true);
                      ("users"%string, JList (entities acc));
                      ("total_users"%string, len (entities acc));
                      ("backend_sources"%string, JList (backend_sources acc));
                      ("places"%string, JList (places acc));
                      ("message"%string,
                       JStr ("Retrieved " +:+ py_str (len (entities acc)) +:+ " unique users from "
                             +:+ py_str (len (backend_sources acc)) +:+ " places"))])).

(** Body of [for result in results] in [/summary/all]: the entity is a
    tagged copy of the whole result. *)
Definition merge_summary_result (acc : merged) (result : pydict) : py_result merged :=
  if py_truthy (dict_get_default "success" JNull result) then
    let backend_name := dict_get_default "_backend_name" (JStr "Unknown") result in
    let place_location := dict_get_default "_place_location" (JStr "Unknown") result in
    let summary := dict_set "place_location" place_location
                     (dict_set "backend_name" backend_name result) in
    Return (record_source backend_name place_location acc (entities acc ++ [JDict summary]))
  else Return acc.

(** [GET /summary/all] *)
Definition get_all_summary_unified (cfg : backends) (net : string -> http_outcome)
    : py_result json :=
  bind (for_each merge_summary_result merged_empty (call_all_backends cfg net))
    (fun acc =>
       Return (JDict [("success"%string, JBool true);
                      ("summaries"%string, JList (entities acc));
                      ("total_places"%string, len (entities acc));
                      ("backend_sources"%string, JList (backend_sources acc));
                      ("places"%string, JList (places acc));
                      ("message"%string,
                       JStr ("Retrieved summaries from "
                             +:+ py_str (len (backend_sources acc)) +:+ " places"))])).

(** *** Vocabulary of the specification *)

(** The seven outcome classes, as the branches of [call_backend] tell
    them apart. *)
Inductive classification : Type :=
| Success
| AuthFailed
| Forbidden
| ServerError
| HttpError
| Timeout
| ConnectionError.

Definition classify (o : http_outcome) : classification :=
  match o with
  | Response status _ _ =>
      if status =? 200 then Success
      else if status =? 401 then AuthFailed
      else if status =? 403 then Forbidden
      else if 500 <=? status then ServerError
      else HttpError
  | TimeoutError => Timeout
  | OtherException _ => ConnectionError
  end.

Definition error_code_of (c : classification) : string :=
  match c with
  | Success => EmptyString
  | AuthFailed => "AUTH_FAILED"
  | Forbidden => "ACCESS_DENIED"
  | ServerError => "SERVER_ERROR"
  | HttpError => "HTTP_ERROR"
  | Timeout => "TIMEOUT"
  | ConnectionError => "CONNECTION_ERROR"
  end.

(** A target fails in a classified way. *)
Definition failed (o : http_outcome) : bool :=
  match classify o with
  | Success => false
  | _ => true
  end.

Definition is_object (v : json) : bool :=
  match v with
  | JDict _ => true
  | _ => false
  end.

Inductive fan_out_endpoint : Type :=
| DevicesAll
| AttendanceAll
| UsersAll
| SummaryAll.

Definition handler (ep : fan_out_endpoint)
    : backends -> (string -> http_outcome) -> py_result json :=
  match ep with
  | DevicesAll => get_all_devices_unified
  | AttendanceAll => get_all_attendance_unified
  | UsersAll => get_all_users_unified
  | SummaryAll => get_all_summary_unified
  end.

(** The field of the gateway's response that holds the merged collection. *)
Definition collection_key (ep : fan_out_endpoint) : string :=
  match ep with
  | DevicesAll => "devices"
  | AttendanceAll => "data"
  | UsersAll => "users"
  | SummaryAll => "summaries"
  end.

(** The field of an upstream response that holds its entities
    ([/attendance/summary/all] has none: the response is the entity). *)
Definition upstream_key (ep : fan_out_endpoint) : option string :=
  match ep with
  | DevicesAll => Some "devices"%string
  | AttendanceAll => Some "data"%string
  | UsersAll => Some "users"%string
  | SummaryAll => None
  end.

(** A target succeeds on an endpoint: status 200 and a JSON object that
    honours the upstream contract [{success, <key>: [objects]}]. *)
Definition succeeds (ep : fan_out_endpoint) (o : http_outcome) : bool :=
  match o with
  | Response status _ (JDict d) =>
      (status =? 200) && py_truthy (dict_get_default "success" JNull d) &&
      match upstream_key ep with
      | Some key =>
          match dict_get key d with
          | Some (JList l) => forallb is_object l
          | _ => false
          end
      | None => true
      end
  | _ => false
  end.

(** An entity with the identity tags of backend [name]. *)
Definition tagged (name : string) (bc : backend_config) (e : json) : json :=
  match e with
  | JDict d =>
      JDict (dict_set "place_location" (JStr (location_or_unknown bc))
               (dict_set "backend_name" (JStr name) d))
  | _ => e
  end.

(** The tagged entities that the response of backend [name] offers to the
    merge. *)
Definition contribution (ep : fan_out_endpoint) (name : string)
    (bc : backend_config) (o : http_outcome) : list json :=
  match o with
  | Response _ process_time (JDict d) =>
      match upstream_key ep with
      | Some key =>
          match dict_get key d with
          | Some (JList l) => map (tagged name bc) l
          | _ => []
          end
      | None => [tagged name bc (JDict (add_backend_metadata name bc process_time d))]
      end
  | _ => []
  end.

(** A value carries the identity of backend [name]. *)
Definition carries_identity (name : string) (bc : backend_config) (v : json) : Prop :=
  exists d, v = JDict d /\
    dict_get "_backend_name" d = Some (JStr name) /\
    dict_get "_backend_url" d = Some (JStr (url bc)) /\
    dict_get "_place_location" d = Some (JStr (location_or_unknown bc)).

(** An entity carries the tags of some configured backend. *)
Definition entity_tagged (cfg : backends) (e : json) : Prop :=
  exists d name bc, e = JDict d /\ In (name, bc) cfg /\
    dict_get "backend_name" d = Some (JStr name) /\
    dict_get "place_location" d = Some (JStr (location_or_unknown bc)).

(** The [(name, userid)] pair of a user, with the defaults of the key. *)
Definition user_pair (user : pydict) : json * json :=
  (dict_get_default "name" (JStr EmptyString) user,
   dict_get_default "userid" (JStr EmptyString) user).

(** The results that [call_all_backends] keeps for the targets [bs]. *)
Definition results_of (cfg : backends) (net : string -> http_outcome)
    (bs : backends) : list pydict :=
  flat_map (fun b => valid_result (call_backend cfg (fst b) (net (fst b)))) bs.

(** The names of the targets of [bs] that succeed, in order. *)
Definition sources_of (ep : fan_out_endpoint) (net : string -> http_outcome)
    (bs : backends) : list json :=
  map (fun b => JStr (fst b)) (List.filter (fun b => succeeds ep (net (fst b))) bs).

(** Every entity of [es] is offered by a succeeding target of [bs]. *)
Definition drawn_from (ep : fan_out_endpoint) (net : string -> http_outcome)
    (bs : backends) (es : list json) : Prop :=
  forall e, In e es ->
    exists name bc, In (name, bc) bs /\ succeeds ep (net name) = true /\
                    In e (contribution ep name bc (net name)).

(** A loop body merges the results of the targets [bs] correctly: the loop
    returns, appends the succeeding names to [backend_sources], and
    appends only their entities. *)
Definition merges {A} (body : A -> pydict -> py_result A) (proj : A -> merged)
    (ep : fan_out_endpoint) (cfg : backends) (net : string -> http_outcome)
    (bs : backends) : Prop :=
  forall acc, exists acc',
    for_each body acc (results_of cfg net bs) = Return acc' /\
    backend_sources (proj acc') = backend_sources (proj acc) ++ sources_of ep net bs /\
    exists extra, entities (proj acc') = entities (proj acc) ++ extra /\
                  drawn_from ep net bs extra.

(** The targets of [bs] are registered in [cfg] and each one either fails
    in a classified way or succeeds. *)
Definition settled (ep : fan_out_endpoint) (cfg : backends)
    (net : string -> http_outcome) (bs : backends) : Prop :=
  forall name bc, In (name, bc) bs ->
    backend_lookup name cfg = Some bc /\
    (failed (net name) = true \/ succeeds ep (net name) = true).

(** The deduplication key of a user that is an object. *)
Definition key_of (user : pydict) : string :=
  py_str (fst (user_pair user)) +:+ "-" +:+ py_str (snd (user_pair user)).

(** A kept result names a configured backend in its metadata. *)
Definition result_identified (cfg : backends) (d : pydict) : Prop :=
  exists name bc, In (name, bc) cfg /\
    dict_get "_backend_name" d = Some (JStr name) /\
    dict_get "_place_location" d = Some (JStr (location_or_unknown bc)).

(** A value is an object that holds the two tags [bn] and [pl]. *)
Definition has_tags (bn pl : json) (e : json) : Prop :=
  exists d, e = JDict d /\
    dict_get "backend_name" d = Some bn /\ dict_get "place_location" d = Some pl.

(** The deduplication key of a listed user. *)
Definition entry_key (e : json) : string :=
  match e with
  | JDict u => key_of u
  | _ => EmptyString
  end.

(** *** Sample data *)

Definition backend_A : backend_config :=
  {| url := "http://a:8000"; location := Some "Cairo"%string; timeout := Some 5 |}.
Definition backend_B : backend_config :=
  {| url := "http://b:8000"; location := Some "Giza"%string; timeout := Some 5 |}.
Definition backend_C : backend_config :=
  {| url := "http://c:8000"; location := None; timeout := None |}.

Definition three_backends : backends :=
  [("A", backend_A); ("B", backend_B); ("C", backend_C)]%string.

Definition device (name : string) : json :=
  JDict [("device_name"%string, JStr name)].

Definition devices_response (names : list string) : http_outcome :=
  Response 200 None
    (JDict [("success"%string, JBool true); ("devices"%string, JList (map device names))]).

(** [B] does not answer in time; [A] and [C] do. *)
Definition net_B_times_out (name : string) : http_outcome :=
  if String.eqb name "B" then TimeoutError
  else if String.eqb name "A" then devices_response ["a1"; "a2"]%string
  else devices_response ["c1"]%string.

Definition user (name userid : string) : pydict :=
  [("name"%string, JStr name); ("userid"%string, JStr userid)].

Definition users_response (users : list pydict) : http_outcome :=
  Response 200 None
    (JDict [("success"%string, JBool true); ("users"%string, JList (map JDict users))]).

Definition two_backends : backends := [("A", backend_A); ("B", backend_B)]%string.

(** [A] reports two users whose keys coincide; [B] reports the second of
    them again. *)
Definition net_colliding_users (name : string) : http_outcome :=
  if String.eqb name "A" then users_response [user "a" "b-c"; user "a-b" "c"]
  else users_response [user "a-b" "c"].

Definition one_backend : backends := [("A"%string, backend_A)].

Definition net_two_users (name : string) : http_outcome :=
  users_response [user "a-b" "c"; user "a" "b-c"].

(** The response of [/devices/all] when [B] times out. *)
Definition devices_when_B_times_out : pydict :=
  Eval vm_compute in
    match get_all_devices_unified three_backends net_B_times_out with
    | Return (JDict resp) => resp
    | _ => []
    end.

Definition devices_of_A_and_C : list json :=
  Eval vm_compute in
    match dict_get "devices" devices_when_B_times_out with
    | Some (JList es) => es
    | _ => []
    end.

(** *** Direct and device endpoints *)

(** [call_specific_place_backend(backend_name, endpoint, params)] *)
Definition call_specific_place_backend (cfg : backends) (backend_name : string)
    (o : http_outcome) : py_result json :=
  call_backend cfg backend_name o.

(** [config.backends[place_name].get('location', 'Unknown')], read once
    the call for [place_name] has returned (so that the name is
    registered). *)
Definition place_location_of (cfg : backends) (place_name : string) : json :=
  JStr (match backend_lookup place_name cfg with
        | Some bc => location_or_unknown bc
        | None => "Unknown"
        end).

(** [for x in result.get(key, []): x["backend_name"] = ...;
    x["place_location"] = ...]: the items are tagged where they are, inside
    [result]. *)
Definition tag_in_place (key : string) (backend_name place_location : json)
    (result : pydict) : py_result pydict :=
  match dict_get key result with
  | None => Return result
  | Some v =>
      bind (py_iter v) (fun l =>
      bind (tag_entities backend_name place_location l) (fun tagged =>
      Return (match v with
              | JList _ => dict_set key (JList tagged) result
              | _ => result
              end)))
  end.

(** The common shape of [/place/{place_name}/devices], [.../attendance]
    and [.../users]. *)
Definition get_place_collection (key : string) (cfg : backends)
    (place_name : string) (o : http_outcome) : py_result json :=
  bind (call_specific_place_backend cfg place_name o) (fun result =>
    match result with
    | JDict d =>
        if py_truthy (dict_get_default "success" JNull d) then
          bind (tag_in_place key (JStr place_name) (place_location_of cfg place_name) d)
            (fun d' => Return (JDict d'))
        else Return result
    | _ => Raise AttributeError                 (* [result.get] *)
    end).

(** [GET /place/{place_name}/devices] *)
Definition get_place_devices : backends -> string -> http_outcome -> py_result json :=
  get_place_collection "devices".

(** [GET /place/{place_name}/attendance] *)
Definition get_place_attendance : backends -> string -> http_outcome -> py_result json :=
  get_place_collection "data".

(** [GET /place/{place_name}/users] *)
Definition get_place_users : backends -> string -> http_outcome -> py_result json :=
  get_place_collection "users".

(** [GET /place/{place_name}/summary] *)
Definition get_place_summary (cfg : backends) (place_name : string)
    (o : http_outcome) : py_result json :=
  bind (call_specific_place_backend cfg place_name o) (fun result =>
    match result with
    | JDict d =>
        if py_truthy (dict_get_default "success" JNull d) then
          Return (JDict (dict_set "place_location" (place_location_of cfg place_name)
                           (dict_set "backend_name" (JStr place_name) d)))
        else Return result
    | _ => Raise AttributeError
    end).

(** The loop of [/device/{device_name}/info] over the kept results. *)
Fixpoint find_device_info (device_name : string) (results : list pydict)
    : py_result json :=
  match results with
  | [] =>
      Raise (HTTPException 404 ("Device '" +:+ device_name +:+ "' not found in any place"))
  | result :: rest =>
      if py_truthy (dict_get_default "success" JNull result)
         && py_eqb (dict_get_default "device_name" JNull result) (JStr device_name)
      then
        Return (JDict (dict_set "place_location"
                         (dict_get_default "_place_location" (JStr "Unknown") result)
                         (dict_set "backend_name"
                            (dict_get_default "_backend_name" (JStr "Unknown") result)
                            result)))
      else find_device_info device_name rest
  end.

(** [GET /device/{device_name}/info] *)
Definition get_device_info (cfg : backends) (net : string -> http_outcome)
    (device_name : string) : py_result json :=
  find_device_info device_name (call_all_backends cfg net).

(** [[record for record in l if record.get("device_name") == device_name]] *)
Fixpoint records_of_device (device_name : string) (l : list json)
    : py_result (list json) :=
  match l with
  | [] => Return []
  | record :: l' =>
      bind (py_get "device_name" JNull record) (fun v =>
      bind (records_of_device device_name l') (fun rest =>
      Return (if py_eqb v (JStr device_name) then record :: rest else rest)))
  end.

(** The loop of [/device/{device_name}/attendance] over the kept results. *)
Fixpoint find_device_attendance (device_name : string) (results : list pydict)
    : py_result json :=
  match results with
  | [] =>
      Raise (HTTPException 404
               ("No attendance data found for device '" +:+ device_name +:+ "'"))
  | result :: rest =>
      if py_truthy (dict_get_default "success" JNull result) && dict_has "data" result then
        bind (py_iter (dict_get_default "data" JNull result)) (fun l =>
        bind (records_of_device device_name l) (fun device_data =>
          match device_data with
          | [] => find_device_attendance device_name rest
          | _ =>
              let place_location :=
                dict_get_default "_place_location" (JStr "Unknown") result in
              let backend_name :=
                dict_get_default "_backend_name" (JStr "Unknown") result in
              bind (tag_entities backend_name place_location device_data) (fun tagged =>
              Return (JDict [("success"%string, JBool true);
                             ("data"%string, JList tagged);
                             ("total_records"%string, len tagged);
                             ("device_name"%string, JStr device_name);
                             ("backend_name"%string, backend_name);
                             ("place_location"%string, place_location);
                             ("message"%string,
                              JStr ("Retrieved " +:+ py_str (len tagged)
                                    +:+ " records for device " +:+ device_name))]))
          end))
      else find_device_attendance device_name rest
  end.

(** [GET /device/{device_name}/attendance] *)
Definition get_device_attendance (cfg : backends) (net : string -> http_outcome)
    (device_name : string) : py_result json :=
  find_device_attendance device_name (call_all_backends cfg net).

(** *** Health *)

Definition py_type_name (v : json) : string :=
  match v with
  | JNull => "NoneType"
  | JBool _ => "bool"
  | JInt _ => "int"
  | JStr _ => "str"
  | JList _ => "list"
  | JDict _ => "dict"
  end.

(** [str(e)] for what the [try] of [health_check] can catch: the missing
    [get] of a result that is no [dict], or the exception of
    [call_backend] itself (raised for unregistered names only). *)
Definition health_error (r : py_result json) : string :=
  match r with
  | Return v => "'" +:+ py_type_name v +:+ "' object has no attribute 'get'"
  | Raise (HTTPException status_code detail) => str_of_int status_code +:+ ": " +:+ detail
  | Raise _ => EmptyString
  end.

(** The value stored in [backend_health[backend_name]]. *)
Definition health_entry (cfg : backends) (backend_name : string)
    (r : py_result json) : json :=
  let location := place_location_of cfg backend_name in
  let url := JStr (match backend_lookup backend_name cfg with
                   | Some bc => url bc
                   | None => EmptyString
                   end) in
  match r with
  | Return (JDict result) =>
      JDict [("status"%string,
              JStr (if py_eqb (dict_get_default "status" (JBool false) result)
                              (JStr "healthy")
                    then "healthy" else "unhealthy"));
             ("location"%string, location);
             ("url"%string, url);
             ("response"%string, JDict result)]
  | _ =>
      JDict [("status"%string, JStr "unhealthy");
             ("location"%string, location);
             ("url"%string, url);
             ("error"%string, JStr (health_error r))]
  end.

(** [h["status"] == "healthy"] *)
Definition entry_healthy (h : json) : bool :=
  match h with
  | JDict d => py_eqb (dict_get_default "status" JNull d) (JStr "healthy")
  | _ => false
  end.

(** [GET /health] *)
Definition health_check (cfg : backends) (net : string -> http_outcome) : json :=
  let backend_health :=
    fold_left (fun acc b =>
                 dict_set (fst b)
                   (health_entry cfg (fst b) (call_backend cfg (fst b) (net (fst b)))) acc)
      cfg [] in
  let healthy_backends :=
    length (List.filter (fun kv => entry_healthy (snd kv)) backend_health) in
  JDict [("service"%string, JStr "Unified Gateway");
         ("status"%string, JStr (if (0 <? healthy_backends)%nat then "healthy" else "unhealthy"));
         ("total_places"%string, JInt (Z.of_nat (length cfg)));
         ("healthy_places"%string, JInt (Z.of_nat healthy_backends));
         ("place_health"%string, JDict backend_health)].

(** *** Registry from the environment *)

(** [backends[name] = value] *)
Fixpoint backends_set (name : string) (bc : backend_config) (cfg : backends) : backends :=
  match cfg with
  | [] => [(name, bc)]
  | (n, b) :: cfg' =>
      if String.eqb name n then (name, bc) :: cfg' else (n, b) :: backends_set name bc cfg'
  end.

(** One round of the loop [for i in range(10)] of [_load_backend_configs]:
    the entry it adds, if any ([getenv] is [os.getenv]).  The [devices] and
    [description] items of the entry, which no modelled function reads,
    are left out. *)
Definition env_backend (getenv : string -> option string) (i : nat)
    : option (string * backend_config) :=
  let n := str_of_int (Z.of_nat i) in
  let name :=
    if (i =? 0)%nat then Some (default "Place_1_BackOffice"%string (getenv "BACKEND_NAME"))
    else getenv ("BACKEND_" +:+ n +:+ "_NAME") in
  let url :=
    if (i =? 0)%nat then Some (default "http://localhost:8000"%string (getenv "BACKEND_URL"))
    else getenv ("BACKEND_" +:+ n +:+ "_URL") in
  let location :=
    if (i =? 0)%nat then default "Default Location"%string (getenv "BACKEND_LOCATION")
    else default ("Location " +:+ n) (getenv ("BACKEND_" +:+ n +:+ "_LOCATION")) in
  match name, url with
  | Some (String _ _ as name), Some (String _ _ as url) =>
      Some (name, {| url := url; location := Some location; timeout := Some 30 |})
  | _, _ => None
  end.

(** The environment fallback of [_load_backend_configs]. *)
Definition load_backend_configs_env (getenv : string -> option string) : backends :=
  fold_left (fun acc i =>
               match env_backend getenv i with
               | Some (name, bc) => backends_set name bc acc
               | None => acc
               end)
    (seq 0 10) [].

(** *** More vocabulary and samples *)

(** A backend reports itself healthy. *)
Definition reports_healthy (o : http_outcome) : bool :=
  match o with
  | Response status _ (JDict d) =>
      (status =? 200) && py_eqb (dict_get_default "status" (JBool false) d) (JStr "healthy")
  | _ => false
  end.

(** A record names the device [device_name]. *)
Definition names_device (device_name : string) (e : json) : Prop :=
  exists d, e = JDict d /\
    py_eqb (dict_get_default "device_name" JNull d) (JStr device_name) = true.

Definition no_env (name : string) : option string := None.

Definition health_response (status : string) : http_outcome :=
  Response 200 None (JDict [("status"%string, JStr status)]).

(** [A] is healthy, [B] answers 503, [C] is degraded. *)
Definition net_health (name : string) : http_outcome :=
  if String.eqb name "A" then health_response "healthy"
  else if String.eqb name "B" then Response 503 None JNull
  else health_response "degraded".

Definition net_all_down (name : string) : http_outcome := TimeoutError.

Definition attendance_response (records : list (string * string)) : http_outcome :=
  Response 200 None
    (JDict [("success"%string, JBool true);
            ("data"%string,
             JList (map (fun r => JDict [("device_name"%string, JStr (fst r));
                                         ("user"%string, JStr (snd r))]) records))]).

(** [A] and [B] both have a device called [Main]. *)
Definition net_two_mains (name : string) : http_outcome :=
  if String.eqb name "A" then attendance_response [("Main", "ali"); ("Gate", "omar")]
  else attendance_response [("Main", "sara")].

(** The bookkeeping of a unified handler after the targets [srcs] were
    merged: [backend_sources] lists them, and [places] lists locations of
    theirs, each one once. *)
Definition names_recorded (cfg : backends) (srcs : list string) (acc : merged) : Prop :=
  backend_sources acc = map JStr srcs /\
  List.NoDup (places acc) /\
  forall p, In p (places acc) ->
    exists name bc, In name srcs /\ backend_lookup name cfg = Some bc /\
                    p = JStr (location_or_unknown bc).

(** A loop body leaves the bookkeeping alone or records the backend of
    the result. *)
Definition records_or_skips {A} (body : A -> pydict -> py_result A)
    (proj : A -> merged) : Prop :=
  forall acc d acc', body acc d = Return acc' ->
    (backend_sources (proj acc') = backend_sources (proj acc) /\
     places (proj acc') = places (proj acc)) \/
    exists ents,
      proj acc' = record_source (dict_get_default "_backend_name" (JStr "Unknown") d)
                    (dict_get_default "_place_location" (JStr "Unknown") d)
                    (proj acc) ents.

(** The response of [/users/all] over [two_backends] with colliding keys. *)
Definition users_when_colliding : pydict :=
  Eval vm_compute in
    match get_all_users_unified two_backends net_colliding_users with
    | Return (JDict resp) => resp
    | _ => []
    end.

Definition users_listed_when_colliding : list json :=
  Eval vm_compute in
    match dict_get "users" users_when_colliding with
    | Some (JList es) => es
    | _ => []
    end.

(** [A] answers 200 with a body that is a list. *)
Definition net_list_body (name : string) : http_outcome :=
  Response 200 None (JList [device "a1"]).

(** The response of [/device/Main/attendance] when two places have a
    device of that name. *)
Definition attendance_of_main : pydict :=
  Eval vm_compute in
    match get_device_attendance two_backends net_two_mains "Main" with
    | Return (JDict resp) => resp
    | _ => []
    end.

(** *** The merged collection *)

(** The tagged entities that the succeeding targets of [bs] offer, in the
    order of registration. *)
Definition offered (ep : fan_out_endpoint) (net : string -> http_outcome)
    (bs : backends) : list json :=
  flat_map (fun b => if succeeds ep (net (fst b))
                     then contribution ep (fst b) (snd b) (net (fst b))
                     else []) bs.

(** Listing an entity, and listing it unless an entity of the same key is
    listed already; the state is the set of the keys met and the list. *)
Definition keep_all (st : gset string * list json) (e : json)
    : gset string * list json :=
  (st.1, st.2 ++ [e]).

Definition keep_first (st : gset string * list json) (e : json)
    : gset string * list json :=
  if decide (entry_key e ∈ st.1) then st
  else ({[entry_key e]} ∪ st.1, st.2 ++ [e]).

Definition keeper (ep : fan_out_endpoint)
    : gset string * list json -> json -> gset string * list json :=
  match ep with
  | UsersAll => keep_first
  | _ => keep_all
  end.

(** The collection that a fan-out endpoint owes: everything offered, in
    order; for users, the first entry of each key. *)
Definition merged_collection (ep : fan_out_endpoint) (net : string -> http_outcome)
    (bs : backends) : list json :=
  (fold_left (keeper ep) (offered ep net bs) (∅, [])).2.

(** A loop body absorbs the results of the targets [bs]: the loop returns,
    and its state, seen through [view] as a set of keys and a list, is the
    one that listing the offered entities leads to. *)
Definition absorbs {A} (body : A -> pydict -> py_result A)
    (view : A -> gset string * list json)
    (ep : fan_out_endpoint) (cfg : backends) (net : string -> http_outcome)
    (bs : backends) : Prop :=
  forall acc, exists acc',
    for_each body acc (results_of cfg net bs) = Return acc' /\
    view acc' = fold_left (keeper ep) (offered ep net bs) (view acc).

(** [B] does not answer in time and [C] answers well; [A] answers 200 with
    [devices: null], and [A] answers 200 with [success: false]. *)
Definition net_A_null_devices (name : string) : http_outcome :=
  if String.eqb name "B" then TimeoutError
  else if String.eqb name "A" then
    Response 200 None (JDict [("success"%string, JBool true); ("devices"%string, JNull)])
  else devices_response ["c1"]%string.

Definition net_A_declines (name : string) : http_outcome :=
  if String.eqb name "B" then TimeoutError
  else if String.eqb name "A" then
    Response 200 None (JDict [("success"%string, JBool false);
                              ("error"%string, JStr "Device offline")])
  else devices_response ["c1"]%string.

(** [A] and [B] answer with users, [C] does not answer in time. *)
Definition net_users_C_times_out (name : string) : http_outcome :=
  if String.eqb name "C" then TimeoutError else net_colliding_users name.

End Gateway.

(** ** The security layer ([core/security.py]) *)

Module Security.
Import Py.

Local Open Scope Q_scope.

(** *** Text helpers *)

(** [c.isspace()], which is also what [str.strip] removes and what [\s]
    matches. *)
Definition is_space (c : ascii) : bool :=
  let n := N_of_ascii c in
  ((9 <=? n) && (n <=? 13) || (28 <=? n) && (n <=? 32) || (n =? 133) || (n =? 160))%N.

(** [c.lower()] *)
Definition lower_char (c : ascii) : ascii :=
  let n := N_of_ascii c in
  if ((65 <=? n) && (n <=? 90) || (192 <=? n) && (n <=? 222) && negb (n =? 215))%N
  then ascii_of_N (n + 32) else c.

(** [s.lower()] *)
Fixpoint lower (s : string) : string :=
  match s with
  | EmptyString => EmptyString
  | String c s' => String (lower_char c) (lower s')
  end.

Fixpoint lstrip_by (space : ascii -> bool) (s : string) : string :=
  match s with
  | EmptyString => EmptyString
  | String c s' => if space c then lstrip_by space s' else s
  end.

Fixpoint rstrip_by (space : ascii -> bool) (s : string) : string :=
  match s with
  | EmptyString => EmptyString
  | String c s' =>
      match rstrip_by space s' with
      | EmptyString => if space c then EmptyString else String c EmptyString
      | r => String c r
      end
  end.

(** [s.strip()] *)
Definition strip (s : string) : string := rstrip_by is_space (lstrip_by is_space s).

(** [s.split(",")] *)
Fixpoint split_comma (s : string) : list string :=
  match s with
  | EmptyString => [EmptyString]
  | String c s' =>
      if Ascii.eqb c "," then EmptyString :: split_comma s'
      else match split_comma s' with
           | [] => [String c EmptyString]
           | x :: l => String c x :: l
           end
  end.

Definition is_digit (c : ascii) : bool :=
  let n := N_of_ascii c in ((48 <=? n) && (n <=? 57))%N.

Fixpoint parse_digits (s : string) (acc : Z) (after_digit : bool) : option Z :=
  match s with
  | EmptyString => if after_digit then Some acc else None
  | String c s' =>
      if is_digit c then
        parse_digits s' (10 * acc + Z.of_N (N_of_ascii c - 48))%Z true
      else if Ascii.eqb c "_" then
        if after_digit then parse_digits s' acc false else None
      else None
  end.

(** The blanks that [int] skips around a numeral: the ASCII ones, and the
    two blanks above 127 (which [int] turns into spaces before it
    parses). *)
Definition is_int_space (c : ascii) : bool :=
  let n := N_of_ascii c in
  ((9 <=? n) && (n <=? 13) || (n =? 32) || (n =? 133) || (n =? 160))%N.

Fixpoint count_digits (s : string) : nat :=
  match s with
  | EmptyString => 0
  | String c s' => (if is_digit c then 1 else 0) + count_digits s'
  end.

(** [sys.get_int_max_str_digits()], at its default. *)
Definition int_max_str_digits : nat := 4300.

(** [int(s)] for a [str]: [None] stands for [ValueError], which is also
    what a numeral of more than [int_max_str_digits] digits raises
    (CPython 3.11, and the releases of 3.8 to 3.10 that carry the
    limit). *)
Definition py_int (s : string) : option Z :=
  let numeral := rstrip_by is_int_space (lstrip_by is_int_space s) in
  if (int_max_str_digits <? count_digits numeral)%nat then None
  else
    match numeral with
    | String "+" r => parse_digits r 0%Z false
    | String "-" r => Z.opp <$> parse_digits r 0%Z false
    | r => parse_digits r 0%Z false
    end.

(** *** Regular expressions

    The fragment of [re] that [blocked_patterns] uses.  [re.search] is
    only tested for truth, so groups and laziness play no role: a pattern
    is searched by Brzozowski derivatives. *)

Inductive regex : Type :=
| Empty                      (* matches nothing; arises from derivatives *)
| Eps                        (* the empty pattern *)
| Chr (c : ascii)            (* a literal (or escaped) character *)
| Dot                        (* [.] : anything but a newline *)
| Whitespace                 (* [\s] *)
| Cat (r1 r2 : regex)
| Alt (r1 r2 : regex)
| Star (r : regex).

(** [r+] *)
Definition Plus (r : regex) : regex := Cat r (Star r).

(** A run of literal characters. *)
Fixpoint Lit (s : string) : regex :=
  match s with
  | EmptyString => Eps
  | String c s' => Cat (Chr c) (Lit s')
  end.

Fixpoint nullable (r : regex) : bool :=
  match r with
  | Empty | Chr _ | Dot | Whitespace => false
  | Eps | Star _ => true
  | Cat r1 r2 => nullable r1 && nullable r2
  | Alt r1 r2 => nullable r1 || nullable r2
  end.

(** Derivative by one character under [re.IGNORECASE]. *)
Fixpoint deriv (c : ascii) (r : regex) : regex :=
  match r with
  | Empty | Eps => Empty
  | Chr c' => if Ascii.eqb (lower_char c) (lower_char c') then Eps else Empty
  | Dot => if (N_of_ascii c =? 10)%N then Empty else Eps
  | Whitespace => if is_space c then Eps else Empty
  | Cat r1 r2 =>
      if nullable r1 then Alt (Cat (deriv c r1) r2) (deriv c r2)
      else Cat (deriv c r1) r2
  | Alt r1 r2 => Alt (deriv c r1) (deriv c r2)
  | Star r1 => Cat (deriv c r1) (Star r1)
  end.

(** Some prefix of [s] matches [r] ([re.match]). *)
Fixpoint re_match (r : regex) (s : string) : bool :=
  nullable r ||
  match s with
  | EmptyString => false
  | String c s' => re_match (deriv c r) s'
  end.

(** Some substring of [s] matches [r] ([re.search(r, s, re.IGNORECASE)] is
    not [None]). *)
Fixpoint re_search (r : regex) (s : string) : bool :=
  re_match r s ||
  match s with
  | EmptyString => false
  | String _ s' => re_search r s'
  end.

(** *** Configuration *)

(** [self.blocked_patterns] *)
Definition blocked_patterns : list regex :=
  [ Alt (Lit "../") (Cat (Lit "..") (Chr Py.backslash));   (* (\.\./|\.\.\\) *)
    Cat (Lit "<script") (Cat (Star Dot) (Chr ">"));        (* <script.*?>    *)
    Cat (Lit "union") (Cat (Star Dot) (Lit "select"));     (* union.*select  *)
    Cat (Lit "drop") (Cat (Plus Whitespace) (Lit "table"));(* drop\s+table   *)
    Lit "exec(" ].                                         (* exec\(         *)

(** [self.jwt_algorithm] *)
Definition jwt_algorithm : string := "HS256".

(** [self.security_headers] *)
Definition security_headers : list (string * string) :=
  [ ("X-Content-Type-Options", "nosniff");
    ("X-Frame-Options", "SAMEORIGIN");
    ("X-XSS-Protection", "1; mode=block");
    ("Referrer-Policy", "strict-origin-when-cross-origin");
    ("X-Powered-By", "BiometricFlow-Secure");
    ("Cache-Control", "no-cache, no-store, must-revalidate");
    ("Pragma", "no-cache");
    ("Expires", "0") ]%string.

(** The attributes of [SecurityConfig] that are read from the environment. *)
Record SecurityConfig : Type := {
  jwt_secret : string;
  jwt_expire_hours : Z;
  rate_limit_requests : Z;
  rate_limit_window : Z;
  max_request_size : Z;
  ngrok_enabled : bool;
  allowed_ips : list string
}.

(** [_get_allowed_ips]: the local defaults, then the non-blank entries of
    [ALLOWED_IPS], then the NGROK ranges. *)
Definition get_allowed_ips (env_allowed_ips : string) (ngrok : bool) : list string :=
  let default_ips := ["127.0.0.1"; "::1"; "localhost"]%string in
  let custom_ips :=
    map strip (List.filter (fun ip => negb (String.eqb (strip ip) EmptyString))
                 (split_comma env_allowed_ips)) in
  let ngrok_ranges :=
    ["3.20.0.0/16"; "3.21.0.0/16"; "3.22.0.0/16"; "3.23.0.0/16";
     "13.59.0.0/16"; "18.216.0.0/16"; "18.217.0.0/16"]%string in
  (default_ips ++ custom_ips ++ (if ngrok then ngrok_ranges else []))%list.

(** [is_safe_request] *)
Definition is_safe_request (request_data : string) : bool :=
  let request_lower := lower request_data in
  forallb (fun pattern => negb (re_search pattern request_lower)) blocked_patterns.

(** *** Token service

    [jwt.encode] and [jwt.decode] belong to the PyJWT library.  They are
    modelled by the library's documented behaviour:
      - a token text either is not a compact JWS with a JSON header, or
        has a header that is JSON nested deeper than [json.loads] follows,
        or carries an algorithm name, a payload and a signature; the
        payload is a JSON value (its numbers are integers, as [json] has
        them) or JSON nested deeper than [json.loads] follows;
      - the signature is represented by the key under which it is the
        HMAC tag of this header and payload, if there is one;
      - [encode] stores a [datetime] under [exp], [iat] or [nbf] as whole
        seconds since the epoch ([timegm(d.utctimetuple())]);
      - [decode] parses the header, checks algorithm and signature, then
        [iat], [nbf], [exp] against the clock, [aud] against the (absent)
        audience and, from release 2.10 on, the types of [sub] and [jti];
        the clock is read with its fraction and a token is expired when
        [exp <= now] (PyJWT 2.6 and later);
      - a failure of these checks raises a subclass of
        [InvalidTokenError]; the [RecursionError] of [json.loads] and the
        [TypeError] of [int(None)], [int([])] or [int({})] on a time claim
        are not caught by PyJWT and leave [decode] as they are;
      - the secret is a key that PyJWT accepts for HMAC (no PEM or SSH key
        text), so that neither [encode] nor [decode] raises
        [InvalidKeyError]. *)

(** What varies between the releases of PyJWT that the code runs on. *)
Class PyJWTLib : Type := {
  validates_sub_jti : bool          (* release 2.10 and later *)
}.

Definition pyjwt_before_2_10 : PyJWTLib := {| validates_sub_jti := false |}.
Definition pyjwt_2_10 : PyJWTLib := {| validates_sub_jti := true |}.

Inductive token : Type :=
| Malformed
| DeepHeader
| DeepPayload (alg : string) (signed_with : option string)
| Jws (alg : string) (payload : json) (signed_with : option string).

Inductive pyjwt_error : Type :=
| DecodeError
| InvalidAlgorithmError
| InvalidSignatureError
| ExpiredSignatureError
| ImmatureSignatureError
| InvalidIssuedAtError
| InvalidAudienceError
| InvalidSubjectError
| InvalidJTIError.

(** The exception classes named in [except] clauses. *)
Inductive pyjwt_class : Type :=
| ClsExpiredSignatureError
| ClsInvalidTokenError.

(** [isinstance(e, cls)]: every error above derives from
    [InvalidTokenError]. *)
Definition isinstance (e : pyjwt_error) (cls : pyjwt_class) : bool :=
  match cls, e with
  | ClsExpiredSignatureError, ExpiredSignatureError => true
  | ClsExpiredSignatureError, _ => false
  | ClsInvalidTokenError, _ => true
  end.

(** What leaves [jwt.decode] when it does not return: an exception of
    PyJWT, or a Python exception that PyJWT does not wrap. *)
Inductive raised : Type :=
| JwtError (e : pyjwt_error)
| OtherError (e : exn).

(** [int(payload[claim])] as the validators call it: [ValueError] for a
    text that is no numeral, [TypeError] for [None], a list or a dict. *)
Definition claim_int (v : json) : py_result Z :=
  match v with
  | JInt n => Return n
  | JBool b => Return (if b then 1 else 0)%Z
  | JStr s => match py_int s with
              | Some n => Return n
              | None => Raise ValueError
              end
  | JNull | JList _ | JDict _ => Raise TypeError
  end.

Definition Qltb (x y : Q) : bool := negb (Qle_bool y x).

(** One of [_validate_iat], [_validate_nbf] and [_validate_exp]:
    [try: n = int(payload[name]) except ValueError: raise not_int], then
    the test against the clock. *)
Definition validate_time_claim (name : string) (not_int : pyjwt_error)
    (test : Z -> option pyjwt_error) (claims : pydict) : option raised :=
  match dict_get name claims with
  | None => None
  | Some v =>
      match claim_int v with
      | Return n => JwtError <$> test n
      | Raise ValueError => Some (JwtError not_int)
      | Raise e => Some (OtherError e)
      end
  end.

(** [_validate_sub] and [_validate_jti] without an expected value. *)
Definition validate_str_claim (name : string) (not_str : pyjwt_error)
    (claims : pydict) : option raised :=
  match dict_get name claims with
  | None | Some (JStr _) => None
  | Some _ => Some (JwtError not_str)
  end.

(** The first check that raises. *)
Fixpoint first_raised (checks : list (option raised)) : option raised :=
  match checks with
  | [] => None
  | Some r :: _ => Some r
  | None :: checks' => first_raised checks'
  end.

(** PyJWT's [_validate_claims] with default options, no [audience], no
    [issuer], no [subject] and no leeway. *)
Definition validate_claims {jwt : PyJWTLib} (claims : pydict) (now : Q)
    : option raised :=
  first_raised
    [ validate_time_claim "iat" InvalidIssuedAtError
        (fun iat => if Qltb now (inject_Z iat) then Some ImmatureSignatureError else None)
        claims;
      validate_time_claim "nbf" DecodeError
        (fun nbf => if Qltb now (inject_Z nbf) then Some ImmatureSignatureError else None)
        claims;
      validate_time_claim "exp" DecodeError
        (fun exp => if Qle_bool (inject_Z exp) now then Some ExpiredSignatureError else None)
        claims;
      (if py_truthy (dict_get_default "aud" JNull claims)
       then Some (JwtError InvalidAudienceError) else None);
      (if validates_sub_jti then validate_str_claim "sub" InvalidSubjectError claims
       else None);
      (if validates_sub_jti then validate_str_claim "jti" InvalidJTIError claims
       else None) ].

(** [jwt.decode(token, key, algorithms=...)] read at clock [now]. *)
Definition jwt_decode {jwt : PyJWTLib} (t : token) (key : string)
    (algorithms : list string) (now : Q) : raised + pydict :=
  match t with
  | Malformed => inl (JwtError DecodeError)
  | DeepHeader => inl (OtherError RecursionError)
  | DeepPayload alg signed_with =>
      if negb (existsb (String.eqb alg) algorithms)
      then inl (JwtError InvalidAlgorithmError)
      else if negb (bool_decide (signed_with = Some key))
      then inl (JwtError InvalidSignatureError)
      else inl (OtherError RecursionError)
  | Jws alg payload signed_with =>
      if negb (existsb (String.eqb alg) algorithms)
      then inl (JwtError InvalidAlgorithmError)
      else if negb (bool_decide (signed_with = Some key))
      then inl (JwtError InvalidSignatureError)
      else match payload with
           | JDict claims =>
               match validate_claims claims now with
               | Some e => inl e
               | None => inr claims
               end
           | _ => inl (JwtError DecodeError)
           end
  end.

(** [jwt.encode(payload, key, algorithm=...)] *)
Definition jwt_encode (payload : pydict) (key : string) (algorithm : string) : token :=
  Jws algorithm (JDict payload) (Some key).

(** A [datetime] as [jwt.encode] stores it. *)
Definition int_date (t : Q) : json := JInt (Qfloor t).

(** [create_jwt_token(payload)]; [utcnow_exp] and [utcnow_iat] are the two
    readings of [datetime.utcnow()], in evaluation order. *)
Definition create_jwt_token (cfg : SecurityConfig) (utcnow_exp utcnow_iat : Q)
    (payload : pydict) : token :=
  let payload' :=
    dict_update
      [("exp"%string, int_date (utcnow_exp + inject_Z (jwt_expire_hours cfg * 3600)));
       ("iat"%string, int_date utcnow_iat);
       ("iss"%string, JStr "BiometricFlow-ZK")]
      payload in
  jwt_encode payload' (jwt_secret cfg) jwt_algorithm.

(** What leaves [verify_jwt_token]: a value, or an exception that no
    [except] clause caught. *)
Inductive verify_result : Type :=
| Returned (payload : option pydict)
| Propagated (e : raised).

(** [verify_jwt_token(token)] read at clock [now]. *)
Definition verify_jwt_token {jwt : PyJWTLib} (cfg : SecurityConfig) (t : token)
    (now : Q) : verify_result :=
  match jwt_decode t (jwt_secret cfg) [jwt_algorithm] now with
  | inr payload => Returned (Some payload)
  | inl (JwtError e) =>
      if isinstance e ClsExpiredSignatureError then Returned None
      else if isinstance e ClsInvalidTokenError then Returned None
      else Propagated (JwtError e)
  | inl (OtherError e) => Propagated (OtherError e)
  end.

(** *** IP allow-list

    Parsing and comparing addresses is the work of Python's [ipaddress]
    module, taken here as an interface: [None] stands for [ValueError]. *)

Class IpAddressLib : Type := {
  ip_addr : Type;
  ip_net : Type;
  ip_address : string -> option ip_addr;
  ip_network : string -> option ip_net;          (* [strict=False] *)
  ip_addr_eqb : ip_addr -> ip_addr -> bool;
  ip_addr_in : ip_addr -> ip_net -> bool
}.

(** An [ipaddress] that accepts no text at all; it serves where the
    allow-list is empty or matches textually, so that no parsing occurs. *)
Definition no_parse_iplib : IpAddressLib :=
  {| ip_addr := unit; ip_net := unit;
     ip_address := fun _ => None; ip_network := fun _ => None;
     ip_addr_eqb := fun _ _ => false; ip_addr_in := fun _ _ => false |}.

(** [is_ip_allowed] *)
Definition is_ip_allowed {lib : IpAddressLib} (cfg : SecurityConfig) (client_ip : string) : bool :=
  match allowed_ips cfg with
  | [] => true
  | _ =>
      if existsb (String.eqb client_ip) (allowed_ips cfg) then true
      else
        match ip_address client_ip with
        | None => false
        | Some client_addr =>
            existsb
              (fun allowed =>
                 if str_contains_char "/" allowed then
                   match ip_network allowed with
                   | Some network => ip_addr_in client_addr network
                   | None => false
                   end
                 else
                   match ip_address allowed with
                   | Some a => ip_addr_eqb client_addr a
                   | None => false
                   end)
              (allowed_ips cfg)
        end
  end.

(** *** Requests *)

Record Request : Type := {
  path : string;                       (* [request.url.path] *)
  method : string;
  headers : list (string * string);    (* names in lower case *)
  client_host : option string;         (* [request.client.host] *)
  body : option string                 (* [await request.body()], decoded;
                                          [None] when reading raises *)
}.

Fixpoint assoc (k : string) (l : list (string * string)) : option string :=
  match l with
  | [] => None
  | (k', v) :: l' => if String.eqb k k' then Some v else assoc k l'
  end.

(** [request.headers.get(name)]: header names compare without case. *)
Definition header_get (name : string) (req : Request) : option string :=
  assoc (lower name) (headers req).

Definition headers_to_check : list string :=
  ["X-Forwarded-For"; "X-Real-IP"; "X-Original-Forwarded-For";
   "CF-Connecting-IP"; "True-Client-IP"]%string.

(** [get_client_ip] *)
Definition get_client_ip (req : Request) : string :=
  let fix scan (hs : list string) : string :=
    match hs with
    | [] => default "unknown"%string (client_host req)
    | h :: hs' =>
        match header_get h req with
        | Some (String _ _ as value) =>
            let ip := strip (hd EmptyString (split_comma value)) in
            if negb (String.eqb ip EmptyString) && negb (String.eqb ip "unknown")
            then ip else scan hs'
        | _ => scan hs'
        end
    end in
  scan headers_to_check.

(** *** Rate limiter *)

(** One entry written by [log_security_event] (its timestamp is left
    out). *)
Record security_event : Type := {
  event_type : string;
  details : string;
  event_client_ip : string;
  severity : string
}.

(** The module-level mutable state: [rate_limit_storage],
    [blocked_ips_cache] and the security log. *)
Record state : Type := {
  rate_limit_storage : gmap string (list Q);
  blocked_ips_cache : gmap string Q;
  security_log : list security_event
}.

Definition log_security_event (type details client_ip : string) (st : state) : state :=
  {| rate_limit_storage := rate_limit_storage st;
     blocked_ips_cache := blocked_ips_cache st;
     security_log :=
       security_log st ++
       [{| event_type := type; details := details; event_client_ip := client_ip;
           severity := if existsb (String.eqb type) ["MALICIOUS_REQUEST"; "IP_BLOCKED"]%string
                       then "HIGH" else "MEDIUM" |}] |}.

Definition set_storage (s : gmap string (list Q)) (st : state) : state :=
  {| rate_limit_storage := s;
     blocked_ips_cache := blocked_ips_cache st;
     security_log := security_log st |}.

Definition set_blocked (b : gmap string Q) (st : state) : state :=
  {| rate_limit_storage := rate_limit_storage st;
     blocked_ips_cache := b;
     security_log := security_log st |}.

(** [time.time()] is a [float] and so are the sums and differences taken
    of it: a double is held as the rational it stands for, and the sum
    and the difference of two doubles are the exact ones rounded to the
    nearest double, ties to even (IEEE 754 binary64; clock readings lie
    far from the subnormal range and from overflow, which are left out). *)
Definition round_half_even (num den : Z) : Z :=
  let m := (num / den)%Z in
  let r := (num mod den)%Z in
  if (2 * r <? den)%Z then m
  else if (den <? 2 * r)%Z then (m + 1)%Z
  else if Z.even m then m else (m + 1)%Z.

(** The double nearest to [x]: with [2^k <= |x| < 2^(k+1)], the multiple
    of [2^(k-52)] nearest to [x]. *)
Definition round64 (x : Q) : Q :=
  let n := Qnum x in
  let d := Zpos (Qden x) in
  if (n =? 0)%Z then 0
  else
    let a := Z.abs n in
    let k0 := (Z.log2 a - Z.log2 d)%Z in
    let k := if (if 0 <=? k0 then 2 ^ k0 * d <=? a else d <=? 2 ^ (- k0) * a)%Z
             then k0 else (k0 - 1)%Z in
    let e := (k - 52)%Z in
    let m := if (0 <=? e)%Z then round_half_even a (d * 2 ^ e)
             else round_half_even (a * 2 ^ (- e)) d in
    let m := (Z.sgn n * m)%Z in
    if (0 <=? e)%Z then inject_Z (m * 2 ^ e) else Qmake m (Z.to_pos (2 ^ (- e))).

(** [x + y] and [x - y] on floats, [float(z)] for an [int]. *)
Definition fadd (x y : Q) : Q := round64 (x + y).
Definition fsub (x y : Q) : Q := round64 (x - y).
Definition float_of_int (z : Z) : Q := round64 (inject_Z z).

(** [window_start = current_time - security_config.rate_limit_window] *)
Definition window_start (cfg : SecurityConfig) (current_time : Q) : Q :=
  fsub current_time (float_of_int (rate_limit_window cfg)).

(** [current_time + 300], the end of a block set at [current_time]. *)
Definition block_end (current_time : Q) : Q := fadd current_time 300.

(** [check_rate_limit(client_ip)] with [current_time] the reading of
    [time.time()]. *)
Definition check_rate_limit (cfg : SecurityConfig) (client_ip : string)
    (current_time : Q) (st : state) : bool * state :=
  let window_start := window_start cfg current_time in
  let proceed (st1 : state) : bool * state :=
    let kept :=
      match rate_limit_storage st1 !! client_ip with
      | Some l => List.filter (fun timestamp => Qltb window_start timestamp) l
      | None => []
      end in
    let st2 := set_storage (<[client_ip := kept]> (rate_limit_storage st1)) st1 in
    if (rate_limit_requests cfg <=? Z.of_nat (length kept))%Z then
      let st3 := set_blocked (<[client_ip := block_end current_time]> (blocked_ips_cache st2)) st2 in
      (false, log_security_event "RATE_LIMIT_EXCEEDED" "IP blocked for 5 minutes" client_ip st3)
    else
      (true, set_storage (<[client_ip := kept ++ [current_time]]> (rate_limit_storage st2)) st2) in
  match blocked_ips_cache st !! client_ip with
  | Some blocked_until =>
      if Qltb current_time blocked_until then (false, st)
      else proceed (set_blocked (delete client_ip (blocked_ips_cache st)) st)
  | None => proceed st
  end.

(** *** Middleware *)

Record Response : Type := {
  status_code : Z;
  response_headers : list (string * string)    (* names in lower case *)
}.

Fixpoint assoc_set (k v : string) (l : list (string * string)) : list (string * string) :=
  match l with
  | [] => [(k, v)]
  | (k', v') :: l' =>
      if String.eqb k k' then (k, v) :: l' else (k', v') :: assoc_set k v l'
  end.

(** [response.headers[name] = value] *)
Definition set_header (name value : string) (resp : Response) : Response :=
  {| status_code := status_code resp;
     response_headers := assoc_set (lower name) value (response_headers resp) |}.

Definition add_security_headers (resp : Response) : Response :=
  fold_left (fun r hv => set_header (fst hv) (snd hv) r) security_headers resp.

Definition exempt_paths : list string :=
  ["/health"; "/"; "/docs"; "/redoc"; "/openapi.json"]%string.

Definition mutating_methods : list string := ["POST"; "PUT"; "PATCH"]%string.

(** The content check of the middleware, with its enclosing
    [try: ... except Exception: pass]: a body that cannot be read, and the
    [HTTPException] raised inside the [try] for an unsafe body, are both
    caught by the [except] clause, since [HTTPException] derives from
    [Exception]. *)
Definition content_validation (req : Request) (client_ip : string) (st : state)
    : py_result unit * state :=
  if existsb (String.eqb (method req)) mutating_methods then
    let attempt : py_result unit * state :=
      match body req with
      | None => (Raise RuntimeError, st)      (* whatever the read raised *)
      | Some b =>
          if negb (String.eqb b EmptyString) && negb (is_safe_request b) then
            (Raise (HTTPException 400 "Request contains invalid patterns"),
             log_security_event "MALICIOUS_REQUEST" "Blocked malicious request pattern"
               client_ip st)
          else (Return tt, st)
      end in
    match attempt with
    | (Raise _, st') => (Return tt, st')         (* except Exception: pass *)
    | r => r
    end
  else (Return tt, st).

(** What [await call_next(request)] amounts to for the middleware.  The
    application below it answers with a response, an [HTTPException]
    raised by a route or a dependency being turned into a response by the
    application's exception handlers before it gets here, or it lets
    another exception through, which [call_next] raises again in the
    middleware.  On the way its handlers may have called
    [log_security_event]; they write to neither [rate_limit_storage] nor
    [blocked_ips_cache]. *)
Inductive handler_reply : Type :=
| Replied (resp : Response)
| Failed (what : string).             (* the class of the exception *)

Record handled : Type := {
  reply : handler_reply;
  logged : list security_event
}.

Definition append_log (events : list security_event) (st : state) : state :=
  {| rate_limit_storage := rate_limit_storage st;
     blocked_ips_cache := blocked_ips_cache st;
     security_log := security_log st ++ events |}.

(** [response = await call_next(request)], then the response phase
    [secure] and [return response]. *)
Definition respond (secure : Response -> Response) (h : handled) (st : state)
    : py_result Response * state :=
  match reply h with
  | Replied resp => (Return (secure resp), append_log (logged h) st)
  | Failed what => (Raise (Unhandled what), append_log (logged h) st)
  end.

(** [security_middleware(request, call_next)]: [current_time] is the clock
    as [check_rate_limit] reads it.  Of the response phase, the fixed
    security headers and the NGROK marker are kept; the [X-Process-Time]
    header and the access-log line are left out. *)
Definition security_middleware {lib : IpAddressLib} (cfg : SecurityConfig)
    (call_next : Request -> handled) (req : Request) (current_time : Q)
    (st : state) : py_result Response * state :=
  let client_ip := get_client_ip req in
  if existsb (String.eqb (path req)) exempt_paths then
    respond add_security_headers (call_next req) st
  else if (match allowed_ips cfg with [] => false | _ => true end)
          && negb (is_ip_allowed cfg client_ip) then
    (Raise (HTTPException 403 "Access denied from this IP address"),
     log_security_event "IP_BLOCKED" "IP not in allowlist" client_ip st)
  else
    let (allowed, st1) := check_rate_limit cfg client_ip current_time st in
    if negb allowed then
      (Raise (HTTPException 429 "Rate limit exceeded. Try again later."), st1)
    else
      let size_check : py_result bool :=
        match header_get "content-length" req with
        | Some (String _ _ as content_length) =>
            match py_int content_length with
            | Some n => Return (max_request_size cfg <? n)%Z
            | None => Raise ValueError
            end
        | _ => Return false
        end in
      match size_check with
      | Raise e => (Raise e, st1)
      | Return true =>
          (Raise (HTTPException 413 "Request payload too large"),
           log_security_event "REQUEST_TOO_LARGE"
             ("Request size: " +:+ default EmptyString (header_get "content-length" req))
             client_ip st1)
      | Return false =>
          match content_validation req client_ip st1 with
          | (Raise e, st2) => (Raise e, st2)
          | (Return _, st2) =>
              respond
                (fun response =>
                   let response := add_security_headers response in
                   if ngrok_enabled cfg then set_header "X-NGROK-Secured" "true" response
                   else response)
                (call_next req) st2
          end
      end.

(** The status that the client receives.  The middleware is registered
    with [app.middleware("http")], outside the exception handlers of the
    application: an exception that leaves it, an [HTTPException]
    included, reaches Starlette's [ServerErrorMiddleware], which answers
    500. *)
Definition client_status (outcome : py_result Response) : Z :=
  match outcome with
  | Return resp => status_code resp
  | Raise _ => 500
  end.

(** *** Vocabulary of the specification *)


(** A request gets as far as the rate limiter: its path is not exempt and
    the IP check lets it through. *)
Definition reaches_rate_limiter {lib : IpAddressLib} (cfg : SecurityConfig)
    (req : Request) : Prop :=
  existsb (String.eqb (path req)) exempt_paths = false /\
  (allowed_ips cfg = [] \/ is_ip_allowed cfg (get_client_ip req) = true).

(** The exception of the rate-limiting step. *)
Definition too_many_requests : exn :=
  HTTPException 429 "Rate limit exceeded. Try again later.".

(** How many admitted requests of the client are on record inside the
    window that ends at [t]. *)
Definition admitted_in_window (cfg : SecurityConfig) (client : string) (t : Q)
    (st : state) : nat :=
  match rate_limit_storage st !! client with
  | Some l => length (List.filter (fun u => Qltb (window_start cfg t) u) l)
  | None => 0
  end.

(** The client has a block that lies in the future of [t]. *)
Definition blocked_at (client : string) (t : Q) (st : state) : bool :=
  match blocked_ips_cache st !! client with
  | Some blocked_until => Qltb t blocked_until
  | None => false
  end.

(** Successive rate-limit checks of one client at the clock readings
    [ts]. *)
Fixpoint run_checks (cfg : SecurityConfig) (client : string) (ts : list Q)
    (st : state) : state :=
  match ts with
  | [] => st
  | t :: ts' => run_checks cfg client ts' (snd (check_rate_limit cfg client t st))
  end.

(** The timestamps on record for a client. *)
Definition stored (client : string) (st : state) : list Q :=
  default [] (rate_limit_storage st !! client).

(** A payload that is a JSON object. *)
Definition is_claims (payload : json) : bool :=
  match payload with
  | JDict _ => true
  | _ => false
  end.

(** [int] accepts the value (it returns or raises [ValueError]). *)
Definition int_convertible (v : json) : bool :=
  match v with
  | JNull | JList _ | JDict _ => false
  | _ => true
  end.

(** The time claim is absent or a value that [int] accepts. *)
Definition readable (name : string) (claims : pydict) : Prop :=
  forall v, dict_get name claims = Some v -> int_convertible v = true.

(** A token that verification must refuse: malformed, not signed with the
    configured secret, or expired at [now] (its [iat] and [nbf], which
    are checked before [exp], being readable). *)
Inductive invalid_token (cfg : SecurityConfig) (now : Q) : token -> Prop :=
| invalid_malformed :
    invalid_token cfg now Malformed
| invalid_payload alg payload signed_with :
    is_claims payload = false ->
    invalid_token cfg now (Jws alg payload signed_with)
| invalid_algorithm alg payload signed_with :
    alg <> jwt_algorithm ->
    invalid_token cfg now (Jws alg payload signed_with)
| invalid_signature alg payload signed_with :
    signed_with <> Some (jwt_secret cfg) ->
    invalid_token cfg now (Jws alg payload signed_with)
| invalid_expired alg claims signed_with exp :
    readable "iat" claims -> readable "nbf" claims ->
    dict_get "exp" claims = Some (JInt exp) -> inject_Z exp <= now ->
    invalid_token cfg now (Jws alg (JDict claims) signed_with).

(** The expiry instant that a token issued at [utcnow_exp] carries. *)
Definition expiry (cfg : SecurityConfig) (utcnow_exp : Q) : Z :=
  Qfloor (utcnow_exp + inject_Z (jwt_expire_hours cfg * 3600)).

(** The payload that a token issued from [claims] embeds. *)
Definition embedded_payload (cfg : SecurityConfig) (utcnow_exp utcnow_iat : Q)
    (claims : pydict) : pydict :=
  dict_update
    [("exp"%string, JInt (expiry cfg utcnow_exp));
     ("iat"%string, JInt (Qfloor utcnow_iat));
     ("iss"%string, JStr "BiometricFlow-ZK")]
    claims.

(** *** Sample data *)

Definition empty_state : state :=
  {| rate_limit_storage := ∅; blocked_ips_cache := ∅; security_log := [] |}.

(** One request per minute, one hour of token life, no IP restriction. *)
Definition strict_config : SecurityConfig :=
  {| jwt_secret := "s3cret-s3cret-s3cret-s3cret";
     jwt_expire_hours := 1;
     rate_limit_requests := 1;
     rate_limit_window := 60;
     max_request_size := 5242880;
     ngrok_enabled := false;
     allowed_ips := [] |}.

Definition ok_response : Response := {| status_code := 200; response_headers := [] |}.

Definition call_next_ok (req : Request) : handled :=
  {| reply := Replied ok_response; logged := [] |}.

Definition get_devices : Request :=
  {| path := "/devices/all"; method := "GET"; headers := [];
     client_host := Some "10.0.0.9"%string; body := Some EmptyString |}.


Definition post_traversal : Request :=
  {| path := "/place/A/devices"; method := "POST"; headers := [];
     client_host := Some "10.0.0.9"%string; body := Some "../../etc/passwd"%string |}.

Definition post_script : Request :=
  {| path := "/place/A/devices"; method := "POST"; headers := [];
     client_host := Some "10.0.0.9"%string;
     body := Some "<script>alert(1)</script>"%string |}.

Definition blocked_state : state :=
  {| rate_limit_storage := {[ "10.0.0.9"%string := [0] ]};
     blocked_ips_cache := {[ "10.0.0.9"%string := 301 ]};
     security_log := [] |}.

Definition gateway_claims : pydict :=
  [("gateway"%string, JBool true); ("backend"%string, JStr "A")].

(** *** Credential check *)

(** What [HTTPBearer(auto_error=False)] hands to [validate_api_key]: the
    bearer text, together with what PyJWT's parser reads in that text. *)
Record bearer : Type := {
  credentials : string;
  credentials_jwt : token
}.

(** What leaves [validate_api_key]: [True], an [HTTPException], or an
    exception that [verify_jwt_token] let through. *)
Inductive auth_outcome : Type :=
| Granted
| Denied (e : exn)
| Leaked (e : raised).

(** [validate_api_key(credentials)]: [api_keys] is
    [security_config.api_keys], [getenv] is [os.getenv]. *)
Definition validate_api_key {jwt : PyJWTLib} (cfg : SecurityConfig)
    (api_keys : gset string)
    (getenv : string -> option string) (cred : option bearer) (now : Q)
    (st : state) : auth_outcome * state :=
  match cred with
  | None =>
      if bool_decide (getenv "ENVIRONMENT"%string = Some "development"%string)
         && String.eqb (lower (default "false"%string (getenv "ALLOW_NO_AUTH"%string))) "true"
      then (Granted, st)
      else (Denied (HTTPException 401
                      "Authentication required - API key or JWT token needed"), st)
  | Some c =>
      match verify_jwt_token cfg (credentials_jwt c) now with
      | Propagated e => (Leaked e, st)
      | Returned jwt_payload =>
          if match jwt_payload with
             | Some payload => py_truthy (JDict payload)
             | None => false
             end
          then (Granted, st)
          else if bool_decide (credentials c ∈ api_keys) then (Granted, st)
          else (Denied (HTTPException 401 "Invalid authentication credentials"),
                log_security_event "INVALID_AUTH" "Invalid API key/token attempt"
                  "unknown" st)
      end
  end.

(** [_load_api_keys]: [fresh_main] and [fresh_backend] are the values that
    [secrets.token_urlsafe(32)] yields when it is called. *)
Definition load_api_keys (getenv : string -> option string)
    (fresh_main fresh_backend : string) : gset string :=
  let env_keys := split_comma (default EmptyString (getenv "API_KEYS"%string)) in
  let kept :=
    map strip
      (List.filter (fun key => negb (String.eqb (strip key) EmptyString)
                               && (16 <=? String.length (strip key))%nat)
         env_keys) in
  match kept with
  | [] =>
      let main_key :=
        match getenv "MAIN_API_KEY"%string with
        | Some (String _ _ as k) => k
        | _ => fresh_main
        end in
      let backend_key :=
        match getenv "BACKEND_API_KEY"%string with
        | Some (String _ _ as k) => k
        | _ => fresh_backend
        end in
      {[main_key]} ∪ {[backend_key]}
  | _ => list_to_set kept
  end.

(** *** More vocabulary and samples *)

(** Successive rate-limit checks of any clients. *)
Fixpoint check_all (cfg : SecurityConfig) (reqs : list (string * Q)) (st : state)
    : state :=
  match reqs with
  | [] => st
  | (client, t) :: reqs' =>
      check_all cfg reqs' (snd (check_rate_limit cfg client t st))
  end.

(** The severity that [log_security_event] assigns to an event type. *)
Definition severity_of (type : string) : string :=
  if existsb (String.eqb type) ["MALICIOUS_REQUEST"; "IP_BLOCKED"]%string
  then "HIGH" else "MEDIUM".

(** [a] occurs in [s] as a substring. *)
Definition substring_of (a s : string) : Prop :=
  exists before after, s = String.append before (String.append a after).

(** A request carries none of the proxy headers. *)
Definition no_proxy_headers (req : Request) : Prop :=
  Forall (fun h => header_get h req = None) headers_to_check.

Definition dev_env (name : string) : option string :=
  if String.eqb name "ENVIRONMENT" then Some "development"%string
  else if String.eqb name "ALLOW_NO_AUTH" then Some "TRUE"%string
  else None.

Definition no_env (name : string) : option string := None.

Definition keys_env (name : string) : option string :=
  if String.eqb name "API_KEYS" then Some " short , 0123456789abcdef0123 ,,"%string
  else if String.eqb name "MAIN_API_KEY" then Some "main-key-main-key-main-key"%string
  else None.

Definition static_key : bearer :=
  {| credentials := "0123456789abcdef0123"; credentials_jwt := Malformed |}.

Definition minted_token : bearer :=
  {| credentials := "eyJ.minted.token";
     credentials_jwt := create_jwt_token strict_config (1 # 2) (1 # 2) gateway_claims |}.

(** The configuration of a deployment that sets no allow-list of its
    own. *)
Definition default_ips_config : SecurityConfig :=
  {| jwt_secret := "s3cret-s3cret-s3cret-s3cret";
     jwt_expire_hours := 24;
     rate_limit_requests := 60;
     rate_limit_window := 60;
     max_request_size := 5242880;
     ngrok_enabled := false;
     allowed_ips := get_allowed_ips EmptyString false |}.

Definition forwarded (ip : string) : Request :=
  {| path := "/devices/all"; method := "GET";
     headers := [("x-forwarded-for"%string, ip)];
     client_host := Some "10.0.0.9"%string; body := Some EmptyString |}.

Definition oversized_post : Request :=
  {| path := "/place/A/devices"; method := "POST";
     headers := [("content-length", "6000000")]%string;
     client_host := Some "10.0.0.9"%string; body := Some "{}"%string |}.

Definition garbled_length_post : Request :=
  {| path := "/place/A/devices"; method := "POST";
     headers := [("content-length", "12abc")]%string;
     client_host := Some "10.0.0.9"%string; body := Some "{}"%string |}.

(** The timestamps of the client that a check at [t] keeps: those inside
    the window that ends at [t]. *)
Definition kept_in_window (cfg : SecurityConfig) (client : string) (t : Q)
    (st : state) : list Q :=
  List.filter (fun u => Qltb (window_start cfg t) u) (stored client st).

(** The records of every client but [client] are the same in both
    states. *)
Definition others_untouched (client : string) (st st' : state) : Prop :=
  forall other, other <> client ->
    rate_limit_storage st' !! other = rate_limit_storage st !! other /\
    blocked_ips_cache st' !! other = blocked_ips_cache st !! other.

(** The log entry of a new block. *)
Definition rate_limit_event (client : string) : security_event :=
  {| event_type := "RATE_LIMIT_EXCEEDED"; details := "IP blocked for 5 minutes";
     event_client_ip := client; severity := "MEDIUM" |}.

(** No client has more timestamps on record than the limit allows. *)
Definition storage_bounded (cfg : SecurityConfig) (st : state) : Prop :=
  forall client,
    (Z.of_nat (length (stored client st)) <= Z.max 0 (rate_limit_requests cfg))%Z.

(** The event types that the middleware logs. *)
Definition middleware_events : list string :=
  ["IP_BLOCKED"; "RATE_LIMIT_EXCEEDED"; "REQUEST_TOO_LARGE"; "MALICIOUS_REQUEST"]%string.

(** The response phase of the middleware on a path that is not exempt. *)
Definition secured_response (cfg : SecurityConfig) (resp : Response) : Response :=
  if ngrok_enabled cfg then set_header "X-NGROK-Secured" "true" (add_security_headers resp)
  else add_security_headers resp.

(** The rejections of the middleware. *)
Definition access_denied : exn := HTTPException 403 "Access denied from this IP address".
Definition payload_too_large : exn := HTTPException 413 "Request payload too large".

(** The log entry of a refused address. *)
Definition ip_blocked_event (client : string) : security_event :=
  {| event_type := "IP_BLOCKED"; details := "IP not in allowlist";
     event_client_ip := client; severity := "HIGH" |}.

(** A configuration with a limit of two requests per minute that admits
    local addresses only. *)
Definition local_only_config : SecurityConfig :=
  {| jwt_secret := "s3cret-s3cret-s3cret-s3cret";
     jwt_expire_hours := 1;
     rate_limit_requests := 2;
     rate_limit_window := 60;
     max_request_size := 5242880;
     ngrok_enabled := true;
     allowed_ips := get_allowed_ips " 10.0.0.9 ,, 192.168.1.0/24" false |}.

(** The address is one of the local defaults of the allow-list, or an
    entry of [ALLOWED_IPS] without its surrounding blanks. *)
Definition listed_address (env_allowed_ips : string) (ip : string) : Prop :=
  In ip ["127.0.0.1"; "::1"; "localhost"]%string \/
  exists entry, In entry (split_comma env_allowed_ips) /\
                strip entry <> EmptyString /\ ip = strip entry.

(** The log entry of a refused credential. *)
Definition invalid_auth_event : security_event :=
  {| event_type := "INVALID_AUTH"; details := "Invalid API key/token attempt";
     event_client_ip := "unknown"; severity := "MEDIUM" |}.

(** The two 401 answers of [validate_api_key]. *)
Definition authentication_required : exn :=
  HTTPException 401 "Authentication required - API key or JWT token needed".
Definition invalid_credentials : exn :=
  HTTPException 401 "Invalid authentication credentials".

(** The entries of [API_KEYS]. *)
Definition api_key_entries (getenv : string -> option string) : list string :=
  split_comma (default EmptyString (getenv "API_KEYS"%string)).

(** A variable of the environment, or a fresh value when it is unset or
    empty. *)
Definition env_or (getenv : string -> option string) (name fresh : string) : string :=
  match getenv name with
  | Some (String _ _ as k) => k
  | _ => fresh
  end.

(** The double nearest to 0.2, a clock reading [t] for which [t + 300] is
    rounded downwards. *)
Definition one_fifth : Q := 3602879701896397 # 18014398509481984.

(** The claim is absent or a string. *)
Definition str_or_absent (name : string) (claims : pydict) : Prop :=
  match dict_get name claims with
  | None | Some (JStr _) => True
  | Some _ => False
  end.

(** The claims that the running release of PyJWT wants to be strings are
    strings. *)
Definition well_typed_claims {jwt : PyJWTLib} (claims : pydict) : Prop :=
  validates_sub_jti = true -> str_or_absent "sub" claims /\ str_or_absent "jti" claims.

(** The handler ran: the middleware hands on its response, or the
    exception that it let through. *)
Definition reached_handler (outcome : py_result Response) : bool :=
  match outcome with
  | Return _ | Raise (Unhandled _) => true
  | Raise _ => false
  end.

(** A handler that answers after one of its backends has timed out, and a
    handler that fails. *)
Definition backend_timeout_event : security_event :=
  {| event_type := "BACKEND_TIMEOUT"; details := "Timeout calling backend A";
     event_client_ip := "gateway"; severity := "MEDIUM" |}.

Definition call_next_timeout (req : Request) : handled :=
  {| reply := Replied ok_response; logged := [backend_timeout_event] |}.

Definition call_next_failing (req : Request) : handled :=
  {| reply := Failed "TypeError"; logged := [] |}.

(** A numeral of [n] digits. *)
Definition long_numeral (n : nat) : string :=
  string_of_list_ascii (List.repeat "1"%char n).

End Security.

(** * Properties *)

(** ** Dictionaries and loops *)

Module PyFacts.
Import Py.

Lemma dict_get_set_eq (k : string) (v : json) (d : pydict) :
  dict_get k (dict_set k v d) = Some v.
Proof.
  induction d as [|[k' v'] d IH]; simpl.
  - now rewrite String.eqb_refl.
  - destruct (String.eqb k k') eqn:E; simpl; rewrite ?String.eqb_refl, ?E; auto.
Qed.

Lemma dict_get_set_ne (k k' : string) (v : json) (d : pydict) :
  k <> k' -> dict_get k (dict_set k' v d) = dict_get k d.
Proof.
  intros Hne. apply String.eqb_neq in Hne.
  induction d as [|[k0 v0] d IH]; simpl.
  - now rewrite Hne.
  - destruct (String.eqb k' k0) eqn:E; simpl.
    + apply String.eqb_eq in E. subst k0. now rewrite Hne.
    + now rewrite IH.
Qed.

Lemma bind_inv {A B} (m : py_result A) (f : A -> py_result B) (b : B) :
  bind m f = Return b -> exists a, m = Return a /\ f a = Return b.
Proof. destruct m as [a|e]; simpl; [eauto | discriminate]. Qed.

Example py_repr_nested :
  py_repr (JDict [("a"%string, JList [JInt (-12); JStr "x"; JNull; JBool true])])
  = "{'a': [-12, 'x', None, True]}"%string.
Proof. reflexivity. Qed.

Example py_str_of_str : py_str (JStr "a-b") = "a-b"%string.
Proof. reflexivity. Qed.

Example py_eqb_bool_int : py_eqb (JBool true) (JInt 1) = true.
Proof. reflexivity. Qed.

Example py_eqb_dict_order :
  py_eqb (JDict [("a"%string, JInt 1); ("b"%string, JNull)])
         (JDict [("b"%string, JNull); ("a"%string, JInt 1)]) = true.
Proof. reflexivity. Qed.

End PyFacts.

(** ** The aggregation gateway *)

Module GatewayProps.
Import Py PyFacts Gateway.

Lemma backend_lookup_In (name : string) (cfg : backends) (bc : backend_config) :
  backend_lookup name cfg = Some bc -> In (name, bc) cfg.
Proof.
  induction cfg as [|[n b] cfg IH]; simpl; [discriminate|].
  destruct (String.eqb name n) eqn:E.
  - apply String.eqb_eq in E. intros [= ->]. subst. now left.
  - intros H. right. now apply IH.
Qed.

Lemma backend_lookup_NoDup (name : string) (cfg : backends) (bc : backend_config) :
  List.NoDup (map fst cfg) -> In (name, bc) cfg -> backend_lookup name cfg = Some bc.
Proof.
  induction cfg as [|[n b] cfg IH]; simpl; [tauto|].
  intros Hnd [Heq|Hin].
  - injection Heq as -> ->. now rewrite String.eqb_refl.
  - inversion Hnd as [|? ? Hnotin Hnd']; subst.
    destruct (String.eqb name n) eqn:E.
    + apply String.eqb_eq in E. subst n. exfalso. apply Hnotin.
      apply in_map_iff. now exists (name, bc).
    + now apply IH.
Qed.

Lemma for_each_app {A B} (body : A -> B -> py_result A) (acc : A) (l1 l2 : list B) :
  for_each body acc (l1 ++ l2) =
  bind (for_each body acc l1) (fun acc' => for_each body acc' l2).
Proof.
  revert acc. induction l1 as [|x l1 IH]; intros acc; simpl; [reflexivity|].
  destruct (body acc x) as [acc'|e]; simpl; [apply IH | reflexivity].
Qed.

Lemma call_all_backends_unfold (cfg : backends) (net : string -> http_outcome) :
  call_all_backends cfg net = results_of cfg net cfg.
Proof.
  unfold call_all_backends, results_of. generalize cfg at 1 3. intros cfg0.
  induction cfg as [|b cfg IH]; simpl; [reflexivity|]. now rewrite IH.
Qed.

(** A classified failure yields the error dictionary of its class. *)
Lemma call_backend_failed (cfg : backends) (name : string) (bc : backend_config)
    (o : http_outcome) :
  backend_lookup name cfg = Some bc -> failed o = true ->
  exists msg, call_backend cfg name o =
              Return (error_result name bc msg (error_code_of (classify o))).
Proof.
  intros Hl Hf. unfold call_backend. rewrite Hl.
  unfold failed in Hf. destruct o as [status pt data| |msg]; simpl in *.
  - destruct (status =? 200); [discriminate|].
    destruct (status =? 401); [eauto|].
    destruct (status =? 403); [eauto|].
    destruct (500 <=? status); eauto.
  - eauto.
  - eauto.
Qed.

Lemma call_backend_object (cfg : backends) (name : string) (bc : backend_config)
    (status : Z) (pt : option string) (d : pydict) :
  backend_lookup name cfg = Some bc -> (status =? 200) = true ->
  call_backend cfg name (Response status pt (JDict d)) =
  Return (JDict (add_backend_metadata name bc pt d)).
Proof. intros Hl Hs. unfold call_backend. now rewrite Hl, Hs. Qed.

Lemma metadata_backend_name name bc pt d :
  dict_get "_backend_name" (add_backend_metadata name bc pt d) = Some (JStr name).
Proof.
  unfold add_backend_metadata.
  rewrite !dict_get_set_ne by discriminate. apply dict_get_set_eq.
Qed.

Lemma metadata_backend_url name bc pt d :
  dict_get "_backend_url" (add_backend_metadata name bc pt d) = Some (JStr (url bc)).
Proof.
  unfold add_backend_metadata.
  rewrite !dict_get_set_ne by discriminate. apply dict_get_set_eq.
Qed.

Lemma metadata_place_location name bc pt d :
  dict_get "_place_location" (add_backend_metadata name bc pt d)
  = Some (JStr (location_or_unknown bc)).
Proof.
  unfold add_backend_metadata.
  rewrite !dict_get_set_ne by discriminate. apply dict_get_set_eq.
Qed.

Lemma metadata_other (k : string) name bc pt d :
  k <> "_backend_name"%string -> k <> "_backend_url"%string ->
  k <> "_place_location"%string -> k <> "_response_time"%string ->
  dict_get k (add_backend_metadata name bc pt d) = dict_get k d.
Proof.
  intros. unfold add_backend_metadata. now rewrite !dict_get_set_ne.
Qed.

Lemma succeeds_not_failed (ep : fan_out_endpoint) (o : http_outcome) :
  succeeds ep o = true -> failed o = false.
Proof.
  unfold succeeds, failed, classify.
  destruct o as [status pt [| | | | |d]| |]; try discriminate.
  destruct (status =? 200); [reflexivity | discriminate].
Qed.

Lemma tag_entities_objects (name : string) (bc : backend_config) (l : list json) :
  forallb is_object l = true ->
  tag_entities (JStr name) (JStr (location_or_unknown bc)) l
  = Return (map (tagged name bc) l).
Proof.
  induction l as [|e l IH]; simpl; [reflexivity|].
  intros H. apply andb_prop in H as [He Hl].
  destruct e; try discriminate. simpl. now rewrite (IH Hl).
Qed.

(** ** Folding over the targets *)

Section Fold.
Context {A : Type} (body : A -> pydict -> py_result A) (proj : A -> merged).
Variables (ep : fan_out_endpoint) (cfg : backends) (net : string -> http_outcome).

Lemma merges_nil : merges body proj ep cfg net [].
Proof.
  intros acc. exists acc. simpl. unfold sources_of. simpl.
  rewrite !app_nil_r. repeat split; try reflexivity.
  exists []. rewrite app_nil_r. split; [reflexivity|]. intros e [].
Qed.

Lemma merges_cons (b : string * backend_config) (bs : backends) :
  merges body proj ep cfg net [b] -> merges body proj ep cfg net bs ->
  merges body proj ep cfg net (b :: bs).
Proof.
  intros Hb Hbs acc.
  destruct (Hb acc) as (acc1 & Hrun1 & Hsrc1 & extra1 & Hent1 & Hfrom1).
  destruct (Hbs acc1) as (acc2 & Hrun2 & Hsrc2 & extra2 & Hent2 & Hfrom2).
  exists acc2. repeat split.
  - change (results_of cfg net (b :: bs))
      with (valid_result (call_backend cfg (fst b) (net (fst b))) ++ results_of cfg net bs).
    rewrite for_each_app.
    unfold results_of in Hrun1. simpl in Hrun1. rewrite app_nil_r in Hrun1.
    now rewrite Hrun1.
  - rewrite Hsrc2, Hsrc1, <- app_assoc. f_equal.
    unfold sources_of. simpl. destruct (succeeds ep (net (fst b))); reflexivity.
  - exists (extra1 ++ extra2). split.
    + now rewrite Hent2, Hent1, <- app_assoc.
    + intros e He. apply in_app_or in He as [He|He].
      * destruct (Hfrom1 e He) as (name & bc & Hin & Hs & Hc).
        exists name, bc. repeat split; auto.
        destruct Hin as [<-|[]]. now left.
      * destruct (Hfrom2 e He) as (name & bc & Hin & Hs & Hc).
        exists name, bc. repeat split; auto. now right.
Qed.

Lemma merges_all (bs : backends) :
  (forall b, In b bs -> merges body proj ep cfg net [b]) ->
  merges body proj ep cfg net bs.
Proof.
  induction bs as [|b bs IH]; intros H; [apply merges_nil|].
  apply merges_cons; [apply H; now left|]. apply IH. intros b' Hb'. apply H. now right.
Qed.

(** A target whose kept result is skipped by the loop body. *)
Lemma merges_skipped (name : string) (bc : backend_config) (d : pydict) :
  valid_result (call_backend cfg name (net name)) = [d] ->
  succeeds ep (net name) = false ->
  (forall acc, body acc d = Return acc) ->
  merges body proj ep cfg net [(name, bc)].
Proof.
  intros Hres Hs Hbody acc. exists acc.
  unfold results_of, sources_of. simpl. rewrite Hres, Hs. simpl.
  rewrite Hbody, !app_nil_r. repeat split; try reflexivity.
  exists []. rewrite app_nil_r. split; [reflexivity|]. intros e [].
Qed.

End Fold.

(** ** One target at a time *)

Lemma succeeds_inv (ep : fan_out_endpoint) (o : http_outcome) :
  succeeds ep o = true ->
  exists status pt d, o = Response status pt (JDict d) /\
    (status =? 200) = true /\
    py_truthy (dict_get_default "success" JNull d) = true /\
    match upstream_key ep with
    | Some key => exists l, dict_get key d = Some (JList l) /\ forallb is_object l = true
    | None => True
    end.
Proof.
  unfold succeeds. destruct o as [status pt [| | | | |d]| |]; try discriminate.
  intros H. apply andb_prop in H as [H H3]. apply andb_prop in H as [H1 H2].
  exists status, pt, d. repeat split; auto.
  destruct (upstream_key ep) as [key|]; [|exact I].
  destruct (dict_get key d) as [[| | | |l|]|]; try discriminate. eauto.
Qed.

Lemma merge_result_succeeds (key : string) (acc : merged) name bc pt d l :
  In key ["devices"; "data"]%string ->
  py_truthy (dict_get_default "success" JNull d) = true ->
  dict_get key d = Some (JList l) -> forallb is_object l = true ->
  merge_result key acc (add_backend_metadata name bc pt d)
  = Return (record_source (JStr name) (JStr (location_or_unknown bc)) acc
              (entities acc ++ map (tagged name bc) l)).
Proof.
  intros Hkey Ht Hget Hobj.
  assert (Hk : dict_get key (add_backend_metadata name bc pt d) = Some (JList l)).
  { rewrite metadata_other; auto; destruct Hkey as [<-|[<-|[]]]; discriminate. }
  unfold merge_result, dict_has, dict_get_default in *.
  rewrite metadata_other by discriminate.
  rewrite Ht, Hk, metadata_backend_name, metadata_place_location. simpl.
  now rewrite tag_entities_objects.
Qed.

Lemma merge_result_single (ep : fan_out_endpoint) (key : string) cfg net name bc :
  upstream_key ep = Some key -> In key ["devices"; "data"]%string ->
  backend_lookup name cfg = Some bc ->
  failed (net name) = true \/ succeeds ep (net name) = true ->
  merges (merge_result key) (fun acc => acc) ep cfg net [(name, bc)].
Proof.
  intros Hep Hkey Hl [Hf|Hs].
  - destruct (call_backend_failed cfg name bc _ Hl Hf) as [msg Hcall].
    eapply merges_skipped.
    + rewrite Hcall. reflexivity.
    + destruct (succeeds ep (net name)) eqn:E; [|reflexivity].
      apply succeeds_not_failed in E. congruence.
    + intros acc. reflexivity.
  - destruct (succeeds_inv _ _ Hs) as (status & pt & d & Ho & H200 & Ht & Hc).
    rewrite Hep in Hc. destruct Hc as (l & Hget & Hobj).
    intros acc. eexists. unfold results_of, sources_of. simpl.
    rewrite Hs. rewrite Ho at 1. rewrite (call_backend_object _ _ _ _ _ _ Hl H200). simpl.
    rewrite (merge_result_succeeds key acc name bc pt d l) by assumption. simpl.
    repeat split.
    exists (map (tagged name bc) l). split; [reflexivity|].
    intros e He. exists name, bc. repeat split; [now left | assumption |].
    rewrite Ho. simpl. now rewrite Hep, Hget.
Qed.

Lemma merge_summary_single cfg net name bc :
  backend_lookup name cfg = Some bc ->
  failed (net name) = true \/ succeeds SummaryAll (net name) = true ->
  merges merge_summary_result (fun acc => acc) SummaryAll cfg net [(name, bc)].
Proof.
  intros Hl [Hf|Hs].
  - destruct (call_backend_failed cfg name bc _ Hl Hf) as [msg Hcall].
    eapply merges_skipped.
    + rewrite Hcall. reflexivity.
    + destruct (succeeds SummaryAll (net name)) eqn:E; [|reflexivity].
      apply succeeds_not_failed in E. congruence.
    + intros acc. reflexivity.
  - destruct (succeeds_inv _ _ Hs) as (status & pt & d & Ho & H200 & Ht & _).
    intros acc. eexists. unfold results_of, sources_of. simpl.
    rewrite Hs. rewrite Ho at 1. rewrite (call_backend_object _ _ _ _ _ _ Hl H200). simpl.
    unfold merge_summary_result, dict_get_default in *.
    rewrite metadata_other by discriminate.
    rewrite Ht, metadata_backend_name, metadata_place_location. simpl.
    repeat split.
    eexists. split; [reflexivity|].
    intros e [<-|[]]. exists name, bc. repeat split; [now left | assumption |].
    rewrite Ho. simpl. now left.
Qed.

Lemma user_key_object (u : pydict) : user_key (JDict u) = Return (key_of u).
Proof. reflexivity. Qed.

Lemma add_user_object (bn pl : json) (seen : gset string) (es : list json) (u : pydict) :
  add_user bn pl (seen, es) (JDict u) =
  if decide (key_of u ∈ seen) then Return (seen, es)
  else Return ({[key_of u]} ∪ seen,
               es ++ [JDict (dict_set "place_location" pl (dict_set "backend_name" bn u))]).
Proof.
  unfold add_user. rewrite user_key_object. simpl.
  destruct (decide (key_of u ∈ seen)); reflexivity.
Qed.

Lemma add_user_objects (name : string) (bc : backend_config) (l : list json) :
  forallb is_object l = true ->
  forall (seen : gset string) (es : list json),
  exists seen' extra,
    for_each (add_user (JStr name) (JStr (location_or_unknown bc))) (seen, es) l
    = Return (seen', es ++ extra) /\
    forall e, In e extra -> In e (map (tagged name bc) l).
Proof.
  induction l as [|u l IH]; intros Hobj seen es.
  - exists seen, []. simpl. rewrite app_nil_r. split; [reflexivity | intros e []].
  - simpl in Hobj. apply andb_prop in Hobj as [Hu Hl].
    destruct u as [| | | | |u]; try discriminate.
    cbn [for_each]. rewrite add_user_object.
    destruct (decide (key_of u ∈ seen)) as [Hin|Hnin]; cbn [bind].
    + destruct (IH Hl seen es) as (seen' & extra & Hrun & Hsub).
      exists seen', extra. split; [exact Hrun|]. intros e He. right. now apply Hsub.
    + match goal with
      | |- context [for_each _ (?s, es ++ [?x]) l] =>
          destruct (IH Hl s (es ++ [x])) as (seen' & extra & Hrun & Hsub);
          exists seen', (x :: extra)
      end.
      split.
      * rewrite Hrun, <- app_assoc. reflexivity.
      * intros e [<-|He]; [now left | right; now apply Hsub].
Qed.

Lemma merge_users_single cfg net name bc :
  backend_lookup name cfg = Some bc ->
  failed (net name) = true \/ succeeds UsersAll (net name) = true ->
  merges merge_users_result fst UsersAll cfg net [(name, bc)].
Proof.
  intros Hl [Hf|Hs].
  - destruct (call_backend_failed cfg name bc _ Hl Hf) as [msg Hcall].
    eapply merges_skipped.
    + rewrite Hcall. reflexivity.
    + destruct (succeeds UsersAll (net name)) eqn:E; [|reflexivity].
      apply succeeds_not_failed in E. congruence.
    + intros acc. reflexivity.
  - destruct (succeeds_inv _ _ Hs) as (status & pt & d & Ho & H200 & Ht & l & Hget & Hobj).
    intros [acc seen].
    destruct (add_user_objects name bc l Hobj seen (entities acc))
      as (seen' & extra & Hrun & Hsub).
    eexists. unfold results_of, sources_of. simpl.
    rewrite Hs. rewrite Ho at 1. rewrite (call_backend_object _ _ _ _ _ _ Hl H200). simpl.
    unfold merge_users_result, dict_has, dict_get_default in *.
    rewrite !metadata_other by discriminate.
    rewrite Ht, Hget, metadata_backend_name, metadata_place_location. simpl.
    rewrite Hrun. simpl.
    repeat split.
    exists extra. split; [reflexivity|].
    intros e He. exists name, bc. repeat split; [now left | assumption |].
    rewrite Ho. simpl. rewrite Hget. now apply Hsub.
Qed.

(** ** Fan-out with partial failure *)

Lemma settled_succeeding_count (ep : fan_out_endpoint) (net : string -> http_outcome)
    (bs : backends) :
  (forall name bc, In (name, bc) bs ->
     failed (net name) = false -> succeeds ep (net name) = true) ->
  (length (sources_of ep net bs)
   + length (List.filter (fun b => failed (net (fst b))) bs) = length bs)%nat.
Proof.
  unfold sources_of. rewrite length_map.
  induction bs as [|[name bc] bs IH]; intros H; simpl; [reflexivity|].
  assert (IH' := IH (fun n b Hin => H n b (or_intror Hin))).
  destruct (failed (net name)) eqn:Hf.
  - destruct (succeeds ep (net name)) eqn:Hs.
    + apply succeeds_not_failed in Hs. congruence.
    + simpl. lia.
  - rewrite (H name bc (or_introl eq_refl) Hf). simpl. lia.
Qed.

Lemma settled_merges (ep : fan_out_endpoint) (cfg : backends)
    (net : string -> http_outcome) :
  List.NoDup (map fst cfg) ->
  (forall name bc, In (name, bc) cfg ->
     failed (net name) = false -> succeeds ep (net name) = true) ->
  settled ep cfg net cfg.
Proof.
  intros Hnd H name bc Hin. split; [now apply backend_lookup_NoDup|].
  destruct (failed (net name)) eqn:Hf; [now left | right; eauto].
Qed.

(** *** The collection, entity by entity *)

Lemma key_of_tagged (bn pl : json) (u : pydict) :
  key_of (dict_set "place_location" pl (dict_set "backend_name" bn u)) = key_of u.
Proof.
  unfold key_of, user_pair, dict_get_default. simpl.
  now rewrite !dict_get_set_ne by discriminate.
Qed.

Lemma fold_keep_all (l : list json) (st : gset string * list json) :
  fold_left keep_all l st = (st.1, st.2 ++ l).
Proof.
  revert st. induction l as [|e l IH]; intros [s es]; simpl.
  - now rewrite app_nil_r.
  - rewrite IH. simpl. now rewrite <- app_assoc.
Qed.

Lemma fold_keep_first_In (l : list json) (st : gset string * list json) (e : json) :
  In e (fold_left keep_first l st).2 -> In e st.2 \/ In e l.
Proof.
  revert st. induction l as [|x l IH]; intros st H; simpl in *; [auto|].
  apply IH in H as [H|H]; [|auto]. unfold keep_first in H.
  destruct (decide (entry_key x ∈ st.1)); [auto|]. simpl in H.
  apply in_app_or in H as [H|[<-|[]]]; auto.
Qed.

Lemma offered_cons (ep : fan_out_endpoint) (net : string -> http_outcome)
    (b : string * backend_config) (bs : backends) :
  offered ep net (b :: bs) = offered ep net [b] ++ offered ep net bs.
Proof. unfold offered. simpl. now rewrite app_nil_r. Qed.

Lemma offered_drawn (ep : fan_out_endpoint) (net : string -> http_outcome)
    (bs : backends) :
  drawn_from ep net bs (offered ep net bs).
Proof.
  intros e He. unfold offered in He. apply in_flat_map in He as ([name bc] & Hin & He).
  simpl in He. destruct (succeeds ep (net name)) eqn:Hs; [|destruct He].
  exists name, bc. auto.
Qed.

Lemma merged_collection_plain (ep : fan_out_endpoint) (net : string -> http_outcome)
    (bs : backends) :
  ep <> UsersAll -> merged_collection ep net bs = offered ep net bs.
Proof.
  intros Hep. unfold merged_collection.
  destruct ep; try congruence; simpl; now rewrite fold_keep_all.
Qed.

Lemma merged_collection_drawn (ep : fan_out_endpoint) (net : string -> http_outcome)
    (bs : backends) :
  drawn_from ep net bs (merged_collection ep net bs).
Proof.
  intros e He. apply offered_drawn.
  destruct ep; try (rewrite merged_collection_plain in He by discriminate; exact He).
  unfold merged_collection in He. simpl in He.
  apply fold_keep_first_In in He as [[]|He]. exact He.
Qed.

Section Absorb.
Context {A : Type} (body : A -> pydict -> py_result A)
        (view : A -> gset string * list json).
Variables (ep : fan_out_endpoint) (cfg : backends) (net : string -> http_outcome).

Lemma absorbs_nil : absorbs body view ep cfg net [].
Proof. intros acc. exists acc. split; reflexivity. Qed.

Lemma absorbs_cons (b : string * backend_config) (bs : backends) :
  absorbs body view ep cfg net [b] -> absorbs body view ep cfg net bs ->
  absorbs body view ep cfg net (b :: bs).
Proof.
  intros Hb Hbs acc.
  destruct (Hb acc) as (acc1 & Hrun1 & Hv1).
  destruct (Hbs acc1) as (acc2 & Hrun2 & Hv2).
  exists acc2. split.
  - change (results_of cfg net (b :: bs))
      with (valid_result (call_backend cfg (fst b) (net (fst b))) ++ results_of cfg net bs).
    rewrite for_each_app.
    unfold results_of in Hrun1. simpl in Hrun1. rewrite app_nil_r in Hrun1.
    now rewrite Hrun1.
  - rewrite offered_cons, fold_left_app, <- Hv1. exact Hv2.
Qed.

Lemma absorbs_all (bs : backends) :
  (forall b, In b bs -> absorbs body view ep cfg net [b]) ->
  absorbs body view ep cfg net bs.
Proof.
  induction bs as [|b bs IH]; intros H; [apply absorbs_nil|].
  apply absorbs_cons; [apply H; now left|]. apply IH. intros b' Hb'. apply H. now right.
Qed.

Lemma absorbs_skipped (name : string) (bc : backend_config) (d : pydict) :
  valid_result (call_backend cfg name (net name)) = [d] ->
  succeeds ep (net name) = false ->
  (forall acc, body acc d = Return acc) ->
  absorbs body view ep cfg net [(name, bc)].
Proof.
  intros Hres Hs Hbody acc. exists acc.
  unfold results_of, offered. simpl. rewrite Hres, Hs. simpl. now rewrite Hbody.
Qed.

End Absorb.

Lemma failed_not_succeeds (ep : fan_out_endpoint) (o : http_outcome) :
  failed o = true -> succeeds ep o = false.
Proof.
  intros Hf. destruct (succeeds ep o) eqn:E; [|reflexivity].
  apply succeeds_not_failed in E. congruence.
Qed.

Lemma merge_result_absorbs (ep : fan_out_endpoint) (key : string) cfg net name bc :
  upstream_key ep = Some key -> In key ["devices"; "data"]%string ->
  backend_lookup name cfg = Some bc ->
  failed (net name) = true \/ succeeds ep (net name) = true ->
  absorbs (merge_result key) (fun acc => (∅, entities acc)) ep cfg net [(name, bc)].
Proof.
  intros Hep Hkey Hl [Hf|Hs].
  - destruct (call_backend_failed cfg name bc _ Hl Hf) as [msg Hcall].
    eapply absorbs_skipped.
    + rewrite Hcall. reflexivity.
    + now apply failed_not_succeeds.
    + intros acc. reflexivity.
  - destruct (succeeds_inv _ _ Hs) as (status & pt & d & Ho & H200 & Ht & Hc).
    rewrite Hep in Hc. destruct Hc as (l & Hget & Hobj).
    assert (Hkeep : keeper ep = keep_all).
    { destruct ep; try reflexivity. simpl in Hep. injection Hep as <-.
      destruct Hkey as [H|[H|[]]]; discriminate H. }
    intros acc. eexists. unfold results_of, offered. simpl.
    rewrite Hs, Ho. rewrite (call_backend_object _ _ _ _ _ _ Hl H200). simpl.
    rewrite (merge_result_succeeds key acc name bc pt d l) by assumption. simpl.
    split; [reflexivity|].
    rewrite Hep, Hget, app_nil_r, Hkeep, fold_keep_all. reflexivity.
Qed.

Lemma merge_summary_absorbs cfg net name bc :
  backend_lookup name cfg = Some bc ->
  failed (net name) = true \/ succeeds SummaryAll (net name) = true ->
  absorbs merge_summary_result (fun acc => (∅, entities acc)) SummaryAll cfg net
    [(name, bc)].
Proof.
  intros Hl [Hf|Hs].
  - destruct (call_backend_failed cfg name bc _ Hl Hf) as [msg Hcall].
    eapply absorbs_skipped.
    + rewrite Hcall. reflexivity.
    + now apply failed_not_succeeds.
    + intros acc. reflexivity.
  - destruct (succeeds_inv _ _ Hs) as (status & pt & d & Ho & H200 & Ht & _).
    intros acc. eexists. unfold results_of, offered. simpl.
    rewrite Hs, Ho. rewrite (call_backend_object _ _ _ _ _ _ Hl H200). simpl.
    unfold merge_summary_result, dict_get_default in *.
    rewrite metadata_other by discriminate.
    rewrite Ht, metadata_backend_name, metadata_place_location. simpl.
    split; reflexivity.
Qed.

Lemma add_user_objects_exact (name : string) (bc : backend_config) (l : list json) :
  forallb is_object l = true ->
  forall (seen : gset string) (es : list json),
    for_each (add_user (JStr name) (JStr (location_or_unknown bc))) (seen, es) l
    = Return (fold_left keep_first (map (tagged name bc) l) (seen, es)).
Proof.
  induction l as [|u l IH]; intros Hobj seen es; [reflexivity|].
  simpl in Hobj. apply andb_prop in Hobj as [Hu Hl].
  destruct u as [| | | | |u]; try discriminate.
  assert (Hk : keep_first (seen, es) (tagged name bc (JDict u))
               = if decide (key_of u ∈ seen) then (seen, es)
                 else ({[key_of u]} ∪ seen, es ++ [tagged name bc (JDict u)])).
  { unfold keep_first. simpl. now rewrite key_of_tagged. }
  change (fold_left keep_first (map (tagged name bc) (JDict u :: l)) (seen, es))
    with (fold_left keep_first (map (tagged name bc) l)
            (keep_first (seen, es) (tagged name bc (JDict u)))).
  rewrite Hk. cbn [for_each]. rewrite add_user_object.
  destruct (decide (key_of u ∈ seen)); cbn [bind]; apply (IH Hl).
Qed.

Lemma merge_users_absorbs cfg net name bc :
  backend_lookup name cfg = Some bc ->
  failed (net name) = true \/ succeeds UsersAll (net name) = true ->
  absorbs merge_users_result (fun acc => (acc.2, entities acc.1)) UsersAll cfg net
    [(name, bc)].
Proof.
  intros Hl [Hf|Hs].
  - destruct (call_backend_failed cfg name bc _ Hl Hf) as [msg Hcall].
    eapply absorbs_skipped.
    + rewrite Hcall. reflexivity.
    + now apply failed_not_succeeds.
    + intros acc. reflexivity.
  - destruct (succeeds_inv _ _ Hs) as (status & pt & d & Ho & H200 & Ht & l & Hget & Hobj).
    intros [acc seen]. eexists. unfold results_of, offered. simpl.
    rewrite Hs, Ho. rewrite (call_backend_object _ _ _ _ _ _ Hl H200). simpl.
    unfold merge_users_result, dict_has, dict_get_default in *.
    rewrite !metadata_other by discriminate.
    rewrite Ht, Hget, metadata_backend_name, metadata_place_location. simpl.
    rewrite (add_user_objects_exact name bc l Hobj). simpl.
    split; [reflexivity|]. rewrite app_nil_r.
    now destruct (fold_left keep_first (map (tagged name bc) l) (seen, entities acc)).
Qed.

(** C1, as the code has it.  On every fan-out endpoint, over [k]
    registered targets of which exactly [m] (with [0 < m < k]) fail in a
    classified way while each of the others answers 200 with an object
    that honours the upstream contract, the handler returns a response
    (HTTP success) whose [success] flag is true; whose merged collection
    is exactly what the succeeding targets offer, tagged, in the order of
    registration (for users: the first entry of each name-userid key), so
    that it holds entities of succeeding targets only; and whose
    [backend_sources] lists exactly the names of the [k - m] succeeding
    targets. *)
Theorem fan_out_partial_failure (ep : fan_out_endpoint) (cfg : backends)
    (net : string -> http_outcome) (k m : nat) :
  List.NoDup (map fst cfg) ->
  length cfg = k ->
  length (List.filter (fun b => failed (net (fst b))) cfg) = m ->
  (forall name bc, In (name, bc) cfg ->
     failed (net name) = false -> succeeds ep (net name) = true) ->
  (0 < m < k)%nat ->
  exists resp,
    handler ep cfg net = Return (JDict resp) /\
    dict_get "success" resp = Some (JBool true) /\
    dict_get (collection_key ep) resp = Some (JList (merged_collection ep net cfg)) /\
    (ep <> UsersAll -> merged_collection ep net cfg = offered ep net cfg) /\
    drawn_from ep net cfg (merged_collection ep net cfg) /\
    dict_get "backend_sources" resp = Some (JList (sources_of ep net cfg)) /\
    length (sources_of ep net cfg) = (k - m)%nat.
Proof.
  intros Hnd Hk Hm Hall _.
  pose proof (settled_merges ep cfg net Hnd Hall) as Hset.
  pose proof (settled_succeeding_count ep net cfg Hall) as Hcount.
  assert (Hlen : length (sources_of ep net cfg) = (k - m)%nat) by lia.
  clear Hcount Hk Hm.
  pose proof (merged_collection_plain ep net cfg) as Hplain.
  pose proof (merged_collection_drawn ep net cfg) as Hdrawn.
  unfold merged_collection in *.
  destruct ep; unfold handler.
  - assert (Hm' : merges (merge_result "devices") (fun a => a) DevicesAll cfg net cfg).
    { apply merges_all. intros [name bc] Hin. destruct (Hset name bc Hin).
      eapply merge_result_single; eauto; simpl; auto. }
    assert (Ha : absorbs (merge_result "devices") (fun acc => (∅, entities acc))
                   DevicesAll cfg net cfg).
    { apply absorbs_all. intros [name bc] Hin. destruct (Hset name bc Hin).
      eapply merge_result_absorbs; eauto; simpl; auto. }
    destruct (Hm' merged_empty) as (acc & Hrun & Hsrc & _).
    destruct (Ha merged_empty) as (acc' & Hrun' & Hview).
    rewrite Hrun in Hrun'. injection Hrun' as <-.
    unfold get_all_devices_unified. rewrite call_all_backends_unfold, Hrun.
    simpl in *. eexists. repeat split; try reflexivity; try assumption.
    + now rewrite <- Hview.
    + now rewrite Hsrc.
  - assert (Hm' : merges (merge_result "data") (fun a => a) AttendanceAll cfg net cfg).
    { apply merges_all. intros [name bc] Hin. destruct (Hset name bc Hin).
      eapply merge_result_single; eauto; simpl; auto. }
    assert (Ha : absorbs (merge_result "data") (fun acc => (∅, entities acc))
                   AttendanceAll cfg net cfg).
    { apply absorbs_all. intros [name bc] Hin. destruct (Hset name bc Hin).
      eapply merge_result_absorbs; eauto; simpl; auto. }
    destruct (Hm' merged_empty) as (acc & Hrun & Hsrc & _).
    destruct (Ha merged_empty) as (acc' & Hrun' & Hview).
    rewrite Hrun in Hrun'. injection Hrun' as <-.
    unfold get_all_attendance_unified. rewrite call_all_backends_unfold, Hrun.
    simpl in *. eexists. repeat split; try reflexivity; try assumption.
    + now rewrite <- Hview.
    + now rewrite Hsrc.
  - assert (Hm' : merges merge_users_result fst UsersAll cfg net cfg).
    { apply merges_all. intros [name bc] Hin. destruct (Hset name bc Hin).
      now apply merge_users_single. }
    assert (Ha : absorbs merge_users_result (fun acc => (acc.2, entities acc.1))
                   UsersAll cfg net cfg).
    { apply absorbs_all. intros [name bc] Hin. destruct (Hset name bc Hin).
      now apply merge_users_absorbs. }
    destruct (Hm' (merged_empty, ∅)) as (acc & Hrun & Hsrc & _).
    destruct (Ha (merged_empty, ∅)) as (acc' & Hrun' & Hview).
    rewrite Hrun in Hrun'. injection Hrun' as <-.
    unfold get_all_users_unified. rewrite call_all_backends_unfold, Hrun.
    simpl in *. eexists. repeat split; try reflexivity; try assumption.
    + now rewrite <- Hview.
    + now rewrite Hsrc.
  - assert (Hm' : merges merge_summary_result (fun a => a) SummaryAll cfg net cfg).
    { apply merges_all. intros [name bc] Hin. destruct (Hset name bc Hin).
      now apply merge_summary_single. }
    assert (Ha : absorbs merge_summary_result (fun acc => (∅, entities acc))
                   SummaryAll cfg net cfg).
    { apply absorbs_all. intros [name bc] Hin. destruct (Hset name bc Hin).
      now apply merge_summary_absorbs. }
    destruct (Hm' merged_empty) as (acc & Hrun & Hsrc & _).
    destruct (Ha merged_empty) as (acc' & Hrun' & Hview).
    rewrite Hrun in Hrun'. injection Hrun' as <-.
    unfold get_all_summary_unified. rewrite call_all_backends_unfold, Hrun.
    simpl in *. eexists. repeat split; try reflexivity; try assumption.
    + now rewrite <- Hview.
    + now rewrite Hsrc.
Qed.

Lemma three_backends_NoDup : List.NoDup (map fst three_backends).
Proof.
  repeat constructor; simpl; intros H;
    repeat (destruct H as [H|H]; [discriminate H|]); exact H.
Defined.

Lemma fan_out_partial_failure_witness :
  exists resp,
    handler UsersAll three_backends net_users_C_times_out = Return (JDict resp) /\
    dict_get "success" resp = Some (JBool true) /\
    dict_get (collection_key UsersAll) resp
    = Some (JList (merged_collection UsersAll net_users_C_times_out three_backends)) /\
    (UsersAll <> UsersAll ->
     merged_collection UsersAll net_users_C_times_out three_backends
     = offered UsersAll net_users_C_times_out three_backends) /\
    drawn_from UsersAll net_users_C_times_out three_backends
      (merged_collection UsersAll net_users_C_times_out three_backends) /\
    dict_get "backend_sources" resp
    = Some (JList (sources_of UsersAll net_users_C_times_out three_backends)) /\
    length (sources_of UsersAll net_users_C_times_out three_backends) = (3 - 1)%nat.
Proof.
  apply (fan_out_partial_failure UsersAll three_backends net_users_C_times_out 3 1).
  - exact three_backends_NoDup.
  - reflexivity.
  - reflexivity.
  - intros name bc H. simpl in H.
    destruct H as [H|[H|[H|[]]]]; injection H as <- <-; vm_compute; congruence.
  - lia.
Defined.

(** C1 as stated fails: that the other [k - m] targets do not fail in a
    classified way is not enough.  Of three targets, [B] times out and [C]
    answers well.  When [A] answers 200 with [devices: null], no failure
    class applies to it, and the handler raises [TypeError]: there is no
    response.  When [A] answers 200 with [success: false], the handler
    answers, and [backend_sources] names [C] alone, one target and not
    [k - m = 2]. *)
Lemma fan_out_needs_upstream_contract :
  length three_backends = 3%nat /\
  length (List.filter (fun b => failed (net_A_null_devices (fst b))) three_backends) = 1%nat /\
  handler DevicesAll three_backends net_A_null_devices = Raise TypeError /\
  length (List.filter (fun b => failed (net_A_declines (fst b))) three_backends) = 1%nat /\
  exists resp,
    handler DevicesAll three_backends net_A_declines = Return (JDict resp) /\
    dict_get "backend_sources" resp = Some (JList [JStr "C"]).
Proof.
  repeat split; try (vm_compute; reflexivity).
  eexists. split; vm_compute; reflexivity.
Qed.

(** The merged collection in the two scenarios of the samples: the devices
    of [A] and [C], and the users of [A] and [B] without the two whose key
    had been met. *)
Example merged_collection_samples :
  merged_collection DevicesAll net_B_times_out three_backends
  = [tagged "A" backend_A (device "a1"); tagged "A" backend_A (device "a2");
     tagged "C" backend_C (device "c1")] /\
  merged_collection UsersAll net_users_C_times_out three_backends
  = [tagged "A" backend_A (JDict (user "a" "b-c"))].
Proof. split; vm_compute; reflexivity. Qed.

(** The scenario of the specification: [B] times out, the response holds
    the devices of [A] and [C] only and names exactly [A] and [C]. *)
Example devices_all_when_B_times_out :
  get_all_devices_unified three_backends net_B_times_out
  = Return (JDict devices_when_B_times_out) /\
  dict_get "backend_sources" devices_when_B_times_out
  = Some (JList [JStr "A"; JStr "C"]) /\
  dict_get "devices" devices_when_B_times_out
  = Some (JList [tagged "A" backend_A (device "a1"); tagged "A" backend_A (device "a2");
                 tagged "C" backend_C (device "c1")]).
Proof. repeat split; vm_compute; reflexivity. Qed.

(** ** Identity tags *)

Lemma for_each_invariant {A B} (body : A -> B -> py_result A)
    (P : A -> Prop) (Q : B -> Prop) :
  (forall a x a', P a -> Q x -> body a x = Return a' -> P a') ->
  forall l acc acc', P acc -> (forall x, In x l -> Q x) ->
                     for_each body acc l = Return acc' -> P acc'.
Proof.
  intros Hstep. induction l as [|x l IH]; intros acc acc' HP HQ Hrun; simpl in Hrun.
  - now injection Hrun as <-.
  - apply bind_inv in Hrun as (a1 & Hb & Hrest).
    eapply IH; [| |exact Hrest].
    + eapply Hstep; [exact HP | apply HQ; now left | exact Hb].
    + intros y Hy. apply HQ. now right.
Qed.

Lemma call_backend_result_identified cfg name o d :
  In d (valid_result (call_backend cfg name o)) -> result_identified cfg d.
Proof.
  unfold call_backend. destruct (backend_lookup name cfg) as [bc|] eqn:Hl; [|intros []].
  apply backend_lookup_In in Hl.
  assert (Herr : forall msg code,
             In d (valid_result (Return (error_result name bc msg code))) ->
             result_identified cfg d).
  { intros msg code [<-|[]]. exists name, bc. repeat split; auto. }
  destruct o as [status pt data| |msg]; eauto.
  destruct (status =? 200).
  - destruct data; simpl; try tauto.
    intros [<-|[]]. exists name, bc. split; [exact Hl|].
    split; [apply metadata_backend_name | apply metadata_place_location].
  - destruct (status =? 401); eauto.
    destruct (status =? 403); eauto.
    destruct (500 <=? status); eauto.
Qed.

Lemma results_identified cfg net d :
  In d (call_all_backends cfg net) -> result_identified cfg d.
Proof.
  rewrite call_all_backends_unfold. unfold results_of. intros H.
  apply in_flat_map in H as (b & _ & Hd).
  eapply call_backend_result_identified; eauto.
Qed.

Lemma tag_entities_has_tags (bn pl : json) (l out : list json) :
  tag_entities bn pl l = Return out -> forall e, In e out -> has_tags bn pl e.
Proof.
  revert out. induction l as [|x l IH]; intros out H; simpl in H.
  - injection H as <-. intros e [].
  - apply bind_inv in H as (x1 & H1 & H). apply bind_inv in H as (x2 & H2 & H).
    apply bind_inv in H as (rest & Hrest & H). injection H as <-.
    intros e [<-|He]; [|eapply IH; eauto].
    destruct x; try discriminate. injection H1 as <-. injection H2 as <-.
    eexists. split; [reflexivity|]. split.
    + rewrite dict_get_set_ne by discriminate. apply dict_get_set_eq.
    + apply dict_get_set_eq.
Qed.

Lemma has_tags_entity_tagged cfg d e :
  result_identified cfg d ->
  has_tags (dict_get_default "_backend_name" (JStr "Unknown") d)
           (dict_get_default "_place_location" (JStr "Unknown") d) e ->
  entity_tagged cfg e.
Proof.
  intros (name & bc & Hin & Hn & Hp) (u & -> & H1 & H2).
  unfold dict_get_default in *. rewrite Hn in H1. rewrite Hp in H2.
  exists u, name, bc. auto.
Qed.

Lemma merge_result_tagged (key : string) cfg acc d acc' :
  (forall e, In e (entities acc) -> entity_tagged cfg e) ->
  result_identified cfg d ->
  merge_result key acc d = Return acc' ->
  forall e, In e (entities acc') -> entity_tagged cfg e.
Proof.
  intros Hacc Hid. unfold merge_result.
  destruct (_ && _); [|intros [= <-]; exact Hacc].
  intros H. apply bind_inv in H as (l & Hl & H). apply bind_inv in H as (out & Hout & H).
  injection H as <-. simpl. intros e He. apply in_app_or in He as [He|He]; [auto|].
  eapply has_tags_entity_tagged; [exact Hid|]. eapply tag_entities_has_tags; eauto.
Qed.

Lemma merge_summary_tagged cfg acc d acc' :
  (forall e, In e (entities acc) -> entity_tagged cfg e) ->
  result_identified cfg d ->
  merge_summary_result acc d = Return acc' ->
  forall e, In e (entities acc') -> entity_tagged cfg e.
Proof.
  intros Hacc Hid. unfold merge_summary_result.
  destruct (py_truthy _); intros [= <-]; [|exact Hacc].
  simpl. intros e He. apply in_app_or in He as [He|[<-|[]]]; [auto|].
  eapply has_tags_entity_tagged; [exact Hid|].
  eexists. split; [reflexivity|]. split.
  - rewrite dict_get_set_ne by discriminate. apply dict_get_set_eq.
  - apply dict_get_set_eq.
Qed.

Lemma add_user_tagged (bn pl : json) (st st' : gset string * list json) (u : json) :
  add_user bn pl st u = Return st' ->
  forall e, In e st'.2 -> In e st.2 \/ has_tags bn pl e.
Proof.
  unfold add_user. intros H. apply bind_inv in H as (k & _ & H).
  destruct (decide (k ∈ st.1)).
  - injection H as <-. auto.
  - apply bind_inv in H as (u1 & H1 & H). apply bind_inv in H as (u2 & H2 & H).
    injection H as <-. simpl. intros e He. apply in_app_or in He as [He|[<-|[]]]; [auto|].
    right. destruct u; try discriminate. injection H1 as <-. injection H2 as <-.
    eexists. split; [reflexivity|]. split.
    + rewrite dict_get_set_ne by discriminate. apply dict_get_set_eq.
    + apply dict_get_set_eq.
Qed.

Lemma merge_users_tagged cfg (acc acc' : merged * gset string) d :
  (forall e, In e (entities acc.1) -> entity_tagged cfg e) ->
  result_identified cfg d ->
  merge_users_result acc d = Return acc' ->
  forall e, In e (entities acc'.1) -> entity_tagged cfg e.
Proof.
  intros Hacc Hid. unfold merge_users_result.
  destruct (_ && _); [|intros [= <-]; exact Hacc].
  intros H. apply bind_inv in H as (l & Hl & H). apply bind_inv in H as (st & Hst & H).
  injection H as <-. simpl.
  set (bn := dict_get_default "_backend_name" (JStr "Unknown") d) in *.
  set (pl := dict_get_default "_place_location" (JStr "Unknown") d) in *.
  assert (Hinv : forall e, In e st.2 -> In e (entities acc.1) \/ has_tags bn pl e).
  { revert Hst.
    apply (for_each_invariant (add_user bn pl)
             (fun s => forall e, In e s.2 -> In e (entities acc.1) \/ has_tags bn pl e)
             (fun _ => True)); [| simpl; auto | auto].
    intros a x a' Ha _ Hadd e He.
    destruct (add_user_tagged bn pl a a' x Hadd e He) as [H|H]; auto. }
  intros e He. destruct (Hinv e He) as [H|H]; [auto|].
  eapply has_tags_entity_tagged; eauto.
Qed.

(** Whatever the backends answer, a handler that returns has tagged every
    entity of its merged collection with a configured backend. *)
Lemma handler_entities_tagged (ep : fan_out_endpoint) cfg net resp es :
  handler ep cfg net = Return (JDict resp) ->
  dict_get (collection_key ep) resp = Some (JList es) ->
  forall e, In e es -> entity_tagged cfg e.
Proof.
  destruct ep; unfold handler; intros H Hes.
  - apply bind_inv in H as (acc & Hrun & H). injection H as <-. injection Hes as <-.
    revert Hrun. apply (for_each_invariant (merge_result "devices")
      (fun a => forall e, In e (entities a) -> entity_tagged cfg e) (result_identified cfg)).
    + intros a x a' Ha Hx. now apply merge_result_tagged.
    + intros e [].
    + apply results_identified.
  - apply bind_inv in H as (acc & Hrun & H). injection H as <-. injection Hes as <-.
    revert Hrun. apply (for_each_invariant (merge_result "data")
      (fun a => forall e, In e (entities a) -> entity_tagged cfg e) (result_identified cfg)).
    + intros a x a' Ha Hx. now apply merge_result_tagged.
    + intros e [].
    + apply results_identified.
  - apply bind_inv in H as (acc & Hrun & H). injection H as <-. injection Hes as <-.
    revert Hrun. apply (for_each_invariant merge_users_result
      (fun a => forall e, In e (entities a.1) -> entity_tagged cfg e) (result_identified cfg)).
    + intros a x a' Ha Hx. now apply merge_users_tagged.
    + intros e [].
    + apply results_identified.
  - apply bind_inv in H as (acc & Hrun & H). injection H as <-. injection Hes as <-.
    revert Hrun. apply (for_each_invariant merge_summary_result
      (fun a => forall e, In e (entities a) -> entity_tagged cfg e) (result_identified cfg)).
    + intros a x a' Ha Hx. now apply merge_summary_tagged.
    + intros e [].
    + apply results_identified.
Qed.

(** Every outcome of a call to a registered backend, other than a 200
    response whose body is not an object, is an object with the backend's
    name, URL and location; a classified failure also carries its code. *)
Lemma call_backend_identity cfg name bc o :
  backend_lookup name cfg = Some bc ->
  (classify o = Success -> exists status pt d, o = Response status pt (JDict d)) ->
  exists v, call_backend cfg name o = Return v /\ carries_identity name bc v /\
    (failed o = true ->
     exists d, v = JDict d /\ dict_get "success" d = Some (JBool false) /\
               dict_get "error_code" d = Some (JStr (error_code_of (classify o)))).
Proof.
  intros Hl Hobj. destruct (failed o) eqn:Hf.
  - destruct (call_backend_failed cfg name bc o Hl Hf) as [msg ->].
    eexists. split; [reflexivity|]. split.
    + eexists. repeat split.
    + intros _. eexists. repeat split.
  - assert (Hs : classify o = Success).
    { unfold failed in Hf. destruct (classify o); congruence. }
    destruct (Hobj Hs) as (status & pt & d & ->).
    assert (H200 : (status =? 200) = true).
    { simpl in Hs. destruct (status =? 200); [reflexivity|].
      destruct (status =? 401); [discriminate|]. destruct (status =? 403); [discriminate|].
      destruct (500 <=? status); discriminate. }
    rewrite (call_backend_object _ _ _ _ _ _ Hl H200).
    eexists. split; [reflexivity|]. split; [|discriminate].
    eexists. split; [reflexivity|].
    repeat split; [apply metadata_backend_name | apply metadata_backend_url
                   | apply metadata_place_location].
Qed.

(** C7, as the code has it.  Every entity that a fan-out endpoint places
    into its merged collection carries the tags [backend_name] and
    [place_location] of a configured backend; and every outcome that
    [call_backend] produces for a registered backend carries that backend's
    name, URL and location, for each failure class (with its error code)
    and for a success whose JSON body is an object. *)
Theorem identity_tags (ep : fan_out_endpoint) (cfg : backends)
    (net : string -> http_outcome) (resp : pydict) (es : list json)
    (name : string) (bc : backend_config) (o : http_outcome) :
  handler ep cfg net = Return (JDict resp) ->
  dict_get (collection_key ep) resp = Some (JList es) ->
  backend_lookup name cfg = Some bc ->
  (classify o = Success -> exists status pt d, o = Response status pt (JDict d)) ->
  (forall e, In e es -> entity_tagged cfg e) /\
  (exists v, call_backend cfg name o = Return v /\ carries_identity name bc v /\
     (failed o = true ->
      exists d, v = JDict d /\ dict_get "success" d = Some (JBool false) /\
                dict_get "error_code" d = Some (JStr (error_code_of (classify o))))).
Proof.
  intros Hh Hes Hl Hobj. split.
  - eapply handler_entities_tagged; eauto.
  - now apply call_backend_identity.
Qed.

Lemma identity_tags_witness :
  (forall e, In e devices_of_A_and_C -> entity_tagged three_backends e) /\
  (exists v, call_backend three_backends "B" TimeoutError = Return v /\
     carries_identity "B" backend_B v /\
     (failed TimeoutError = true ->
      exists d, v = JDict d /\ dict_get "success" d = Some (JBool false) /\
                dict_get "error_code" d = Some (JStr (error_code_of (classify TimeoutError))))).
Proof.
  apply (identity_tags DevicesAll three_backends net_B_times_out
           devices_when_B_times_out devices_of_A_and_C "B" backend_B TimeoutError).
  - vm_compute. reflexivity.
  - vm_compute. reflexivity.
  - vm_compute. reflexivity.
  - simpl. discriminate.
Defined.

(** C7 as stated fails: a 200 response whose JSON body is an array is
    classified as a success and returned as it is, with no identity. *)
Lemma success_array_untagged :
  backend_lookup "A" one_backend = Some backend_A /\
  classify (Response 200 None (JList [])) = Success /\
  call_backend one_backend "A" (Response 200 None (JList [])) = Return (JList []) /\
  ~ carries_identity "A" backend_A (JList []).
Proof.
  repeat split; try reflexivity.
  intros (d & H & _). discriminate H.
Qed.

(** ** Deduplication of users *)

(** C10.  The deduplication key [name + "-" + userid] is not injective:
    the users [("a-b", "c")] and [("a", "b-c")] have distinct
    [(name, userid)] pairs and the same key ["a-b-c"], so a backend that
    reports both sees the second one, which is no duplicate, dropped from
    the unified listing. *)
Theorem user_key_not_injective :
  user_pair (user "a-b" "c") <> user_pair (user "a" "b-c") /\
  user_key (JDict (user "a-b" "c")) = Return "a-b-c"%string /\
  user_key (JDict (user "a" "b-c")) = Return "a-b-c"%string /\
  exists resp,
    get_all_users_unified one_backend net_two_users = Return (JDict resp) /\
    dict_get "users" resp
    = Some (JList [tagged "A" backend_A (JDict (user "a-b" "c"))]).
Proof.
  split; [discriminate|]. split; [reflexivity|]. split; [reflexivity|].
  eexists. split; vm_compute; reflexivity.
Qed.

Lemma add_user_keys_distinct (bn pl : json) (st st' : gset string * list json) (u : json) :
  (forall e, In e st.2 -> entry_key e ∈ st.1) -> List.NoDup (map entry_key st.2) ->
  add_user bn pl st u = Return st' ->
  (forall e, In e st'.2 -> entry_key e ∈ st'.1) /\ List.NoDup (map entry_key st'.2).
Proof.
  intros Hseen Hnd. destruct st as [seen es]. destruct u as [| | | | |u]; try discriminate.
  rewrite add_user_object. simpl in *.
  destruct (decide (key_of u ∈ seen)) as [Hin|Hnin]; intros [= <-]; [auto|]. simpl. split.
  - intros e He. apply in_app_or in He as [He|[<-|[]]].
    + apply elem_of_union_r. now apply Hseen.
    + simpl. rewrite key_of_tagged. apply elem_of_union_l. now apply elem_of_singleton.
  - rewrite map_app. simpl. rewrite key_of_tagged.
    apply List.NoDup_app; [exact Hnd | repeat constructor; intros [] |].
    intros k Hk [Heq|[]]. apply in_map_iff in Hk as (e & Hke & He).
    apply Hnin. rewrite Heq, <- Hke. now apply Hseen.
Qed.

Lemma merge_users_keys_distinct (acc acc' : merged * gset string) (d : pydict) :
  (forall e, In e (entities acc.1) -> entry_key e ∈ acc.2) ->
  List.NoDup (map entry_key (entities acc.1)) ->
  merge_users_result acc d = Return acc' ->
  (forall e, In e (entities acc'.1) -> entry_key e ∈ acc'.2) /\
  List.NoDup (map entry_key (entities acc'.1)).
Proof.
  intros Hseen Hnd. unfold merge_users_result.
  destruct (_ && _); [|intros [= <-]; auto].
  intros H. apply bind_inv in H as (l & Hl & H). apply bind_inv in H as (st & Hst & H).
  injection H as <-. simpl. revert Hst.
  apply (for_each_invariant _
           (fun s => (forall e, In e s.2 -> entry_key e ∈ s.1) /\ List.NoDup (map entry_key s.2))
           (fun _ => True)); [| simpl; auto | auto].
  intros a x a' [Ha1 Ha2] _ Hadd. eapply add_user_keys_distinct; eauto.
Qed.

(** X4.  Whatever the backends answer, no two entries of the unified user
    listing share a key: a [(name, userid)] pair is listed at most once. *)
Lemma users_listed_at_most_once cfg net resp es :
  get_all_users_unified cfg net = Return (JDict resp) ->
  dict_get "users" resp = Some (JList es) ->
  List.NoDup (map entry_key es).
Proof.
  intros H Hes. apply bind_inv in H as (acc & Hrun & H).
  injection H as <-. injection Hes as <-.
  revert Hrun.
  apply (for_each_invariant merge_users_result
           (fun a => (forall e, In e (entities a.1) -> entry_key e ∈ a.2) /\
                     List.NoDup (map entry_key (entities a.1)))
           (fun _ => True) (fun a x a' Ha _ Hm =>
              merge_users_keys_distinct a a' x (proj1 Ha) (proj2 Ha) Hm)
           (call_all_backends cfg net) (merged_empty, ∅) acc).
  - split; [intros e [] | constructor].
  - auto.
Qed.

(** C8 at its failing input.  [A] reports [("a", "b-c")] and
    [("a-b", "c")], [B] reports [("a-b", "c")] as well: the pair
    [("a-b", "c")] is reported by both backends, yet the unified listing
    has no entry for it, because its key is taken by [("a", "b-c")]. *)
Theorem shared_user_lost_by_key_collision :
  user_pair (user "a-b" "c") <> user_pair (user "a" "b-c") /\
  exists resp,
    get_all_users_unified two_backends net_colliding_users = Return (JDict resp) /\
    dict_get "backend_sources" resp = Some (JList [JStr "A"; JStr "B"]) /\
    dict_get "users" resp
    = Some (JList [tagged "A" backend_A (JDict (user "a" "b-c"))]).
Proof.
  split; [discriminate|].
  eexists. repeat split; vm_compute; reflexivity.
Qed.

End GatewayProps.

(** ** The security layer *)

Module SecurityProps.
Import Py PyFacts Security.

Local Open Scope Q_scope.

Lemma Qltb_lt (x y : Q) : Qltb x y = true <-> x < y.
Proof.
  unfold Qltb. rewrite negb_true_iff. split.
  - intros H. apply Qnot_le_lt. intros Hle. apply Qle_bool_iff in Hle. congruence.
  - intros H. destruct (Qle_bool y x) eqn:E; [|reflexivity].
    apply Qle_bool_iff in E. exfalso. exact (Qlt_not_le _ _ H E).
Qed.

Lemma Qltb_ge (x y : Q) : Qltb x y = false <-> y <= x.
Proof.
  unfold Qltb. rewrite negb_false_iff. apply Qle_bool_iff.
Qed.

(** ** Text, patterns and headers on samples *)

Example safe_plain_text : is_safe_request "hello world" = true.
Proof. reflexivity. Qed.

Example unsafe_sql_upper_case : is_safe_request "1 UNION ALL SELECT pw" = false.
Proof. reflexivity. Qed.

Example unsafe_drop_table : is_safe_request "drop   table users" = false.
Proof. reflexivity. Qed.

Example safe_without_space : is_safe_request "droptable" = true.
Proof. reflexivity. Qed.

Example unsafe_exec_call : is_safe_request "x = Exec(cmd)" = false.
Proof. reflexivity. Qed.

Example py_int_samples :
  map py_int [" 42 "; "+1_000"; "1__0"; "-7"; "4 2"; "x"; "0_0"; "_1"; "1_"; "+"]%string
  = [Some 42; Some 1000; None; Some (-7); None; None; Some 0; None; None; None]%Z.
Proof. reflexivity. Qed.

Example client_ip_from_forwarded_header :
  get_client_ip {| path := "/devices/all"; method := "GET";
                   headers := [("x-real-ip", "198.51.100.2");
                               ("x-forwarded-for", " 203.0.113.7 , 10.0.0.1")]%string;
                   client_host := Some "10.0.0.9"%string; body := Some EmptyString |}
  = "203.0.113.7"%string.
Proof. reflexivity. Qed.

Example client_ip_from_peer : get_client_ip get_devices = "10.0.0.9"%string.
Proof. reflexivity. Qed.

(** ** Rate limiter *)

Lemma check_rate_limit_blocked (cfg : SecurityConfig) (client : string)
    (current_time blocked_until : Q) (st : state) :
  blocked_ips_cache st !! client = Some blocked_until ->
  current_time < blocked_until ->
  check_rate_limit cfg client current_time st = (false, st).
Proof.
  intros Hb Hlt. unfold check_rate_limit. rewrite Hb.
  apply Qltb_lt in Hlt. now rewrite Hlt.
Qed.

(** C6.  While the client's [blocked_until] lies in the future, a
    rate-limit check rejects the request and leaves the whole state as it
    was: no timestamp of the client is pruned, none is appended, and the
    block itself and the log are untouched. *)
Theorem blocked_client_rejected_untouched (cfg : SecurityConfig) (client : string)
    (current_time blocked_until : Q) (st : state) :
  blocked_ips_cache st !! client = Some blocked_until ->
  current_time < blocked_until ->
  check_rate_limit cfg client current_time st = (false, st) /\
  rate_limit_storage (snd (check_rate_limit cfg client current_time st)) !! client
  = rate_limit_storage st !! client.
Proof.
  intros Hb Hlt. rewrite (check_rate_limit_blocked cfg client _ _ st Hb Hlt).
  split; reflexivity.
Qed.

Lemma blocked_client_rejected_untouched_witness :
  check_rate_limit strict_config "10.0.0.9" 300 blocked_state = (false, blocked_state) /\
  rate_limit_storage (snd (check_rate_limit strict_config "10.0.0.9" 300 blocked_state))
    !! "10.0.0.9"%string
  = rate_limit_storage blocked_state !! "10.0.0.9"%string.
Proof.
  apply (blocked_client_rejected_untouched strict_config "10.0.0.9" 300 301 blocked_state).
  - vm_compute. reflexivity.
  - reflexivity.
Defined.

(** The float arithmetic on known values: the doubles nearest to 0.1 and
    to 0.001, the sum [0.1 + 0.2], a tie that goes to the even neighbour
    and one that goes up to it, and the window and the block end of a
    clock reading of the year 2023, both exact. *)
Example float_samples :
  round64 (1 # 10) == 3602879701896397 # 36028797018963968 /\
  round64 (1 # 1000) == 1152921504606847 # 1152921504606846976 /\
  fadd (round64 (1 # 10)) (round64 (2 # 10)) == 1351079888211149 # 4503599627370496 /\
  float_of_int (2 ^ 53 + 1) == inject_Z (2 ^ 53) /\
  float_of_int (2 ^ 53 + 3) == inject_Z (2 ^ 53 + 4) /\
  fadd one_fifth 300 == 5281174250533683 # 17592186044416 /\
  window_start strict_config (7130316800517815 # 4194304)
  == (7130316800517815 # 4194304) - 60 /\
  block_end (7130316800517815 # 4194304) == (7130316800517815 # 4194304) + 300 /\
  float_of_int 60 == 60.
Proof. repeat split; vm_compute; reflexivity. Qed.



Lemma respond_limiter (secure : Response -> Response) (h : handled) (st : state) :
  rate_limit_storage (snd (respond secure h st)) = rate_limit_storage st /\
  blocked_ips_cache (snd (respond secure h st)) = blocked_ips_cache st.
Proof. unfold respond. destruct (reply h); split; reflexivity. Qed.

Section Middleware.
Context {lib : IpAddressLib}.
Variables (cfg : SecurityConfig) (call_next : Request -> handled).





End Middleware.




Lemma filter_all_kept (w : Q) (l : list Q) :
  (forall u, In u l -> w < u) -> List.filter (fun u => Qltb w u) l = l.
Proof.
  induction l as [|x l IH]; intros H; simpl; [reflexivity|].
  rewrite (proj2 (Qltb_lt w x)) by (apply H; now left).
  f_equal. apply IH. intros u Hu. apply H. now right.
Qed.

(** Requests of an unblocked client are admitted and recorded as long as
    fewer than [N] are on record, when every timestamp on record or of
    the burst lies inside the window of each check of the burst. *)
Lemma burst_admitted (cfg : SecurityConfig) (client : string) (ts : list Q) :
  forall (st : state),
    blocked_ips_cache st !! client = None ->
    (forall u v, In u (stored client st ++ ts) -> In v ts -> window_start cfg v < u) ->
    (Z.of_nat (length (stored client st) + length ts) <= rate_limit_requests cfg)%Z ->
    blocked_ips_cache (run_checks cfg client ts st) !! client = None /\
    stored client (run_checks cfg client ts st) = stored client st ++ ts.
Proof.
  induction ts as [|u ts IH]; intros st Hb Hin Hlen; simpl.
  - now rewrite app_nil_r.
  - assert (Hkept : List.filter (fun x => Qltb (window_start cfg u) x) (stored client st)
                    = stored client st).
    { apply filter_all_kept. intros x Hx. apply Hin; [|now left].
      apply in_or_app. now left. }
    assert (Hstep : check_rate_limit cfg client u st
                    = (true, set_storage (<[client := stored client st ++ [u]]>
                                            (<[client := stored client st]>
                                               (rate_limit_storage st))) st)).
    { unfold check_rate_limit. rewrite Hb. unfold stored in *.
      destruct (rate_limit_storage st !! client) as [l|]; simpl in *.
      - rewrite Hkept.
        destruct (Z.leb_spec (rate_limit_requests cfg) (Z.of_nat (length l)));
          [simpl in Hlen; lia | reflexivity].
      - destruct (Z.leb_spec (rate_limit_requests cfg) (Z.of_nat 0));
          [simpl in Hlen; lia | reflexivity]. }
    rewrite Hstep. simpl.
    match goal with |- context [run_checks cfg client ts ?s] => set (st1 := s) end.
    assert (Hst1 : stored client st1 = stored client st ++ [u]).
    { unfold stored, st1. simpl. now rewrite lookup_insert_eq. }
    destruct (IH st1) as [Hb' Hs'].
    + exact Hb.
    + rewrite Hst1, <- app_assoc. intros x v Hx Hv. apply Hin; [exact Hx | now right].
    + rewrite Hst1, length_app. simpl in *. lia.
    + split; [exact Hb'|]. now rewrite Hs', Hst1, <- app_assoc.
Qed.

(** X17.  A client with nothing on record that issues [N] requests inside
    one window (each request lies inside the window of every check of the
    burst and of the reading [t]) has them all admitted and has thereby
    reached the limit: it is not blocked, and [N] admitted requests are on
    record inside the window that ends at [t]. *)
Lemma fresh_client_burst (cfg : SecurityConfig) (client : string) (t : Q)
    (ts : list Q) (st : state) :
  rate_limit_storage st !! client = None ->
  blocked_ips_cache st !! client = None ->
  (forall u, In u ts -> window_start cfg t < u) ->
  (forall u v, In u ts -> In v ts -> window_start cfg v < u) ->
  Z.of_nat (length ts) = rate_limit_requests cfg ->
  blocked_at client t (run_checks cfg client ts st) = false /\
  (rate_limit_requests cfg
   <= Z.of_nat (admitted_in_window cfg client t (run_checks cfg client ts st)))%Z.
Proof.
  intros Hs Hb Hts Hpair Hn.
  assert (Hst : stored client st = []) by (unfold stored; now rewrite Hs).
  destruct (burst_admitted cfg client ts st Hb) as [Hb' Hs'].
  - rewrite Hst. exact Hpair.
  - rewrite Hst. simpl. lia.
  - rewrite Hst in Hs'. simpl in Hs'. split.
    + unfold blocked_at. now rewrite Hb'.
    + unfold admitted_in_window. unfold stored in Hs'.
      destruct (rate_limit_storage (run_checks cfg client ts st) !! client) as [l|];
        simpl in Hs'; subst.
      * rewrite filter_all_kept by exact Hts. lia.
      * simpl in *. lia.
Qed.

(** ** IP allow-list *)

Lemma content_validation_returns (req : Request) (client : string) (st : state) :
  fst (content_validation req client st) = Return tt.
Proof.
  unfold content_validation.
  destruct (existsb _ mutating_methods); [|reflexivity].
  destruct (body req) as [b|]; [|reflexivity].
  destruct (_ && _); reflexivity.
Qed.

(** What the middleware can raise once the IP check is passed or
    skipped. *)
Lemma middleware_after_ip_check {lib : IpAddressLib} (cfg : SecurityConfig)
    (call_next : Request -> handled) (req : Request) (t : Q) (st : state) :
  (match allowed_ips cfg with [] => false | _ => true end)
  && negb (is_ip_allowed cfg (get_client_ip req)) = false ->
  forall e, fst (security_middleware cfg call_next req t st) = Raise e ->
            e = too_many_requests \/ e = ValueError \/
            e = HTTPException 413 "Request payload too large" \/
            exists what, e = Unhandled what.
Proof.
  intros Hgate e. unfold security_middleware, respond.
  destruct (existsb _ exempt_paths).
  { destruct (reply (call_next req)); [discriminate | intros [= <-]; eauto 6]. }
  rewrite Hgate.
  destruct (check_rate_limit cfg (get_client_ip req) t st) as [allowed st1].
  destruct allowed; simpl; [|intros [= <-]; now left].
  pose proof (content_validation_returns req (get_client_ip req) st1) as Hc.
  destruct (content_validation req (get_client_ip req) st1) as [r st2]. simpl in Hc. subst r.
  assert (Hpass : fst (match reply (call_next req) with
                       | Replied resp =>
                           (Return
                              (if ngrok_enabled cfg
                               then set_header "X-NGROK-Secured" "true"
                                      (add_security_headers resp)
                               else add_security_headers resp),
                            append_log (logged (call_next req)) st2)
                       | Failed what =>
                           (Raise (Unhandled what), append_log (logged (call_next req)) st2)
                       end) = Raise e ->
                  e = too_many_requests \/ e = ValueError \/
                  e = HTTPException 413 "Request payload too large" \/
                  exists what, e = Unhandled what).
  { destruct (reply (call_next req)); [discriminate | intros [= <-]; eauto 6]. }
  destruct (header_get "content-length" req) as [[|c s]|]; try exact Hpass.
  destruct (py_int (String c s)) as [n|]; [|intros [= <-]; auto].
  destruct (max_request_size cfg <? n)%Z; [intros [= <-]; auto | exact Hpass].
Qed.

(** C9.  With an empty allow-list, [is_ip_allowed] answers true for every
    client address, and the middleware skips the IP check: no request,
    whatever its source address, is answered 403. *)
Theorem empty_allow_list_permits_all {lib : IpAddressLib} (cfg : SecurityConfig)
    (client_ip : string) (call_next : Request -> handled) (req : Request)
    (t : Q) (st : state) (detail : string) :
  allowed_ips cfg = [] ->
  is_ip_allowed cfg client_ip = true /\
  fst (security_middleware cfg call_next req t st) <> Raise (HTTPException 403 detail).
Proof.
  intros Hempty. split.
  - unfold is_ip_allowed. now rewrite Hempty.
  - intros H. apply middleware_after_ip_check in H.
    + destruct H as [H|[H|[H|[what H]]]]; discriminate H.
    + now rewrite Hempty.
Qed.

Lemma empty_allow_list_permits_all_witness :
  is_ip_allowed (lib := no_parse_iplib) strict_config "203.0.113.7" = true /\
  fst (security_middleware (lib := no_parse_iplib) strict_config call_next_ok get_devices 0
         empty_state)
  <> Raise (HTTPException 403 "Access denied from this IP address").
Proof.
  apply (empty_allow_list_permits_all (lib := no_parse_iplib) strict_config "203.0.113.7"
           call_next_ok get_devices 0 empty_state "Access denied from this IP address").
  reflexivity.
Defined.

(** The list that [SecurityConfig] builds is never empty: the three local
    entries are always there, so a deployment that sets nothing admits
    local clients only. *)
Lemma get_allowed_ips_nonempty (env_allowed_ips : string) (ngrok : bool) :
  get_allowed_ips env_allowed_ips ngrok <> [].
Proof. discriminate. Qed.

(** ** Content filter *)

(** A body that cannot be read passes the content check. *)
Lemma unreadable_body_passes (req : Request) (client : string) (st : state) :
  body req = None -> content_validation req client st = (Return tt, st).
Proof.
  intros Hb. unfold content_validation. rewrite Hb.
  destruct (existsb _ mutating_methods); reflexivity.
Qed.

(** The content check never interrupts a request: the middleware raises
    no 400. *)
Lemma middleware_never_400 {lib : IpAddressLib} (cfg : SecurityConfig)
    (call_next : Request -> handled) (req : Request) (t : Q) (st : state)
    (detail : string) :
  fst (security_middleware cfg call_next req t st) <> Raise (HTTPException 400 detail).
Proof.
  intros H.
  destruct ((match allowed_ips cfg with [] => false | _ => true end)
            && negb (is_ip_allowed cfg (get_client_ip req))) eqn:Hgate.
  - unfold security_middleware, respond in H.
    destruct (existsb _ exempt_paths).
    + destruct (reply (call_next req)); discriminate.
    + rewrite Hgate in H. discriminate.
  - apply middleware_after_ip_check in H; [|exact Hgate].
    destruct H as [H|[H|[H|[what H]]]]; discriminate H.
Qed.

(** C3 at its failing inputs.  A POST whose body is the path traversal
    [../../etc/passwd], or holds an inline script tag, is found unsafe and
    logged as a malicious request, yet the handler runs and its response
    is returned: the [HTTPException] of status 400 is raised inside the
    [try] whose [except Exception: pass] discards it. *)
Theorem malicious_post_reaches_handler :
  is_safe_request "../../etc/passwd" = false /\
  is_safe_request "<script>alert(1)</script>" = false /\
  fst (security_middleware (lib := no_parse_iplib) strict_config call_next_ok
         post_traversal 0 empty_state)
  = Return (add_security_headers ok_response) /\
  map event_type
    (security_log (snd (security_middleware (lib := no_parse_iplib) strict_config
                          call_next_ok post_traversal 0 empty_state)))
  = ["MALICIOUS_REQUEST"%string] /\
  fst (security_middleware (lib := no_parse_iplib) strict_config call_next_ok
         post_script 0 empty_state)
  = Return (add_security_headers ok_response).
Proof. repeat split; vm_compute; reflexivity. Qed.

(** ** Token service *)

Lemma verify_of_error {jwt : PyJWTLib} (cfg : SecurityConfig) (t : token) (now : Q)
    (e : pyjwt_error) :
  jwt_decode t (jwt_secret cfg) [jwt_algorithm] now = inl (JwtError e) ->
  verify_jwt_token cfg t now = Returned None.
Proof. unfold verify_jwt_token. intros ->. destruct e; reflexivity. Qed.

(** A time claim that [int] accepts passes its check or fails it with an
    exception of PyJWT. *)
Lemma time_claim_readable (name : string) (not_int : pyjwt_error)
    (test : Z -> option pyjwt_error) (claims : pydict) :
  readable name claims ->
  validate_time_claim name not_int test claims = None \/
  exists e, validate_time_claim name not_int test claims = Some (JwtError e).
Proof.
  intros Hr. unfold validate_time_claim.
  destruct (dict_get name claims) as [v|] eqn:E; [|now left].
  specialize (Hr v E).
  destruct v as [|b|n|s|l|d]; try discriminate; simpl.
  - destruct (test _); simpl; eauto.
  - destruct (test n); simpl; eauto.
  - destruct (py_int s) as [n|]; [destruct (test n); simpl|]; eauto.
Qed.

(** The other exceptions come from a time claim that [int] refuses with
    [TypeError]. *)
Lemma time_claim_other (name : string) (not_int : pyjwt_error)
    (test : Z -> option pyjwt_error) (claims : pydict) (e : exn) :
  validate_time_claim name not_int test claims = Some (OtherError e) ->
  exists v, dict_get name claims = Some v /\ int_convertible v = false /\ e = TypeError.
Proof.
  unfold validate_time_claim.
  destruct (dict_get name claims) as [v|] eqn:E; [|discriminate].
  destruct v as [|b|n|s|l|d]; simpl; try (intros [= <-]; eauto).
  - destruct (test _); discriminate.
  - destruct (test n); discriminate.
  - destruct (py_int s) as [n|]; [destruct (test n)|]; discriminate.
Qed.

Lemma str_claim_jwt (name : string) (not_str : pyjwt_error) (claims : pydict) (e : exn) :
  validate_str_claim name not_str claims <> Some (OtherError e).
Proof.
  unfold validate_str_claim. destruct (dict_get name claims) as [[]|]; discriminate.
Qed.

Lemma validate_claims_expired {jwt : PyJWTLib} (claims : pydict) (now : Q) (exp : Z) :
  readable "iat" claims -> readable "nbf" claims ->
  dict_get "exp" claims = Some (JInt exp) -> inject_Z exp <= now ->
  exists e, validate_claims claims now = Some (JwtError e).
Proof.
  intros Hiat Hnbf Hexp Hle. unfold validate_claims. cbn [first_raised].
  destruct (time_claim_readable "iat" InvalidIssuedAtError
              (fun iat => if Qltb now (inject_Z iat) then Some ImmatureSignatureError
                          else None) claims Hiat) as [-> | [e ->]]; [|eauto].
  destruct (time_claim_readable "nbf" DecodeError
              (fun nbf => if Qltb now (inject_Z nbf) then Some ImmatureSignatureError
                          else None) claims Hnbf) as [-> | [e ->]]; [|eauto].
  unfold validate_time_claim at 1. rewrite Hexp. cbn [claim_int].
  apply Qle_bool_iff in Hle. rewrite Hle. simpl. eauto.
Qed.

(** From the expiry second on, the claims do not pass. *)
Lemma validate_claims_late {jwt : PyJWTLib} (claims : pydict) (now : Q) (exp : Z) :
  dict_get "exp" claims = Some (JInt exp) -> inject_Z exp <= now ->
  validate_claims claims now <> None.
Proof.
  intros Hexp Hle. unfold validate_claims. cbn [first_raised].
  destruct (validate_time_claim "iat" _ _ claims); [discriminate|].
  destruct (validate_time_claim "nbf" _ _ claims); [discriminate|].
  unfold validate_time_claim. rewrite Hexp. cbn [claim_int].
  apply Qle_bool_iff in Hle. rewrite Hle. discriminate.
Qed.

Lemma validate_claims_other {jwt : PyJWTLib} (claims : pydict) (now : Q) (e : exn) :
  validate_claims claims now = Some (OtherError e) ->
  exists name v, In name ["iat"; "nbf"; "exp"]%string /\
                 dict_get name claims = Some v /\ int_convertible v = false /\
                 e = TypeError.
Proof.
  unfold validate_claims. cbn [first_raised].
  destruct (validate_time_claim "iat" _ _ claims) as [r|] eqn:E1.
  { intros [= ->]. apply time_claim_other in E1 as (v & ? & ? & ?).
    exists "iat"%string, v. simpl. auto. }
  destruct (validate_time_claim "nbf" _ _ claims) as [r|] eqn:E2.
  { intros [= ->]. apply time_claim_other in E2 as (v & ? & ? & ?).
    exists "nbf"%string, v. simpl. auto. }
  destruct (validate_time_claim "exp" _ _ claims) as [r|] eqn:E3.
  { intros [= ->]. apply time_claim_other in E3 as (v & ? & ? & ?).
    exists "exp"%string, v. simpl. auto. }
  destruct (py_truthy _); [discriminate|].
  destruct validates_sub_jti; [|discriminate].
  destruct (validate_str_claim "sub" _ claims) as [r|] eqn:E5.
  { intros [= ->]. now apply str_claim_jwt in E5. }
  destruct (validate_str_claim "jti" _ claims) as [r|] eqn:E6; [|discriminate].
  intros [= ->]. now apply str_claim_jwt in E6.
Qed.

Lemma decode_invalid {jwt : PyJWTLib} (cfg : SecurityConfig) (t : token) (now : Q) :
  invalid_token cfg now t ->
  exists e, jwt_decode t (jwt_secret cfg) [jwt_algorithm] now = inl (JwtError e).
Proof.
  intros [|alg payload signed_with Hp|alg payload signed_with Halg
          |alg payload signed_with Hsig|alg claims signed_with exp Hiat Hnbf Hexp Hle]; simpl.
  - eauto.
  - destruct (negb _); [eauto|]. destruct (negb _); [eauto|].
    destruct payload; try discriminate; eauto.
  - apply String.eqb_neq in Halg. rewrite Halg. simpl. eauto.
  - destruct (negb _); [eauto|].
    rewrite bool_decide_eq_false_2 by exact Hsig. simpl. eauto.
  - destruct (negb _); [eauto|]. destruct (negb _); [eauto|].
    destruct (validate_claims_expired claims now exp Hiat Hnbf Hexp Hle) as [e ->]. eauto.
Qed.

Lemma verify_invalid {jwt : PyJWTLib} (cfg : SecurityConfig) (t : token) (now : Q) :
  invalid_token cfg now t -> verify_jwt_token cfg t now = Returned None.
Proof.
  intros H. destruct (decode_invalid cfg t now H) as [e He].
  eapply verify_of_error; eauto.
Qed.

(** What [verify_jwt_token] lets through, of the tokens above. *)
Lemma verify_propagated {jwt : PyJWTLib} (cfg : SecurityConfig) (t : token) (now : Q)
    (r : raised) :
  verify_jwt_token cfg t now = Propagated r ->
  (t = DeepHeader /\ r = OtherError RecursionError) \/
  (t = DeepPayload jwt_algorithm (Some (jwt_secret cfg)) /\
   r = OtherError RecursionError) \/
  (exists claims name v,
     t = Jws jwt_algorithm (JDict claims) (Some (jwt_secret cfg)) /\
     In name ["iat"; "nbf"; "exp"]%string /\
     dict_get name claims = Some v /\ int_convertible v = false /\
     r = OtherError TypeError).
Proof.
  unfold verify_jwt_token.
  destruct (jwt_decode t (jwt_secret cfg) [jwt_algorithm] now) as [[e|e]|p] eqn:Hd;
    [destruct e; discriminate | | discriminate].
  intros [= <-]. destruct t as [| |alg signed_with|alg payload signed_with]; simpl in Hd.
  - discriminate.
  - injection Hd as <-. now left.
  - right. left. destruct (String.eqb alg jwt_algorithm) eqn:Halg; simpl in Hd; [|discriminate].
    apply String.eqb_eq in Halg. subst alg.
    destruct (bool_decide (signed_with = Some (jwt_secret cfg))) eqn:Hs; simpl in Hd;
      [|discriminate].
    apply bool_decide_eq_true_1 in Hs. subst signed_with.
    injection Hd as <-. auto.
  - right. right.
    destruct (String.eqb alg jwt_algorithm) eqn:Halg; simpl in Hd; [|discriminate].
    apply String.eqb_eq in Halg. subst alg.
    destruct (bool_decide (signed_with = Some (jwt_secret cfg))) eqn:Hs; simpl in Hd;
      [|discriminate].
    apply bool_decide_eq_true_1 in Hs. subst signed_with.
    destruct payload as [| | | | |claims]; try discriminate.
    destruct (validate_claims claims now) as [r|] eqn:Hv; [|discriminate].
    injection Hd as ->. apply validate_claims_other in Hv as (name & v & ? & ? & ? & ->).
    exists claims, name, v. auto.
Qed.


Lemma embedded_exp cfg t_exp t_iat claims :
  dict_get "exp" (embedded_payload cfg t_exp t_iat claims) = Some (JInt (expiry cfg t_exp)).
Proof.
  unfold embedded_payload, dict_update. simpl.
  rewrite !dict_get_set_ne by discriminate. apply dict_get_set_eq.
Qed.

Lemma embedded_iat cfg t_exp t_iat claims :
  dict_get "iat" (embedded_payload cfg t_exp t_iat claims) = Some (JInt (Qfloor t_iat)).
Proof.
  unfold embedded_payload, dict_update. simpl.
  rewrite !dict_get_set_ne by discriminate. apply dict_get_set_eq.
Qed.

Lemma embedded_other (k : string) cfg t_exp t_iat claims :
  k <> "exp"%string -> k <> "iat"%string -> k <> "iss"%string ->
  dict_get k (embedded_payload cfg t_exp t_iat claims) = dict_get k claims.
Proof.
  intros. unfold embedded_payload, dict_update. simpl. now rewrite !dict_get_set_ne.
Qed.

Lemma create_jwt_token_unfold cfg t_exp t_iat claims :
  create_jwt_token cfg t_exp t_iat claims
  = Jws jwt_algorithm (JDict (embedded_payload cfg t_exp t_iat claims)) (Some (jwt_secret cfg)).
Proof. reflexivity. Qed.

Lemma decode_created {jwt : PyJWTLib} cfg t_exp t_iat claims now :
  jwt_decode (create_jwt_token cfg t_exp t_iat claims) (jwt_secret cfg) [jwt_algorithm] now
  = match validate_claims (embedded_payload cfg t_exp t_iat claims) now with
    | Some e => inl e
    | None => inr (embedded_payload cfg t_exp t_iat claims)
    end.
Proof.
  rewrite create_jwt_token_unfold. simpl.
  now rewrite bool_decide_eq_true_2 by reflexivity.
Qed.

Lemma str_claim_passes (name : string) (not_str : pyjwt_error) (claims : pydict) :
  str_or_absent name claims -> validate_str_claim name not_str claims = None.
Proof.
  unfold str_or_absent, validate_str_claim.
  destruct (dict_get name claims) as [[]|]; tauto.
Qed.

(** Inside its lifetime the embedded payload passes every check. *)
Lemma validate_claims_created {jwt : PyJWTLib} cfg claims utcnow_exp utcnow_iat now :
  dict_get "nbf" claims = None -> dict_get "aud" claims = None ->
  well_typed_claims claims ->
  utcnow_iat <= now -> now < inject_Z (expiry cfg utcnow_exp) ->
  validate_claims (embedded_payload cfg utcnow_exp utcnow_iat claims) now = None.
Proof.
  intros Hnbf Haud Htyped Hiat Hexp.
  assert (H1 : Qltb now (inject_Z (Qfloor utcnow_iat)) = false).
  { apply Qltb_ge. eapply Qle_trans; [apply Qfloor_le | exact Hiat]. }
  assert (H2 : Qle_bool (inject_Z (expiry cfg utcnow_exp)) now = false).
  { destruct (Qle_bool _ now) eqn:E; [|reflexivity].
    apply Qle_bool_iff in E. exfalso. exact (Qlt_not_le _ _ Hexp E). }
  unfold validate_claims, validate_time_claim, dict_get_default.
  rewrite embedded_exp, embedded_iat, !embedded_other by discriminate.
  rewrite Hnbf, Haud. cbn [claim_int]. rewrite H1, H2. cbn.
  destruct validates_sub_jti eqn:Hv; [|reflexivity].
  destruct (Htyped Hv) as [Hsub Hjti].
  rewrite !str_claim_passes; [reflexivity | |];
    unfold str_or_absent; now rewrite !dict_get_set_ne by discriminate.
Qed.

(** C4, as the code has it.  A token issued from claims that hold neither
    [nbf] nor [aud], and whose [sub] and [jti], where the release of PyJWT
    checks them, are absent or strings, verifies, returning the embedded
    payload, at any time from its issuance up to the whole second
    [floor(issuance + T)] that it carries as [exp], that second excluded;
    from that second on its verification does not succeed, whatever the
    claims, and returns [None] when [nbf] is absent or a value that [int]
    accepts. *)
Theorem token_lifetime {jwt : PyJWTLib} (cfg : SecurityConfig) (claims : pydict)
    (utcnow_exp utcnow_iat now : Q) :
  (dict_get "nbf" claims = None -> dict_get "aud" claims = None ->
   well_typed_claims claims ->
   utcnow_iat <= now -> now < inject_Z (expiry cfg utcnow_exp) ->
   verify_jwt_token cfg (create_jwt_token cfg utcnow_exp utcnow_iat claims) now
   = Returned (Some (embedded_payload cfg utcnow_exp utcnow_iat claims))) /\
  (inject_Z (expiry cfg utcnow_exp) <= now ->
   (forall payload,
      verify_jwt_token cfg (create_jwt_token cfg utcnow_exp utcnow_iat claims) now
      <> Returned (Some payload)) /\
   (readable "nbf" claims ->
    verify_jwt_token cfg (create_jwt_token cfg utcnow_exp utcnow_iat claims) now
    = Returned None)).
Proof.
  split.
  - intros Hnbf Haud Htyped Hiat Hexp. unfold verify_jwt_token. rewrite decode_created.
    now rewrite (validate_claims_created cfg claims _ _ _ Hnbf Haud Htyped Hiat Hexp).
  - intros Hexp. split.
    + intros payload. unfold verify_jwt_token. rewrite decode_created.
      pose proof (validate_claims_late (embedded_payload cfg utcnow_exp utcnow_iat claims)
                    now _ (embedded_exp cfg utcnow_exp utcnow_iat claims) Hexp) as Hlate.
      destruct (validate_claims _ now) as [[e|e]|]; [destruct e| |]; try discriminate.
      contradiction.
    + intros Hnbf. apply verify_invalid. rewrite create_jwt_token_unfold.
      eapply invalid_expired; [| |apply embedded_exp | exact Hexp].
      * intros v Hv. rewrite embedded_iat in Hv. now injection Hv as <-.
      * intros v Hv. rewrite embedded_other in Hv by discriminate. now apply Hnbf.
Qed.

Lemma gateway_claims_typed {jwt : PyJWTLib} :
  dict_get "nbf" gateway_claims = None /\ dict_get "aud" gateway_claims = None /\
  well_typed_claims gateway_claims /\ readable "nbf" gateway_claims.
Proof.
  repeat split; try reflexivity; try exact I. intros v Hv. discriminate.
Defined.

Lemma token_lifetime_witness :
  verify_jwt_token (jwt := pyjwt_2_10) strict_config
    (create_jwt_token strict_config (1 # 2) (1 # 2) gateway_claims) 3599
  = Returned (Some (embedded_payload strict_config (1 # 2) (1 # 2) gateway_claims)) /\
  verify_jwt_token (jwt := pyjwt_2_10) strict_config
    (create_jwt_token strict_config (1 # 2) (1 # 2) gateway_claims) 3600
  = Returned None.
Proof.
  split.
  - apply (proj1 (token_lifetime (jwt := pyjwt_2_10) strict_config gateway_claims
                    (1 # 2) (1 # 2) 3599));
      try apply gateway_claims_typed; vm_compute; (reflexivity || discriminate).
  - apply (proj2 (token_lifetime (jwt := pyjwt_2_10) strict_config gateway_claims
                    (1 # 2) (1 # 2) 3600)).
    + vm_compute. discriminate.
    + intros v Hv. vm_compute in Hv. discriminate.
Defined.



(** C4 as stated fails.  A token issued at 0.5 s with one hour of life is
    refused at 3600.25 s, before [issuance + T = 3600.5 s], since its [exp]
    is the whole second 3600; a token whose claims hold an [aud] entry is
    refused from the start, since verification names no audience; a
    verifier whose clock reads 5 s refuses a token issued at 10.5 s; and
    PyJWT 2.10 refuses from the start a token whose [sub] is a number,
    which the earlier releases accept. *)
Lemma token_refused_before_expiry :
  3600 + (1 # 4) < (1 # 2) + inject_Z (jwt_expire_hours strict_config * 3600) /\
  verify_jwt_token (jwt := pyjwt_2_10) strict_config
    (create_jwt_token strict_config (1 # 2) (1 # 2) gateway_claims) (3600 + (1 # 4))
  = Returned None /\
  verify_jwt_token (jwt := pyjwt_2_10) strict_config
    (create_jwt_token strict_config (1 # 2) (1 # 2) [("aud"%string, JStr "gateway")]) 1
  = Returned None /\
  verify_jwt_token (jwt := pyjwt_2_10) strict_config
    (create_jwt_token strict_config (21 # 2) (21 # 2) gateway_claims) 5
  = Returned None /\
  verify_jwt_token (jwt := pyjwt_2_10) strict_config
    (create_jwt_token strict_config (1 # 2) (1 # 2) [("sub"%string, JInt 7)]) 1
  = Returned None /\
  verify_jwt_token (jwt := pyjwt_before_2_10) strict_config
    (create_jwt_token strict_config (1 # 2) (1 # 2) [("sub"%string, JInt 7)]) 1
  = Returned (Some (embedded_payload strict_config (1 # 2) (1 # 2)
                      [("sub"%string, JInt 7)])).
Proof. repeat split; vm_compute; reflexivity. Qed.

End SecurityProps.

(** * Further properties *)

(** ** The aggregation gateway: outages, bookkeeping, other endpoints *)

Module GatewayExtra.
Import Py PyFacts Gateway GatewayProps.

Lemma drawn_from_nothing (ep : fan_out_endpoint) (net : string -> http_outcome)
    (bs : backends) (es : list json) :
  (forall name bc, In (name, bc) bs -> succeeds ep (net name) = false) ->
  drawn_from ep net bs es -> es = [].
Proof.
  intros Hnone Hfrom. destruct es as [|e es]; [reflexivity|].
  destruct (Hfrom e (or_introl eq_refl)) as (name & bc & Hin & Hs & _).
  rewrite (Hnone name bc Hin) in Hs. discriminate.
Qed.

Lemma sources_of_nothing (ep : fan_out_endpoint) (net : string -> http_outcome)
    (bs : backends) :
  (forall name bc, In (name, bc) bs -> succeeds ep (net name) = false) ->
  sources_of ep net bs = [].
Proof.
  unfold sources_of. induction bs as [|[name bc] bs IH]; intros H; simpl; [reflexivity|].
  rewrite (H name bc (or_introl eq_refl)). apply IH. intros n b Hin.
  apply (H n b). now right.
Qed.

Lemma handler_settled (ep : fan_out_endpoint) (cfg : backends)
    (net : string -> http_outcome) :
  settled ep cfg net cfg ->
  exists resp es,
    handler ep cfg net = Return (JDict resp) /\
    dict_get "success" resp = Some (JBool true) /\
    dict_get (collection_key ep) resp = Some (JList es) /\
    drawn_from ep net cfg es /\
    dict_get "backend_sources" resp = Some (JList (sources_of ep net cfg)).
Proof.
  intros Hset. destruct ep; unfold handler.
  - assert (Hm : merges (merge_result "devices") (fun a => a) DevicesAll cfg net cfg).
    { apply merges_all. intros [name bc] Hin. destruct (Hset name bc Hin).
      eapply merge_result_single; eauto; simpl; auto. }
    destruct (Hm merged_empty) as (acc & Hrun & Hsrc & extra & Hent & Hfrom).
    unfold get_all_devices_unified. rewrite call_all_backends_unfold, Hrun.
    simpl in *. do 2 eexists. repeat split; try reflexivity.
    + rewrite Hent. exact Hfrom.
    + simpl. now rewrite Hsrc.
  - assert (Hm : merges (merge_result "data") (fun a => a) AttendanceAll cfg net cfg).
    { apply merges_all. intros [name bc] Hin. destruct (Hset name bc Hin).
      eapply merge_result_single; eauto; simpl; auto. }
    destruct (Hm merged_empty) as (acc & Hrun & Hsrc & extra & Hent & Hfrom).
    unfold get_all_attendance_unified. rewrite call_all_backends_unfold, Hrun.
    simpl in *. do 2 eexists. repeat split; try reflexivity.
    + rewrite Hent. exact Hfrom.
    + simpl. now rewrite Hsrc.
  - assert (Hm : merges merge_users_result fst UsersAll cfg net cfg).
    { apply merges_all. intros [name bc] Hin. destruct (Hset name bc Hin).
      now apply merge_users_single. }
    destruct (Hm (merged_empty, ∅)) as (acc & Hrun & Hsrc & extra & Hent & Hfrom).
    unfold get_all_users_unified. rewrite call_all_backends_unfold, Hrun.
    simpl in *. do 2 eexists. repeat split; try reflexivity.
    + rewrite Hent. exact Hfrom.
    + simpl. now rewrite Hsrc.
  - assert (Hm : merges merge_summary_result (fun a => a) SummaryAll cfg net cfg).
    { apply merges_all. intros [name bc] Hin. destruct (Hset name bc Hin).
      now apply merge_summary_single. }
    destruct (Hm merged_empty) as (acc & Hrun & Hsrc & extra & Hent & Hfrom).
    unfold get_all_summary_unified. rewrite call_all_backends_unfold, Hrun.
    simpl in *. do 2 eexists. repeat split; try reflexivity.
    + rewrite Hent. exact Hfrom.
    + simpl. now rewrite Hsrc.
Qed.

Lemma all_down_NoDup_failed :
  List.NoDup (map fst three_backends) /\
  (forall name bc, In (name, bc) three_backends -> failed (net_all_down name) = true).
Proof.
  split; [exact three_backends_NoDup|]. intros name bc _. reflexivity.
Defined.

(** X1.  A total outage is not an error of the fan-out endpoints: when every
    registered target fails in a classified way (also when no target is
    registered), each of the four handlers returns a response whose
    [success] flag is true, whose collection is empty and whose
    [backend_sources] is empty. *)
Theorem fan_out_total_outage (ep : fan_out_endpoint) (cfg : backends)
    (net : string -> http_outcome) :
  List.NoDup (map fst cfg) ->
  (forall name bc, In (name, bc) cfg -> failed (net name) = true) ->
  exists resp,
    handler ep cfg net = Return (JDict resp) /\
    dict_get "success" resp = Some (JBool true) /\
    dict_get (collection_key ep) resp = Some (JList []) /\
    dict_get "backend_sources" resp = Some (JList []).
Proof.
  intros Hnd Hall.
  assert (Hnone : forall name bc, In (name, bc) cfg -> succeeds ep (net name) = false).
  { intros name bc Hin. destruct (succeeds ep (net name)) eqn:E; [|reflexivity].
    apply succeeds_not_failed in E. rewrite (Hall name bc Hin) in E. discriminate. }
  assert (Hset : settled ep cfg net cfg).
  { intros name bc Hin. split; [now apply backend_lookup_NoDup|]. left. eauto. }
  destruct (handler_settled ep cfg net Hset) as (resp & es & Hrun & Hok & Hcol & Hfrom & Hsrc).
  exists resp. rewrite (drawn_from_nothing ep net cfg es Hnone Hfrom) in Hcol.
  rewrite (sources_of_nothing ep net cfg Hnone) in Hsrc. auto.
Qed.

Lemma fan_out_total_outage_witness :
  exists resp,
    handler UsersAll three_backends net_all_down = Return (JDict resp) /\
    dict_get "success" resp = Some (JBool true) /\
    dict_get (collection_key UsersAll) resp = Some (JList []) /\
    dict_get "backend_sources" resp = Some (JList []).
Proof.
  apply (fan_out_total_outage UsersAll three_backends net_all_down).
  - exact (proj1 all_down_NoDup_failed).
  - exact (proj2 all_down_NoDup_failed).
Defined.

(** ** Bookkeeping of the unified handlers *)

Lemma valid_result_identified cfg name o d :
  In d (valid_result (call_backend cfg name o)) ->
  exists bc, backend_lookup name cfg = Some bc /\
    dict_get "_backend_name" d = Some (JStr name) /\
    dict_get "_place_location" d = Some (JStr (location_or_unknown bc)).
Proof.
  unfold call_backend. destruct (backend_lookup name cfg) as [bc|] eqn:Hl; [|intros []].
  assert (Herr : forall msg code,
             In d (valid_result (Return (error_result name bc msg code))) ->
             exists bc0, Some bc = Some bc0 /\
               dict_get "_backend_name" d = Some (JStr name) /\
               dict_get "_place_location" d = Some (JStr (location_or_unknown bc0))).
  { intros msg code [<-|[]]. exists bc. repeat split; auto. }
  destruct o as [status pt data| |msg]; eauto.
  destruct (status =? 200).
  - destruct data; simpl; try tauto.
    intros [<-|[]]. exists bc. split; [reflexivity|].
    split; [apply metadata_backend_name | apply metadata_place_location].
  - destruct (status =? 401); eauto.
    destruct (status =? 403); eauto.
    destruct (500 <=? status); eauto.
Qed.

Lemma valid_result_cases (r : py_result json) :
  valid_result r = [] \/ exists d, valid_result r = [d].
Proof. destruct r as [[]|]; simpl; eauto. Qed.

Lemma py_in_str (s : string) (l : list json) :
  py_in (JStr s) l = false -> ~ In (JStr s) l.
Proof.
  unfold py_in. intros H Hin.
  assert (existsb (py_eqb (JStr s)) l = true).
  { apply existsb_exists. exists (JStr s). split; [exact Hin|].
    simpl. apply String.eqb_refl. }
  congruence.
Qed.

Lemma names_recorded_source cfg srcs name bc acc ents :
  backend_lookup name cfg = Some bc ->
  names_recorded cfg srcs acc ->
  names_recorded cfg (srcs ++ [name])
    (record_source (JStr name) (JStr (location_or_unknown bc)) acc ents).
Proof.
  intros Hl (Hs & Hnd & Hp). unfold names_recorded, record_source. simpl.
  split; [now rewrite Hs, map_app|].
  destruct (py_in (JStr (location_or_unknown bc)) (places acc)) eqn:Hin.
  - split; [exact Hnd|]. intros p Hpin.
    destruct (Hp p Hpin) as (n & b & Hn & Hb & ->).
    exists n, b. repeat split; auto. apply in_or_app. now left.
  - split.
    + apply List.NoDup_app. repeat split; auto.
      * repeat constructor. intros [].
      * intros p Hpin [<-|[]]. now apply py_in_str in Hin.
    + intros p Hpin. apply in_app_or in Hpin as [Hpin|[<-|[]]].
      * destruct (Hp p Hpin) as (n & b & Hn & Hb & ->).
        exists n, b. repeat split; auto. apply in_or_app. now left.
      * exists name, bc. repeat split; auto. apply in_or_app. right. now left.
Qed.

Section Bookkeeping.
Context {A : Type} (body : A -> pydict -> py_result A) (proj : A -> merged).
Variables (cfg : backends) (net : string -> http_outcome).
Hypothesis Hstep : records_or_skips body proj.

Lemma fold_names_recorded (bs : backends) :
  forall acc acc' srcs,
    names_recorded cfg srcs (proj acc) ->
    for_each body acc (results_of cfg net bs) = Return acc' ->
    exists added, sublist added (map fst bs) /\
                  names_recorded cfg (srcs ++ added) (proj acc').
Proof.
  induction bs as [|[name bc0] bs IH]; intros acc acc' srcs Hrec Hrun.
  - simpl in Hrun. injection Hrun as <-. exists []. split; [constructor|].
    now rewrite app_nil_r.
  - change (results_of cfg net ((name, bc0) :: bs))
      with (valid_result (call_backend cfg name (net name)) ++ results_of cfg net bs) in Hrun.
    rewrite for_each_app in Hrun. apply bind_inv in Hrun as (acc1 & Hone & Hrest).
    assert (Hskip : names_recorded cfg srcs (proj acc1) ->
                    exists added, sublist added (map fst ((name, bc0) :: bs)) /\
                                  names_recorded cfg (srcs ++ added) (proj acc')).
    { intros H1. destruct (IH acc1 acc' srcs H1 Hrest) as (added & Hsub & Hrec').
      exists added. split; [now apply sublist_cons | exact Hrec']. }
    destruct (valid_result_cases (call_backend cfg name (net name))) as [E|[d E]].
    + rewrite E in Hone. simpl in Hone. injection Hone as <-. now apply Hskip.
    + assert (Hin : In d (valid_result (call_backend cfg name (net name)))).
      { rewrite E. now left. }
      apply valid_result_identified in Hin as (bc & Hl & Hbn & Hpl).
      rewrite E in Hone. simpl in Hone.
      destruct (body acc d) as [a|] eqn:Hb; [|discriminate]. simpl in Hone.
      injection Hone as <-.
      destruct (Hstep acc d a Hb) as [[Hs Hp]|[ents Hr]].
      * apply Hskip. destruct Hrec as (Hs0 & Hnd & Hp0). unfold names_recorded.
        rewrite Hs, Hp. auto.
      * unfold dict_get_default in Hr. rewrite Hbn, Hpl in Hr. simpl in Hr.
        assert (H1 : names_recorded cfg (srcs ++ [name]) (proj a)).
        { rewrite Hr. now apply names_recorded_source. }
        destruct (IH a acc' _ H1 Hrest) as (added & Hsub & Hrec').
        exists (name :: added). split; [now apply sublist_skip|].
        now rewrite <- app_assoc in Hrec'.
Qed.

End Bookkeeping.

Lemma merge_result_records (key : string) :
  records_or_skips (merge_result key) (fun acc => acc).
Proof.
  intros acc d acc' H. unfold merge_result in H.
  destruct (py_truthy (dict_get_default "success" JNull d) && dict_has key d).
  - apply bind_inv in H as (l & _ & H). apply bind_inv in H as (t & _ & H).
    injection H as <-. right. eauto.
  - injection H as <-. now left.
Qed.

Lemma merge_users_records : records_or_skips merge_users_result fst.
Proof.
  intros acc d acc' H. unfold merge_users_result in H.
  destruct (py_truthy (dict_get_default "success" JNull d) && dict_has "users" d).
  - apply bind_inv in H as (l & _ & H). apply bind_inv in H as (t & _ & H).
    injection H as <-. right. simpl. eauto.
  - injection H as <-. now left.
Qed.

Lemma merge_summary_records : records_or_skips merge_summary_result (fun acc => acc).
Proof.
  intros acc d acc' H. unfold merge_summary_result in H.
  destruct (py_truthy (dict_get_default "success" JNull d)).
  - injection H as <-. right. eauto.
  - injection H as <-. now left.
Qed.

Lemma names_recorded_empty cfg : names_recorded cfg [] merged_empty.
Proof. repeat split; simpl; [constructor | tauto]. Qed.

Lemma handler_names_recorded (ep : fan_out_endpoint) (cfg : backends)
    (net : string -> http_outcome) (resp : pydict) :
  handler ep cfg net = Return (JDict resp) ->
  exists srcs acc,
    sublist srcs (map fst cfg) /\ names_recorded cfg srcs acc /\
    dict_get "backend_sources" resp = Some (JList (backend_sources acc)) /\
    dict_get "places" resp = Some (JList (places acc)).
Proof.
  destruct ep; unfold handler.
  - unfold get_all_devices_unified. rewrite call_all_backends_unfold. intros H.
    apply bind_inv in H as (acc & Hrun & H). injection H as <-.
    destruct (fold_names_recorded _ _ cfg net (merge_result_records _) cfg _ _ []
                (names_recorded_empty cfg) Hrun) as (srcs & Hsub & Hrec).
    exists srcs, acc. repeat split; auto; apply Hrec.
  - unfold get_all_attendance_unified. rewrite call_all_backends_unfold. intros H.
    apply bind_inv in H as (acc & Hrun & H). injection H as <-.
    destruct (fold_names_recorded _ _ cfg net (merge_result_records _) cfg _ _ []
                (names_recorded_empty cfg) Hrun) as (srcs & Hsub & Hrec).
    exists srcs, acc. repeat split; auto; apply Hrec.
  - unfold get_all_users_unified. rewrite call_all_backends_unfold. intros H.
    apply bind_inv in H as (acc & Hrun & H). injection H as <-.
    destruct (fold_names_recorded _ _ cfg net merge_users_records cfg
                (merged_empty, ∅) _ [] (names_recorded_empty cfg) Hrun)
      as (srcs & Hsub & Hrec).
    exists srcs, (fst acc). repeat split; auto; apply Hrec.
  - unfold get_all_summary_unified. rewrite call_all_backends_unfold. intros H.
    apply bind_inv in H as (acc & Hrun & H). injection H as <-.
    destruct (fold_names_recorded _ _ cfg net merge_summary_records cfg _ _ []
                (names_recorded_empty cfg) Hrun) as (srcs & Hsub & Hrec).
    exists srcs, acc. repeat split; auto; apply Hrec.
Qed.

(** X2.  Whatever the backends answer, a response of a fan-out handler lists in
    [backend_sources] names of the registry only, in registry order and
    each target at most once: the list is a sub-sequence of the
    registered names. *)
Theorem backend_sources_registered (ep : fan_out_endpoint) (cfg : backends)
    (net : string -> http_outcome) (resp : pydict) :
  handler ep cfg net = Return (JDict resp) ->
  exists srcs, dict_get "backend_sources" resp = Some (JList (map JStr srcs)) /\
               sublist srcs (map fst cfg).
Proof.
  intros H. apply handler_names_recorded in H as (srcs & acc & Hsub & Hrec & Hs & _).
  exists srcs. destruct Hrec as (Hsrc & _). now rewrite <- Hsrc.
Qed.

Lemma backend_sources_registered_witness :
  exists srcs,
    dict_get "backend_sources" devices_when_B_times_out = Some (JList (map JStr srcs)) /\
    sublist srcs (map fst three_backends).
Proof.
  apply (backend_sources_registered DevicesAll three_backends net_B_times_out).
  vm_compute. reflexivity.
Defined.

(** X3.  Whatever the backends answer, the [places] of a fan-out response hold
    no value twice, and each one is the configured location (or
    ["Unknown"]) of a backend listed in [backend_sources]. *)
Theorem places_distinct_locations (ep : fan_out_endpoint) (cfg : backends)
    (net : string -> http_outcome) (resp : pydict) :
  handler ep cfg net = Return (JDict resp) ->
  exists srcs pls,
    dict_get "backend_sources" resp = Some (JList (map JStr srcs)) /\
    dict_get "places" resp = Some (JList pls) /\
    List.NoDup pls /\
    forall p, In p pls ->
      exists name bc, In name srcs /\ backend_lookup name cfg = Some bc /\
                      p = JStr (location_or_unknown bc).
Proof.
  intros H. apply handler_names_recorded in H as (srcs & acc & Hsub & Hrec & Hs & Hp).
  exists srcs, (places acc). destruct Hrec as (Hsrc & Hnd & Hloc).
  rewrite <- Hsrc. auto.
Qed.

Lemma places_distinct_locations_witness :
  exists srcs pls,
    dict_get "backend_sources" devices_when_B_times_out = Some (JList (map JStr srcs)) /\
    dict_get "places" devices_when_B_times_out = Some (JList pls) /\
    List.NoDup pls /\
    forall p, In p pls ->
      exists name bc, In name srcs /\ backend_lookup name three_backends = Some bc /\
                      p = JStr (location_or_unknown bc).
Proof.
  apply (places_distinct_locations DevicesAll three_backends net_B_times_out).
  vm_compute. reflexivity.
Defined.

Lemma users_listed_at_most_once_witness :
  List.NoDup (map entry_key users_listed_when_colliding).
Proof.
  apply (users_listed_at_most_once two_backends net_colliding_users users_when_colliding).
  - vm_compute. reflexivity.
  - vm_compute. reflexivity.
Defined.

(** ** The summary endpoint never fails *)

Lemma summary_loop_returns (l : list pydict) :
  forall acc, length (entities acc) = length (backend_sources acc) ->
    exists acc', for_each merge_summary_result acc l = Return acc' /\
                 length (entities acc') = length (backend_sources acc').
Proof.
  induction l as [|d l IH]; intros acc Hlen; simpl; [eauto|].
  unfold merge_summary_result at 1.
  destruct (py_truthy (dict_get_default "success" JNull d)); simpl.
  - apply IH. simpl. rewrite !length_app, Hlen. reflexivity.
  - now apply IH.
Qed.

(** X5.  [/summary/all] answers whatever the backends return: no upstream
    response can make the handler raise.  Its response reports success,
    and holds one summary for each name of [backend_sources], their number
    being [total_places]. *)
Theorem summary_never_raises (cfg : backends) (net : string -> http_outcome) :
  exists resp es srcs,
    get_all_summary_unified cfg net = Return (JDict resp) /\
    dict_get "success" resp = Some (JBool true) /\
    dict_get "summaries" resp = Some (JList es) /\
    dict_get "backend_sources" resp = Some (JList srcs) /\
    length es = length srcs /\
    dict_get "total_places" resp = Some (JInt (Z.of_nat (length srcs))).
Proof.
  unfold get_all_summary_unified.
  destruct (summary_loop_returns (call_all_backends cfg net) merged_empty eq_refl)
    as (acc & -> & Hlen).
  simpl. do 3 eexists. repeat split; try reflexivity; [exact Hlen|].
  simpl. unfold len. now rewrite Hlen.
Qed.

(** The three collection endpoints have no such guarantee. *)
Example devices_all_can_raise :
  get_all_devices_unified one_backend
    (fun _ => Response 200 None (JDict [("success"%string, JBool true);
                                        ("devices"%string, JInt 3)]))
  = Raise TypeError.
Proof. reflexivity. Qed.

(** ** Direct place endpoints *)

Lemma place_location_of_lookup cfg name bc :
  backend_lookup name cfg = Some bc ->
  place_location_of cfg name = JStr (location_or_unknown bc).
Proof. intros H. unfold place_location_of. now rewrite H. Qed.

Lemma place_unknown_404 (key : string) cfg name o :
  backend_lookup name cfg = None ->
  get_place_collection key cfg name o
  = Raise (HTTPException 404 ("Backend '" +:+ name +:+ "' not found")) /\
  get_place_summary cfg name o
  = Raise (HTTPException 404 ("Backend '" +:+ name +:+ "' not found")).
Proof.
  intros H. unfold get_place_collection, get_place_summary,
    call_specific_place_backend, call_backend. now rewrite H.
Qed.

(** X6.  A direct place endpoint does not turn an upstream failure into an
    HTTP error: for a registered place whose backend fails in a classified
    way, the four [/place/{name}/...] handlers return the failure
    dictionary itself ([success] false, the error code of the class, the
    identity of the backend) as the body of a normal response. *)
Theorem place_endpoint_failure_passthrough (key : string) (cfg : backends)
    (name : string) (bc : backend_config) (o : http_outcome) :
  backend_lookup name cfg = Some bc ->
  failed o = true ->
  exists msg body,
    body = [("success"%string, JBool false);
            ("error"%string, JStr msg);
            ("error_code"%string, JStr (error_code_of (classify o)));
            ("_backend_name"%string, JStr name);
            ("_backend_url"%string, JStr (url bc));
            ("_place_location"%string, JStr (location_or_unknown bc))] /\
    get_place_collection key cfg name o = Return (JDict body) /\
    get_place_summary cfg name o = Return (JDict body).
Proof.
  intros Hl Hf. destruct (call_backend_failed cfg name bc o Hl Hf) as [msg Hcall].
  exists msg. eexists. split; [reflexivity|].
  unfold get_place_collection, get_place_summary, call_specific_place_backend.
  rewrite Hcall. split; reflexivity.
Qed.

Lemma place_endpoint_failure_passthrough_witness :
  exists msg body,
    body = [("success"%string, JBool false);
            ("error"%string, JStr msg);
            ("error_code"%string, JStr (error_code_of (classify TimeoutError)));
            ("_backend_name"%string, JStr "B");
            ("_backend_url"%string, JStr (url backend_B));
            ("_place_location"%string, JStr (location_or_unknown backend_B))] /\
    get_place_collection "devices" three_backends "B" TimeoutError = Return (JDict body) /\
    get_place_summary three_backends "B" TimeoutError = Return (JDict body).
Proof.
  apply (place_endpoint_failure_passthrough "devices" three_backends "B" backend_B
           TimeoutError); reflexivity.
Defined.

(** X7.  A 200 answer whose body is not a JSON object is handled in two ways:
    the direct place endpoints raise [AttributeError] on it, while the
    fan-out drops the target without a trace (its result is not kept). *)
Theorem non_object_body_direct_and_fan_out (key : string) (cfg : backends)
    (name : string) (bc : backend_config) (pt : option string) (data : json) :
  backend_lookup name cfg = Some bc ->
  is_object data = false ->
  get_place_collection key cfg name (Response 200 pt data) = Raise AttributeError /\
  get_place_summary cfg name (Response 200 pt data) = Raise AttributeError /\
  valid_result (call_backend cfg name (Response 200 pt data)) = [].
Proof.
  intros Hl Hobj.
  unfold get_place_collection, get_place_summary, call_specific_place_backend, call_backend.
  rewrite Hl. destruct data; try discriminate; repeat split; reflexivity.
Qed.

Lemma non_object_body_direct_and_fan_out_witness :
  get_place_collection "devices" three_backends "A" (net_list_body "A")
  = Raise AttributeError /\
  get_place_summary three_backends "A" (net_list_body "A") = Raise AttributeError /\
  valid_result (call_backend three_backends "A" (net_list_body "A")) = [].
Proof.
  apply (non_object_body_direct_and_fan_out "devices" three_backends "A" backend_A None
           (JList [device "a1"])); reflexivity.
Defined.

Lemma tag_in_place_objects key name bc d l :
  dict_get key d = Some (JList l) -> forallb is_object l = true ->
  tag_in_place key (JStr name) (JStr (location_or_unknown bc)) d
  = Return (dict_set key (JList (map (tagged name bc) l)) d).
Proof.
  intros Hget Hobj. unfold tag_in_place. rewrite Hget. simpl.
  now rewrite tag_entities_objects.
Qed.

(** X8.  The direct endpoints agree with the fan-out: for a registered place
    whose backend succeeds, [/place/{name}/devices] (likewise attendance
    and users) returns the upstream object with its collection replaced
    by exactly the tagged entities that the place contributes to the
    corresponding [/.../all] endpoint; the other fields are those of the
    upstream object with the backend's metadata. *)
Theorem place_endpoint_matches_fan_out (ep : fan_out_endpoint) (key : string)
    (cfg : backends) (name : string) (bc : backend_config) (o : http_outcome) :
  upstream_key ep = Some key ->
  backend_lookup name cfg = Some bc ->
  succeeds ep o = true ->
  exists status pt d resp,
    o = Response status pt (JDict d) /\
    get_place_collection key cfg name o = Return (JDict resp) /\
    dict_get key resp = Some (JList (contribution ep name bc o)) /\
    forall k, k <> key ->
      dict_get k resp = dict_get k (add_backend_metadata name bc pt d).
Proof.
  intros Hep Hl Hs.
  destruct (succeeds_inv _ _ Hs) as (status & pt & d & Ho & H200 & Ht & Hc).
  rewrite Hep in Hc. destruct Hc as (l & Hget & Hobj).
  assert (Hkey : key <> "_backend_name"%string /\ key <> "_backend_url"%string /\
                 key <> "_place_location"%string /\ key <> "_response_time"%string).
  { destruct ep; simpl in Hep; try discriminate; injection Hep as <-;
      repeat split; discriminate. }
  destruct Hkey as (K1 & K2 & K3 & K4).
  exists status, pt, d. eexists. split; [exact Ho|].
  unfold get_place_collection, call_specific_place_backend.
  rewrite Ho, (call_backend_object _ _ _ _ _ _ Hl H200). simpl.
  unfold dict_get_default in *. rewrite metadata_other by discriminate.
  rewrite Ht, (place_location_of_lookup _ _ _ Hl).
  rewrite (tag_in_place_objects key name bc _ l);
    [| now rewrite metadata_other | exact Hobj].
  simpl. split; [reflexivity|]. split.
  - rewrite dict_get_set_eq, Hep, Hget. reflexivity.
  - intros k Hk. now rewrite dict_get_set_ne.
Qed.

Lemma place_endpoint_matches_fan_out_witness :
  exists status pt d resp,
    devices_response ["a1"; "a2"]%string = Response status pt (JDict d) /\
    get_place_collection "devices" three_backends "A" (devices_response ["a1"; "a2"]%string)
    = Return (JDict resp) /\
    dict_get "devices" resp
    = Some (JList (contribution DevicesAll "A" backend_A
                     (devices_response ["a1"; "a2"]%string))) /\
    forall k, k <> "devices"%string ->
      dict_get k resp = dict_get k (add_backend_metadata "A" backend_A pt d).
Proof.
  apply (place_endpoint_matches_fan_out DevicesAll "devices" three_backends "A" backend_A
           (devices_response ["a1"; "a2"]%string)); reflexivity.
Defined.

(** ** Device endpoints *)

Lemma find_device_info_outcome (cfg : backends) (device_name : string)
    (results : list pydict) :
  (forall d, In d results -> result_identified cfg d) ->
  (exists d name bc,
     find_device_info device_name results = Return (JDict d) /\
     In (name, bc) cfg /\
     py_truthy (dict_get_default "success" JNull d) = true /\
     py_eqb (dict_get_default "device_name" JNull d) (JStr device_name) = true /\
     dict_get "backend_name" d = Some (JStr name) /\
     dict_get "place_location" d = Some (JStr (location_or_unknown bc))) \/
  find_device_info device_name results
  = Raise (HTTPException 404 ("Device '" +:+ device_name +:+ "' not found in any place")).
Proof.
  induction results as [|r rest IH]; intros Hid; simpl; [now right|].
  destruct (py_truthy (dict_get_default "success" JNull r)
            && py_eqb (dict_get_default "device_name" JNull r) (JStr device_name))
    eqn:Hcond.
  - left. apply andb_prop in Hcond as [Hs Hd].
    destruct (Hid r (or_introl eq_refl)) as (name & bc & Hin & Hbn & Hpl).
    eexists. exists name, bc. split; [reflexivity|]. split; [exact Hin|].
    unfold dict_get_default in *. rewrite Hbn, Hpl. simpl. repeat split.
    + now rewrite !dict_get_set_ne by discriminate.
    + now rewrite !dict_get_set_ne by discriminate.
    + rewrite dict_get_set_ne by discriminate. apply dict_get_set_eq.
    + apply dict_get_set_eq.
  - apply IH. intros d Hd. apply Hid. now right.
Qed.

(** X9.  [/device/{device_name}/info] has two outcomes only, whatever the
    backends answer: it raises the 404 ["Device '...' not found in any
    place"], or it returns an object that reports success, describes the
    requested device and carries the name and location of one registered
    backend. *)
Theorem device_info_found_or_404 (cfg : backends) (net : string -> http_outcome)
    (device_name : string) :
  (exists d name bc,
     get_device_info cfg net device_name = Return (JDict d) /\
     In (name, bc) cfg /\
     py_truthy (dict_get_default "success" JNull d) = true /\
     py_eqb (dict_get_default "device_name" JNull d) (JStr device_name) = true /\
     dict_get "backend_name" d = Some (JStr name) /\
     dict_get "place_location" d = Some (JStr (location_or_unknown bc))) \/
  get_device_info cfg net device_name
  = Raise (HTTPException 404 ("Device '" +:+ device_name +:+ "' not found in any place")).
Proof.
  unfold get_device_info. apply find_device_info_outcome.
  intros d. apply results_identified.
Qed.

Lemma records_of_device_named (device_name : string) (l out : list json) :
  records_of_device device_name l = Return out ->
  forall e, In e out -> names_device device_name e.
Proof.
  revert out. induction l as [|x l IH]; intros out H; simpl in H.
  - injection H as <-. intros e [].
  - apply bind_inv in H as (v & Hv & H). apply bind_inv in H as (rest & Hrest & H).
    injection H as <-. destruct x; try discriminate. injection Hv as <-.
    destruct (py_eqb (dict_get_default "device_name" JNull d) (JStr device_name)) eqn:E.
    + intros e [<-|He]; [|eapply IH; eauto]. eexists. split; [reflexivity | exact E].
    + eapply IH; eauto.
Qed.

Lemma tag_entities_keeps_device (device_name : string) (bn pl : json)
    (l out : list json) :
  tag_entities bn pl l = Return out ->
  (forall e, In e l -> names_device device_name e) ->
  length out = length l /\
  forall e, In e out -> names_device device_name e /\ has_tags bn pl e.
Proof.
  intros Hrun Hnamed. split.
  - revert out Hrun. clear Hnamed. induction l as [|x l IH]; intros out H; simpl in H.
    + now injection H as <-.
    + apply bind_inv in H as (x1 & H1 & H). apply bind_inv in H as (x2 & H2 & H).
      apply bind_inv in H as (rest & Hrest & H). injection H as <-.
      simpl. f_equal. now apply IH.
  - intros e He. split; [|eapply tag_entities_has_tags; eauto].
    revert out Hrun e He. induction l as [|x l IH]; intros out H e He; simpl in H.
    + injection H as <-. destruct He.
    + apply bind_inv in H as (x1 & H1 & H). apply bind_inv in H as (x2 & H2 & H).
      apply bind_inv in H as (rest & Hrest & H). injection H as <-.
      destruct He as [<-|He].
      * destruct (Hnamed x (or_introl eq_refl)) as (d & -> & Hd).
        injection H1 as <-. injection H2 as <-. eexists. split; [reflexivity|].
        unfold dict_get_default. now rewrite !dict_get_set_ne by discriminate.
      * eapply IH; eauto. intros e' He'. apply Hnamed. now right.
Qed.

Lemma find_device_attendance_returned (cfg : backends) (device_name : string)
    (results : list pydict) (resp : pydict) :
  (forall d, In d results -> result_identified cfg d) ->
  find_device_attendance device_name results = Return (JDict resp) ->
  exists records name bc,
    In (name, bc) cfg /\
    dict_get "backend_name" resp = Some (JStr name) /\
    dict_get "place_location" resp = Some (JStr (location_or_unknown bc)) /\
    dict_get "data" resp = Some (JList records) /\
    records <> [] /\
    dict_get "total_records" resp = Some (JInt (Z.of_nat (length records))) /\
    forall e, In e records ->
      names_device device_name e /\
      has_tags (JStr name) (JStr (location_or_unknown bc)) e.
Proof.
  induction results as [|r rest IH]; intros Hid Hrun; simpl in Hrun; [discriminate|].
  assert (Hrest : forall d, In d rest -> result_identified cfg d).
  { intros d Hd. apply Hid. now right. }
  destruct (py_truthy (dict_get_default "success" JNull r) && dict_has "data" r);
    [|now apply IH].
  apply bind_inv in Hrun as (l & _ & Hrun).
  apply bind_inv in Hrun as (device_data & Hdata & Hrun).
  destruct device_data as [|x xs]; [now apply IH|].
  apply bind_inv in Hrun as (tagged & Htag & Hrun). clear IH. injection Hrun as <-.
  destruct (Hid r (or_introl eq_refl)) as (name & bc & Hin & Hbn & Hpl).
  assert (Eb : dict_get_default "_backend_name" (JStr "Unknown") r = JStr name).
  { unfold dict_get_default. now rewrite Hbn. }
  assert (Ep : dict_get_default "_place_location" (JStr "Unknown") r
               = JStr (location_or_unknown bc)).
  { unfold dict_get_default. now rewrite Hpl. }
  rewrite Eb, Ep in Htag |- *.
  destruct (tag_entities_keeps_device device_name _ _ _ _ Htag
              (records_of_device_named device_name l _ Hdata)) as [Hlen Hall].
  exists tagged, name, bc. repeat split; auto; try (apply Hall; assumption).
  intros ->. discriminate.
Qed.

(** X10.  When [/device/{device_name}/attendance] returns, its records come
    from one registered backend only: there is at least one, each names
    the requested device and carries that backend's tags, and
    [total_records] is their number. *)
Theorem device_attendance_single_place (cfg : backends) (net : string -> http_outcome)
    (device_name : string) (resp : pydict) :
  get_device_attendance cfg net device_name = Return (JDict resp) ->
  exists records name bc,
    In (name, bc) cfg /\
    dict_get "backend_name" resp = Some (JStr name) /\
    dict_get "place_location" resp = Some (JStr (location_or_unknown bc)) /\
    dict_get "data" resp = Some (JList records) /\
    records <> [] /\
    dict_get "total_records" resp = Some (JInt (Z.of_nat (length records))) /\
    forall e, In e records ->
      names_device device_name e /\
      has_tags (JStr name) (JStr (location_or_unknown bc)) e.
Proof.
  unfold get_device_attendance. apply find_device_attendance_returned.
  intros d. apply results_identified.
Qed.

Lemma device_attendance_single_place_witness :
  exists records name bc,
    In (name, bc) two_backends /\
    dict_get "backend_name" attendance_of_main = Some (JStr name) /\
    dict_get "place_location" attendance_of_main = Some (JStr (location_or_unknown bc)) /\
    dict_get "data" attendance_of_main = Some (JList records) /\
    records <> [] /\
    dict_get "total_records" attendance_of_main = Some (JInt (Z.of_nat (length records))) /\
    forall e, In e records ->
      names_device "Main" e /\
      has_tags (JStr name) (JStr (location_or_unknown bc)) e.
Proof.
  apply (device_attendance_single_place two_backends net_two_mains "Main").
  vm_compute. reflexivity.
Defined.

(** Two places have a device called [Main]: the records of the second
    place are not reported. *)
Example main_of_B_not_reported :
  dict_get "backend_name" attendance_of_main = Some (JStr "A") /\
  dict_get "total_records" attendance_of_main = Some (JInt 1).
Proof. split; reflexivity. Qed.

(** ** Health *)

Lemma dict_set_fresh (k : string) (v : json) (d : pydict) :
  ~ In k (map fst d) -> dict_set k v d = d ++ [(k, v)].
Proof.
  induction d as [|[k' v'] d IH]; simpl; [reflexivity|]. intros Hk.
  destruct (String.eqb k k') eqn:E.
  - apply String.eqb_eq in E. subst. tauto.
  - now rewrite IH by tauto.
Qed.

Lemma fold_dict_set_fresh {B} (f : string * B -> json) (l : list (string * B)) :
  forall acc, List.NoDup (map fst acc ++ map fst l) ->
    fold_left (fun acc b => dict_set (fst b) (f b) acc) l acc
    = acc ++ map (fun b => (fst b, f b)) l.
Proof.
  induction l as [|b l IH]; intros acc Hnd; simpl; [now rewrite app_nil_r|].
  simpl in Hnd. rewrite dict_set_fresh.
  - rewrite IH; [now rewrite <- app_assoc|].
    rewrite map_app, <- app_assoc. exact Hnd.
  - apply List.NoDup_remove_2 in Hnd. intros Hin. apply Hnd. apply in_or_app. now left.
Qed.

Lemma entry_healthy_reports (cfg : backends) (name : string) (bc : backend_config)
    (o : http_outcome) :
  backend_lookup name cfg = Some bc ->
  entry_healthy (health_entry cfg name (call_backend cfg name o)) = reports_healthy o.
Proof.
  intros Hl. unfold call_backend. rewrite Hl.
  destruct o as [status pt data| |msg]; try reflexivity.
  unfold reports_healthy. destruct (status =? 200) eqn:H200.
  - destruct data; try reflexivity. unfold health_entry, entry_healthy, dict_get_default.
    rewrite metadata_other by discriminate. simpl.
    destruct (py_eqb _ (JStr "healthy")); reflexivity.
  - transitivity false; [|destruct data; reflexivity].
    destruct (status =? 401); [reflexivity|].
    destruct (status =? 403); [reflexivity|].
    destruct (500 <=? status); reflexivity.
Qed.

Lemma healthy_count (cfg0 : backends) (net : string -> http_outcome) (bs : backends) :
  (forall name bc, In (name, bc) bs -> backend_lookup name cfg0 = Some bc) ->
  length (List.filter (fun kv : string * json => entry_healthy (snd kv))
            (map (fun b : string * backend_config =>
                    (fst b, health_entry cfg0 (fst b)
                              (call_backend cfg0 (fst b) (net (fst b))))) bs))
  = length (List.filter (fun b : string * backend_config =>
                           reports_healthy (net (fst b))) bs).
Proof.
  induction bs as [|[name bc] bs IH]; intros Hl; simpl; [reflexivity|].
  rewrite (entry_healthy_reports cfg0 name bc) by (apply Hl; now left).
  assert (IH' := IH (fun n b Hin => Hl n b (or_intror Hin))).
  destruct (reports_healthy (net name)); simpl; now rewrite IH'.
Qed.

Lemma filter_length_pos {B} (f : B -> bool) (l : list B) :
  (0 < length (List.filter f l))%nat <-> exists x, In x l /\ f x = true.
Proof.
  split.
  - intros H. destruct (List.filter f l) as [|x xs] eqn:E; [simpl in H; lia|].
    assert (Hin : In x (List.filter f l)) by (rewrite E; now left).
    apply filter_In in Hin. eauto.
  - intros (x & Hin & Hf).
    assert (Hx : In x (List.filter f l)) by (apply filter_In; auto).
    destruct (List.filter f l); [destruct Hx | simpl; lia].
Qed.

(** X11.  [/health] counts right: over a registry of distinct names,
    [healthy_places] is the number of backends that answer 200 with an
    object whose [status] is ["healthy"], [total_places] is the size of
    the registry, and the gateway calls itself healthy exactly when at
    least one backend does; every other answer of a backend (a failure of
    any class, a body that is not an object, another status) counts as
    unhealthy and never makes the handler raise. *)
Theorem health_check_counts (cfg : backends) (net : string -> http_outcome) :
  List.NoDup (map fst cfg) ->
  exists resp,
    health_check cfg net = JDict resp /\
    dict_get "total_places" resp = Some (JInt (Z.of_nat (length cfg))) /\
    dict_get "healthy_places" resp
    = Some (JInt (Z.of_nat (length (List.filter (fun b => reports_healthy (net (fst b)))
                                      cfg)))) /\
    (dict_get "status" resp = Some (JStr "healthy") <->
     exists name bc, In (name, bc) cfg /\ reports_healthy (net name) = true).
Proof.
  intros Hnd. unfold health_check.
  rewrite (fold_dict_set_fresh
             (fun b => health_entry cfg (fst b) (call_backend cfg (fst b) (net (fst b)))))
    by exact Hnd.
  cbn [app]. rewrite healthy_count by (intros; now apply backend_lookup_NoDup).
  eexists. split; [reflexivity|]. split; [reflexivity|]. split; [reflexivity|].
  cbn [dict_get String.eqb Ascii.eqb Bool.eqb].
  destruct (0 <? length (List.filter (fun b => reports_healthy (net (fst b))) cfg))%nat
    eqn:E.
  - split; [|reflexivity]. intros _. apply Nat.ltb_lt in E.
    apply filter_length_pos in E as ([name bc] & Hin & Hh). eauto.
  - split; [discriminate|]. intros (name & bc & Hin & Hh).
    apply Nat.ltb_ge in E.
    assert (0 < length (List.filter (fun b => reports_healthy (net (fst b))) cfg))%nat.
    { apply filter_length_pos. exists (name, bc). auto. }
    lia.
Qed.

Lemma health_check_counts_witness :
  exists resp,
    health_check three_backends net_health = JDict resp /\
    dict_get "total_places" resp = Some (JInt (Z.of_nat (length three_backends))) /\
    dict_get "healthy_places" resp
    = Some (JInt (Z.of_nat (length (List.filter
                                      (fun b => reports_healthy (net_health (fst b)))
                                      three_backends)))) /\
    (dict_get "status" resp = Some (JStr "healthy") <->
     exists name bc, In (name, bc) three_backends /\ reports_healthy (net_health name) = true).
Proof.
  apply (health_check_counts three_backends net_health).
  exact three_backends_NoDup.
Defined.

(** ** The registry read from the environment *)

Lemma backends_set_names (name : string) (bc : backend_config) (cfg : backends) :
  map fst (backends_set name bc cfg)
  = if in_dec string_dec name (map fst cfg) then map fst cfg else map fst cfg ++ [name].
Proof.
  induction cfg as [|[n b] cfg IH]; simpl; [reflexivity|].
  destruct (String.eqb name n) eqn:E.
  - apply String.eqb_eq in E. subst n. simpl.
    destruct (string_dec name name); [reflexivity | congruence].
  - apply String.eqb_neq in E. simpl. rewrite IH.
    destruct (string_dec n name); [congruence|].
    destruct (in_dec string_dec name (map fst cfg)); reflexivity.
Qed.

Lemma backends_set_In (name : string) (bc : backend_config) (cfg : backends) n b :
  In (n, b) (backends_set name bc cfg) -> In (n, b) cfg \/ (n, b) = (name, bc).
Proof.
  induction cfg as [|[n' b'] cfg IH]; simpl.
  - intros [H|[]]. now right.
  - destruct (String.eqb name n'); simpl.
    + intros [H|H]; auto.
    + intros [H|H]; auto. destruct (IH H); auto.
Qed.

Lemma backends_set_lookup (name : string) (bc : backend_config) (cfg : backends) n :
  backend_lookup n cfg <> None -> backend_lookup n (backends_set name bc cfg) <> None.
Proof.
  induction cfg as [|[n' b'] cfg IH]; simpl; [congruence|].
  destruct (String.eqb name n') eqn:E; simpl.
  - apply String.eqb_eq in E. subst n'. destruct (String.eqb n name); congruence.
  - destruct (String.eqb n n'); [congruence | exact IH].
Qed.

Lemma env_backend_entry (getenv : string -> option string) (i : nat) name bc :
  env_backend getenv i = Some (name, bc) ->
  name <> EmptyString /\ url bc <> EmptyString /\ timeout bc = Some 30 /\
  location bc <> None.
Proof.
  unfold env_backend.
  destruct (if (i =? 0)%nat then _ else _) as [[|c s]|]; try discriminate.
  destruct (if (i =? 0)%nat then _ else _) as [[|c' s']|]; try discriminate.
  intros [= <- <-]. simpl. repeat split; discriminate.
Qed.

(** The invariant of the loop of [_load_backend_configs]. *)
Lemma env_registry_loop (getenv : string -> option string) (idx : list nat) :
  forall acc,
    List.NoDup (map fst acc) ->
    (forall name bc, In (name, bc) acc ->
       name <> EmptyString /\ url bc <> EmptyString /\ timeout bc = Some 30 /\
       location bc <> None) ->
    let cfg := fold_left (fun acc i =>
                            match env_backend getenv i with
                            | Some (name, bc) => backends_set name bc acc
                            | None => acc
                            end) idx acc in
    List.NoDup (map fst cfg) /\
    (length cfg <= length acc + length idx)%nat /\
    (forall name bc, In (name, bc) cfg ->
       name <> EmptyString /\ url bc <> EmptyString /\ timeout bc = Some 30 /\
       location bc <> None) /\
    (forall n, backend_lookup n acc <> None -> backend_lookup n cfg <> None).
Proof.
  induction idx as [|i idx IH]; intros acc Hnd Hent; simpl.
  - repeat split; auto; try lia; apply (Hent name bc H).
  - destruct (env_backend getenv i) as [[name bc]|] eqn:E.
    + destruct (IH (backends_set name bc acc)) as (H1 & H2 & H3 & H4).
      * rewrite backends_set_names.
        destruct (in_dec string_dec name (map fst acc)) as [Hin|Hin]; [exact Hnd|].
        apply List.NoDup_app. repeat split; auto.
        -- repeat constructor. intros [].
        -- intros x Hx [<-|[]]. contradiction.
      * intros n b Hin. apply backends_set_In in Hin as [Hin|[= -> ->]]; [now apply Hent|].
        eapply env_backend_entry; eauto.
      * repeat split; auto; try (apply (H3 name0 bc0 H)).
        -- assert (length (backends_set name bc acc) <= S (length acc))%nat.
           { rewrite <- (length_map fst), backends_set_names, <- (length_map fst acc).
             destruct (in_dec string_dec name (map fst acc)); [lia|].
             rewrite length_app. simpl. lia. }
           lia.
        -- intros n Hn. apply H4. now apply backends_set_lookup.
    + destruct (IH acc Hnd Hent) as (H1 & H2 & H3 & H4).
      repeat split; auto; try lia; apply (H3 name bc H).
Qed.

(** X12.  The registry that [_load_backend_configs] builds from the environment
    is well formed whatever the variables hold: its names are distinct
    (so the fan-out results above apply to it), it has at most ten
    entries, and every entry has a non-empty name, a non-empty URL, a
    location and the timeout 30.  Unless [BACKEND_NAME] or [BACKEND_URL]
    is set to the empty string it holds the first backend, under the name
    [BACKEND_NAME] (default [Place_1_BackOffice]), and so is not empty. *)
Theorem env_registry_well_formed (getenv : string -> option string) :
  List.NoDup (map fst (load_backend_configs_env getenv)) /\
  (length (load_backend_configs_env getenv) <= 10)%nat /\
  (forall name bc, In (name, bc) (load_backend_configs_env getenv) ->
     name <> EmptyString /\ url bc <> EmptyString /\ timeout bc = Some 30 /\
     location bc <> None) /\
  (getenv "BACKEND_NAME"%string <> Some EmptyString ->
   getenv "BACKEND_URL"%string <> Some EmptyString ->
   backend_lookup (default "Place_1_BackOffice"%string (getenv "BACKEND_NAME"%string))
     (load_backend_configs_env getenv) <> None).
Proof.
  split; [|split; [|split]].
  - now destruct (env_registry_loop getenv (seq 0 10) []) as (H1 & _);
      [constructor | intros name bc [] |].
  - now destruct (env_registry_loop getenv (seq 0 10) []) as (_ & H2 & _);
      [constructor | intros name bc [] |].
  - now destruct (env_registry_loop getenv (seq 0 10) []) as (_ & _ & H3 & _);
      [constructor | intros name bc [] |].
  - intros Hname Hurl. unfold load_backend_configs_env.
    change (seq 0 10) with (0%nat :: seq 1 9). cbn [fold_left].
    set (name := default "Place_1_BackOffice"%string (getenv "BACKEND_NAME"%string)).
    assert (E : exists bc, env_backend getenv 0 = Some (name, bc)).
    { unfold env_backend. cbn [Nat.eqb]. fold name.
      assert (Hn : name <> EmptyString).
      { unfold name. destruct (getenv "BACKEND_NAME"%string); simpl; congruence. }
      destruct name as [|c s]; [congruence|].
      destruct (getenv "BACKEND_URL"%string) as [[|c' s']|]; simpl; [congruence| |]; eauto. }
    destruct E as [bc E]. rewrite E. cbn [backends_set].
    destruct (env_registry_loop getenv (seq 1 9) [(name, bc)]) as (_ & _ & _ & H).
    + repeat constructor. intros [].
    + intros n b [[= <- <-]|[]]. exact (env_backend_entry getenv 0 _ _ E).
    + apply H. simpl. now rewrite String.eqb_refl.
Qed.

Lemma env_registry_well_formed_witness :
  List.NoDup (map fst (load_backend_configs_env no_env)) /\
  backend_lookup "Place_1_BackOffice" (load_backend_configs_env no_env) <> None.
Proof.
  destruct (env_registry_well_formed no_env) as (H1 & _ & _ & H4).
  split; [exact H1|]. apply H4; vm_compute; discriminate.
Defined.

Example env_registry_default :
  load_backend_configs_env no_env
  = [("Place_1_BackOffice"%string,
      {| url := "http://localhost:8000"; location := Some "Default Location"%string;
         timeout := Some 30 |})].
Proof. reflexivity. Qed.

End GatewayExtra.

(** ** The security layer: limiter, middleware, credentials *)

Module SecurityExtra.
Import Py PyFacts Security SecurityProps.

Local Open Scope Q_scope.

(** *** One rate-limit check *)

Lemma admitted_in_window_kept (cfg : SecurityConfig) (client : string) (t : Q)
    (st : state) :
  admitted_in_window cfg client t st = length (kept_in_window cfg client t st).
Proof.
  unfold admitted_in_window, kept_in_window, stored.
  destruct (rate_limit_storage st !! client); reflexivity.
Qed.

(** What a check does when no block of the client stands. *)
Lemma check_rate_limit_unblocked (cfg : SecurityConfig) (client : string) (t : Q)
    (st : state) :
  blocked_at client t st = false ->
  let kept := kept_in_window cfg client t st in
  let r := check_rate_limit cfg client t st in
  others_untouched client st (snd r) /\
  if (rate_limit_requests cfg <=? Z.of_nat (length kept))%Z then
    fst r = false /\
    rate_limit_storage (snd r) !! client = Some kept /\
    blocked_ips_cache (snd r) !! client = Some (block_end t) /\
    security_log (snd r) = security_log st ++ [rate_limit_event client]
  else
    fst r = true /\
    rate_limit_storage (snd r) !! client = Some (kept ++ [t]) /\
    blocked_ips_cache (snd r) !! client = None /\
    security_log (snd r) = security_log st.
Proof.
  unfold blocked_at, kept_in_window, stored, check_rate_limit, others_untouched.
  intros Hb.
  destruct (blocked_ips_cache st !! client) as [u|] eqn:Hu.
  - rewrite Hb. cbn [set_blocked rate_limit_storage].
    destruct (rate_limit_storage st !! client) as [l|]; simpl;
      match goal with |- context [Z.leb ?a ?b] => destruct (Z.leb a b) end; simpl;
      (split; [intros other Hne;
               rewrite ?lookup_insert_ne, ?lookup_delete_ne by congruence; auto|]);
      rewrite ?lookup_insert_eq, ?lookup_insert_ne, ?lookup_delete_eq by congruence;
      auto.
  - destruct (rate_limit_storage st !! client) as [l|]; simpl;
      match goal with |- context [Z.leb ?a ?b] => destruct (Z.leb a b) end; simpl;
      (split; [intros other Hne;
               rewrite ?lookup_insert_ne, ?lookup_delete_ne by congruence; auto|]);
      rewrite ?lookup_insert_eq, ?lookup_insert_ne, ?lookup_delete_eq by congruence;
      auto.
Qed.

Lemma check_rate_limit_still_blocked (cfg : SecurityConfig) (client : string) (t : Q)
    (st : state) :
  blocked_at client t st = true -> check_rate_limit cfg client t st = (false, st).
Proof.
  unfold blocked_at, check_rate_limit.
  destruct (blocked_ips_cache st !! client) as [u|]; [|discriminate].
  now intros ->.
Qed.

(** X13.  A request is admitted exactly when no block of the client stands and
    fewer than [rate_limit_requests] of its admitted requests lie inside
    the window that ends now. *)
Theorem rate_limit_decision (cfg : SecurityConfig) (client : string) (t : Q)
    (st : state) :
  fst (check_rate_limit cfg client t st) = true <->
  blocked_at client t st = false /\
  (Z.of_nat (admitted_in_window cfg client t st) < rate_limit_requests cfg)%Z.
Proof.
  rewrite admitted_in_window_kept.
  destruct (blocked_at client t st) eqn:Hb.
  - rewrite (check_rate_limit_still_blocked cfg client t st Hb). simpl.
    split; [discriminate | intros [? _]; discriminate].
  - pose proof (check_rate_limit_unblocked cfg client t st Hb) as [_ H]. cbv zeta in H.
    destruct (Z.leb_spec (rate_limit_requests cfg)
                (Z.of_nat (length (kept_in_window cfg client t st)))) as [Hle|Hlt].
    + destruct H as (-> & _). split; [discriminate | intros [_ ?]; lia].
    + destruct H as (-> & _). split; auto.
Qed.

Lemma check_rate_limit_log (cfg : SecurityConfig) (client : string) (t : Q) (st : state) :
  (fst (check_rate_limit cfg client t st) = true ->
   security_log (snd (check_rate_limit cfg client t st)) = security_log st) /\
  (security_log (snd (check_rate_limit cfg client t st)) = security_log st \/
   security_log (snd (check_rate_limit cfg client t st))
   = security_log st ++ [rate_limit_event client]).
Proof.
  destruct (blocked_at client t st) eqn:Hb.
  - rewrite (check_rate_limit_still_blocked cfg client t st Hb). simpl. auto.
  - pose proof (check_rate_limit_unblocked cfg client t st Hb) as [_ H]. cbv zeta in H.
    destruct (_ <=? _)%Z; destruct H as (Hf & _ & _ & Hlog); rewrite Hf, Hlog.
    + split; [discriminate | now right].
    + split; auto.
Qed.

Lemma check_rate_limit_others (cfg : SecurityConfig) (client : string) (t : Q)
    (st : state) :
  others_untouched client st (snd (check_rate_limit cfg client t st)).
Proof.
  destruct (blocked_at client t st) eqn:Hb.
  - rewrite (check_rate_limit_still_blocked cfg client t st Hb). intros o _. auto.
  - apply (check_rate_limit_unblocked cfg client t st Hb).
Qed.

Lemma stored_lookup (client : string) (st : state) (l : list Q) :
  rate_limit_storage st !! client = Some l -> stored client st = l.
Proof. unfold stored. now intros ->. Qed.

Lemma kept_in_window_length (cfg : SecurityConfig) (client : string) (t : Q)
    (st : state) :
  (length (kept_in_window cfg client t st) <= length (stored client st))%nat.
Proof. unfold kept_in_window. apply List.filter_length_le. Qed.

Lemma check_rate_limit_bounded (cfg : SecurityConfig) (client : string) (t : Q)
    (st : state) :
  storage_bounded cfg st -> storage_bounded cfg (snd (check_rate_limit cfg client t st)).
Proof.
  intros Hst c.
  destruct (blocked_at client t st) eqn:Hb.
  - rewrite (check_rate_limit_still_blocked cfg client t st Hb). apply Hst.
  - pose proof (check_rate_limit_unblocked cfg client t st Hb) as [Hothers H].
    cbv zeta in H. destruct (decide (c = client)) as [->|Hne].
    + pose proof (kept_in_window_length cfg client t st) as Hk. specialize (Hst client).
      destruct (Z.leb_spec (rate_limit_requests cfg)
                  (Z.of_nat (length (kept_in_window cfg client t st)))) as [Hle|Hlt];
        destruct H as (_ & Hs & _); rewrite (stored_lookup _ _ _ Hs).
      * lia.
      * rewrite length_app. simpl. lia.
    + destruct (Hothers c Hne) as [Hs _]. unfold stored. rewrite Hs. apply (Hst c).
Qed.

(** X14.  The limiter never holds more than [rate_limit_requests] timestamps of
    one client: from a state that respects the bound (the empty one does),
    any sequence of checks, of any clients at any clock readings, leads to
    a state that respects it. *)
Theorem storage_stays_bounded (cfg : SecurityConfig) (reqs : list (string * Q))
    (st : state) :
  storage_bounded cfg st -> storage_bounded cfg (check_all cfg reqs st).
Proof.
  revert st. induction reqs as [|[client t] reqs IH]; intros st Hst; simpl; [exact Hst|].
  apply IH. now apply check_rate_limit_bounded.
Qed.

Lemma empty_state_bounded (cfg : SecurityConfig) : storage_bounded cfg empty_state.
Proof. intros c. unfold stored. simpl. rewrite lookup_empty. simpl. lia. Qed.

Lemma storage_stays_bounded_witness :
  storage_bounded strict_config
    (check_all strict_config
       [("10.0.0.9"%string, 0); ("10.0.0.7"%string, 1); ("10.0.0.9"%string, 2)]
       empty_state).
Proof.
  apply (storage_stays_bounded strict_config). intros c. unfold stored. simpl.
  rewrite lookup_empty. simpl. lia.
Defined.

Lemma check_rate_limit_keeps_entry (cfg : SecurityConfig) (client c : string) (t : Q)
    (st : state) :
  is_Some (rate_limit_storage st !! c) ->
  is_Some (rate_limit_storage (snd (check_rate_limit cfg client t st)) !! c).
Proof.
  intros Hc. destruct (blocked_at client t st) eqn:Hb.
  - now rewrite (check_rate_limit_still_blocked cfg client t st Hb).
  - pose proof (check_rate_limit_unblocked cfg client t st Hb) as [Hothers H].
    cbv zeta in H. destruct (decide (c = client)) as [->|Hne].
    + destruct (_ <=? _)%Z; destruct H as (_ & -> & _); eauto.
    + destruct (Hothers c Hne) as [-> _]. exact Hc.
Qed.

(** X15.  The limiter never forgets a client: an address that has a record in
    [rate_limit_storage] keeps one through every later check, so the
    table only grows with the number of distinct addresses seen. *)
Theorem storage_never_evicted (cfg : SecurityConfig) (reqs : list (string * Q))
    (st : state) (c : string) :
  is_Some (rate_limit_storage st !! c) ->
  is_Some (rate_limit_storage (check_all cfg reqs st) !! c).
Proof.
  revert st. induction reqs as [|[client t] reqs IH]; intros st Hc; simpl; [exact Hc|].
  apply IH. now apply check_rate_limit_keeps_entry.
Qed.

Lemma storage_never_evicted_witness :
  is_Some (rate_limit_storage
             (check_all strict_config [("10.0.0.9"%string, 1000); ("10.0.0.7"%string, 5000)]
                blocked_state) !! "10.0.0.9"%string).
Proof.
  apply (storage_never_evicted strict_config). vm_compute. eauto.
Defined.

(** X16.  A block ends by itself: once [blocked_until] is reached and the
    client's recorded requests have left the window (none lies after
    [window_start], the float [t - W] that the check computes), the next
    request of the client is admitted, the block is removed and the request
    is the only one on record. *)
Theorem block_expires (cfg : SecurityConfig) (client : string) (t b : Q) (st : state) :
  blocked_ips_cache st !! client = Some b ->
  b <= t ->
  (forall u, In u (stored client st) -> u <= window_start cfg t) ->
  (0 < rate_limit_requests cfg)%Z ->
  fst (check_rate_limit cfg client t st) = true /\
  blocked_ips_cache (snd (check_rate_limit cfg client t st)) !! client = None /\
  stored client (snd (check_rate_limit cfg client t st)) = [t].
Proof.
  intros Hb Hbt Hold Hn.
  assert (Hnb : blocked_at client t st = false).
  { unfold blocked_at. rewrite Hb. now apply Qltb_ge. }
  assert (Hk : kept_in_window cfg client t st = []).
  { unfold kept_in_window. induction (stored client st) as [|u l IH]; [reflexivity|].
    simpl. rewrite (proj2 (Qltb_ge _ u)) by (apply Hold; now left).
    apply IH. intros x Hx. apply Hold. now right. }
  pose proof (check_rate_limit_unblocked cfg client t st Hnb) as [_ H]. cbv zeta in H.
  rewrite Hk in H. cbn [length app] in H. change (Z.of_nat 0) with 0%Z in H.
  rewrite (proj2 (Z.leb_gt (rate_limit_requests cfg) 0)) in H by exact Hn.
  destruct H as (Hf & Hs & Hbl & _). repeat split; auto. now apply stored_lookup.
Qed.

Lemma block_expires_witness :
  fst (check_rate_limit strict_config "10.0.0.9" 301 blocked_state) = true /\
  blocked_ips_cache (snd (check_rate_limit strict_config "10.0.0.9" 301 blocked_state))
    !! "10.0.0.9"%string = None /\
  stored "10.0.0.9" (snd (check_rate_limit strict_config "10.0.0.9" 301 blocked_state))
  = [301].
Proof.
  apply (block_expires strict_config "10.0.0.9" 301 301 blocked_state).
  - vm_compute. reflexivity.
  - vm_compute. discriminate.
  - intros u Hu. vm_compute in Hu. destruct Hu as [<-|[]]. vm_compute. discriminate.
  - reflexivity.
Defined.

Lemma fresh_client_burst_witness :
  blocked_at "10.0.0.9" 1 (run_checks strict_config "10.0.0.9" [1] empty_state) = false /\
  (rate_limit_requests strict_config
   <= Z.of_nat (admitted_in_window strict_config "10.0.0.9" 1%Q
                  (run_checks strict_config "10.0.0.9" [1%Q] empty_state)))%Z.
Proof.
  apply (fresh_client_burst strict_config "10.0.0.9" 1 [1] empty_state).
  - vm_compute. reflexivity.
  - vm_compute. reflexivity.
  - intros u [<-|[]]. vm_compute. reflexivity.
  - intros u v [<-|[]] [<-|[]]. vm_compute. reflexivity.
  - reflexivity.
Defined.

(** *** The middleware, case by case *)

Lemma content_validation_state (req : Request) (client : string) (st : state) :
  snd (content_validation req client st) = st \/
  snd (content_validation req client st)
  = log_security_event "MALICIOUS_REQUEST" "Blocked malicious request pattern" client st.
Proof.
  unfold content_validation.
  destruct (existsb _ mutating_methods); [|now left].
  destruct (body req) as [b|]; [|now left].
  destruct (_ && _); [now right | now left].
Qed.

(** The two ways in which [await call_next(request)] ends. *)
Lemma respond_cases (secure : Response -> Response) (h : handled) (st : state) :
  (exists resp0, reply h = Replied resp0 /\
                 respond secure h st = (Return (secure resp0), append_log (logged h) st)) \/
  (exists what, reply h = Failed what /\
                respond secure h st = (Raise (Unhandled what), append_log (logged h) st)).
Proof. unfold respond. destruct (reply h); [left | right]; eauto. Qed.

Lemma respond_log (secure : Response -> Response) (h : handled) (st : state) :
  security_log (snd (respond secure h st)) = security_log st ++ logged h /\
  reached_handler (fst (respond secure h st)) = true.
Proof. unfold respond. destruct (reply h); split; reflexivity. Qed.

Section Cases.
Context {lib : IpAddressLib}.
Variables (cfg : SecurityConfig) (call_next : Request -> handled).
Variables (req : Request) (t : Q) (st : state).

Lemma middleware_cases :
  (existsb (String.eqb (path req)) exempt_paths = true /\
   security_middleware cfg call_next req t st
   = respond add_security_headers (call_next req) st) \/
  (existsb (String.eqb (path req)) exempt_paths = false /\
   allowed_ips cfg <> [] /\ is_ip_allowed cfg (get_client_ip req) = false /\
   security_middleware cfg call_next req t st
   = (Raise access_denied,
      log_security_event "IP_BLOCKED" "IP not in allowlist" (get_client_ip req) st)) \/
  (reaches_rate_limiter cfg req /\
   fst (check_rate_limit cfg (get_client_ip req) t st) = false /\
   security_middleware cfg call_next req t st
   = (Raise too_many_requests, snd (check_rate_limit cfg (get_client_ip req) t st))) \/
  (reaches_rate_limiter cfg req /\
   fst (check_rate_limit cfg (get_client_ip req) t st) = true /\
   (exists v, header_get "content-length" req = Some v /\ v <> EmptyString /\
              py_int v = None) /\
   security_middleware cfg call_next req t st
   = (Raise ValueError, snd (check_rate_limit cfg (get_client_ip req) t st))) \/
  (reaches_rate_limiter cfg req /\
   fst (check_rate_limit cfg (get_client_ip req) t st) = true /\
   (exists v n, header_get "content-length" req = Some v /\ py_int v = Some n /\
                (max_request_size cfg < n)%Z /\
                security_middleware cfg call_next req t st
                = (Raise payload_too_large,
                   log_security_event "REQUEST_TOO_LARGE" ("Request size: " +:+ v)
                     (get_client_ip req)
                     (snd (check_rate_limit cfg (get_client_ip req) t st))))) \/
  (reaches_rate_limiter cfg req /\
   fst (check_rate_limit cfg (get_client_ip req) t st) = true /\
   security_middleware cfg call_next req t st
   = respond (secured_response cfg) (call_next req)
       (snd (content_validation req (get_client_ip req)
               (snd (check_rate_limit cfg (get_client_ip req) t st))))).
Proof.
  unfold security_middleware, reaches_rate_limiter.
  destruct (existsb _ exempt_paths) eqn:Hpath; [now left|]. right.
  destruct (allowed_ips cfg) as [|a l] eqn:Hal.
  - right. cbn [andb].
    destruct (check_rate_limit cfg (get_client_ip req) t st) as [[|] st1]; cbn [negb fst snd].
    2:{ left. auto. }
    right.
    pose proof (content_validation_returns req (get_client_ip req) st1) as Hc.
    destruct (content_validation req (get_client_ip req) st1) as [res st2].
    simpl in Hc. subst res. cbn [snd].
    destruct (header_get "content-length" req) as [[|c s]|] eqn:Hh.
    + do 2 right. unfold secured_response. auto.
    + destruct (py_int (String c s)) as [n|] eqn:Hn.
      * destruct (Z.ltb_spec (max_request_size cfg) n).
        -- right. left. split; [auto|]. split; [reflexivity|].
           exists (String c s), n. auto.
        -- do 2 right. unfold secured_response. auto.
      * left. split; [auto|]. split; [reflexivity|]. split; [|reflexivity].
        exists (String c s). repeat split; auto; discriminate.
    + do 2 right. unfold secured_response. auto.
  - rewrite <- Hal. cbn [andb].
    replace (match allowed_ips cfg with [] => false | _ => true end) with true
      by (now rewrite Hal).
    cbn [andb].
    destruct (is_ip_allowed cfg (get_client_ip req)) eqn:Hip; cbn [negb].
    2:{ left. repeat split; auto. rewrite Hal. discriminate. }
    right.
    destruct (check_rate_limit cfg (get_client_ip req) t st) as [[|] st1]; cbn [negb fst snd].
    2:{ left. auto. }
    right.
    pose proof (content_validation_returns req (get_client_ip req) st1) as Hc.
    destruct (content_validation req (get_client_ip req) st1) as [res st2].
    simpl in Hc. subst res. cbn [snd].
    destruct (header_get "content-length" req) as [[|c s]|] eqn:Hh.
    + do 2 right. unfold secured_response. auto.
    + destruct (py_int (String c s)) as [n|] eqn:Hn.
      * destruct (Z.ltb_spec (max_request_size cfg) n).
        -- right. left. split; [auto|]. split; [reflexivity|].
           exists (String c s), n. auto.
        -- do 2 right. unfold secured_response. auto.
      * left. split; [auto|]. split; [reflexivity|]. split; [|reflexivity].
        exists (String c s). repeat split; auto; discriminate.
    + do 2 right. unfold secured_response. auto.
Qed.

End Cases.

Lemma check_rate_limit_admitted (cfg : SecurityConfig) (client : string) (t : Q)
    (st : state) :
  fst (check_rate_limit cfg client t st) = true ->
  rate_limit_storage (snd (check_rate_limit cfg client t st)) !! client
  = Some (kept_in_window cfg client t st ++ [t]) /\
  blocked_ips_cache (snd (check_rate_limit cfg client t st)) !! client = None /\
  security_log (snd (check_rate_limit cfg client t st)) = security_log st.
Proof.
  intros Hf. destruct (blocked_at client t st) eqn:Hb.
  - rewrite (check_rate_limit_still_blocked cfg client t st Hb) in Hf. discriminate.
  - pose proof (check_rate_limit_unblocked cfg client t st Hb) as [_ H]. cbv zeta in H.
    destruct (_ <=? _)%Z; destruct H as (Hf' & H); [congruence | exact H].
Qed.

Lemma content_validation_limiter (req : Request) (client : string) (st : state) :
  rate_limit_storage (snd (content_validation req client st)) = rate_limit_storage st /\
  blocked_ips_cache (snd (content_validation req client st)) = blocked_ips_cache st.
Proof.
  destruct (content_validation_state req client st) as [-> | ->]; split; reflexivity.
Qed.

(** *** What the middleware writes to the log *)

(** X18.  The security log is append-only.  To the log one request adds at
    most one entry of the middleware, then, when the handler ran, the
    entries that the handler wrote, in their order, and nothing else.  The
    entry of the middleware names the address that [get_client_ip] derived
    from the request, its type is one of [IP_BLOCKED],
    [RATE_LIMIT_EXCEEDED], [REQUEST_TOO_LARGE] and [MALICIOUS_REQUEST], and
    its severity is HIGH for [IP_BLOCKED] and [MALICIOUS_REQUEST] and
    MEDIUM otherwise. *)
Theorem middleware_log_discipline {lib : IpAddressLib} (cfg : SecurityConfig)
    (call_next : Request -> handled) (req : Request) (t : Q) (st : state) :
  exists own,
    security_log (snd (security_middleware cfg call_next req t st))
    = security_log st ++ own
      ++ (if reached_handler (fst (security_middleware cfg call_next req t st))
          then logged (call_next req) else []) /\
    (length own <= 1)%nat /\
    forall ev, In ev own ->
      event_client_ip ev = get_client_ip req /\
      In (event_type ev) middleware_events /\
      severity ev = severity_of (event_type ev).
Proof.
  pose proof (check_rate_limit_log cfg (get_client_ip req) t st) as [Hadm Hlog].
  destruct (middleware_cases cfg call_next req t st)
    as [(_ & ->)|[(_ & _ & _ & ->)|[(_ & _ & ->)|[(_ & Hf & _ & ->)|
        [(_ & Hf & v & n & _ & _ & _ & ->)|(_ & Hf & ->)]]]]];
    rewrite ?(proj1 (respond_log _ _ _)), ?(proj2 (respond_log _ _ _));
    cbn [fst snd reached_handler access_denied too_many_requests payload_too_large];
    rewrite ?app_nil_r.
  - exists []. repeat split; simpl; auto; contradiction.
  - eexists [_]. split; [reflexivity|]. split; [simpl; lia|].
    intros ev [<-|[]]. simpl. repeat split; auto 8.
  - destruct Hlog as [-> | ->].
    + exists []. rewrite app_nil_r. repeat split; simpl; auto; contradiction.
    + eexists [_]. split; [reflexivity|]. split; [simpl; lia|].
      intros ev [<-|[]]. simpl. repeat split; auto 8.
  - rewrite (Hadm Hf). exists []. rewrite app_nil_r.
    repeat split; simpl; auto; contradiction.
  - simpl. rewrite (Hadm Hf). eexists [_]. split; [reflexivity|]. split; [simpl; lia|].
    intros ev [<-|[]]. simpl. repeat split; auto 8.
  - destruct (content_validation_state req (get_client_ip req)
                (snd (check_rate_limit cfg (get_client_ip req) t st))) as [-> | ->].
    + rewrite (Hadm Hf). exists []. repeat split; simpl; auto; contradiction.
    + simpl. rewrite (Hadm Hf), <- app_assoc. eexists [_]. split; [reflexivity|].
      split; [simpl; lia|]. intros ev [<-|[]]. simpl. repeat split; auto 8.
Qed.

(** The entries of a handler follow the entry of the middleware: a [POST]
    with an unsafe body, served by a handler one of whose backends times
    out, leaves [MALICIOUS_REQUEST] under the client's address and then
    [BACKEND_TIMEOUT] under the address ["gateway"]. *)
Lemma handler_entries_follow :
  map (fun ev => (event_type ev, event_client_ip ev))
    (security_log
       (snd (security_middleware (lib := no_parse_iplib) strict_config call_next_timeout
               post_traversal 0 empty_state)))
  = [("MALICIOUS_REQUEST", "10.0.0.9"); ("BACKEND_TIMEOUT", "gateway")]%string.
Proof. vm_compute. reflexivity. Qed.

(** *** The rejections of the middleware *)

(** X19.  What the middleware raises reaches the client as status 500, and it
    is one of four exceptions of the middleware, each for one cause, or the
    exception of the handler, which nothing in the middleware catches: the
    [HTTPException] of status 403 when the allow-list refuses the address,
    the one of status 429 when the limiter refuses the request,
    [ValueError] when [int] refuses [Content-Length] (no integer numeral,
    or one of more than 4300 digits), the [HTTPException] of status 413
    when [Content-Length] exceeds [max_request_size], and whatever
    [call_next] raises. *)
Theorem middleware_rejections {lib : IpAddressLib} (cfg : SecurityConfig)
    (call_next : Request -> handled) (req : Request) (t : Q) (st : state) (e : exn) :
  fst (security_middleware cfg call_next req t st) = Raise e ->
  client_status (fst (security_middleware cfg call_next req t st)) = 500%Z /\
  ((e = access_denied /\ is_ip_allowed cfg (get_client_ip req) = false) \/
   (e = too_many_requests /\
    fst (check_rate_limit cfg (get_client_ip req) t st) = false) \/
   (e = ValueError /\
    exists v, header_get "content-length" req = Some v /\ py_int v = None) \/
   (e = payload_too_large /\
    exists v n, header_get "content-length" req = Some v /\ py_int v = Some n /\
                (max_request_size cfg < n)%Z) \/
   (exists what, e = Unhandled what /\ reply (call_next req) = Failed what)).
Proof.
  intros He. split; [now rewrite He|]. revert He.
  destruct (middleware_cases cfg call_next req t st)
    as [(_ & ->)|[(_ & _ & Hip & ->)|[(_ & Hf & ->)|[(_ & _ & (v & Hv & _ & Hn) & ->)|
        [(_ & _ & v & n & Hv & Hn & Hlt & ->)|(_ & _ & ->)]]]]]; cbn [fst].
  - destruct (respond_cases add_security_headers (call_next req) st)
      as [(resp0 & _ & ->)|(what & Hw & ->)]; cbn [fst]; [discriminate|].
    intros [= <-]. do 4 right. eauto.
  - intros [= <-]. left. auto.
  - intros [= <-]. right. left. auto.
  - intros [= <-]. right. right. left. eauto.
  - intros [= <-]. right. right. right. left. eauto 6.
  - destruct (respond_cases (secured_response cfg) (call_next req)
                (snd (content_validation req (get_client_ip req)
                        (snd (check_rate_limit cfg (get_client_ip req) t st)))))
      as [(resp0 & _ & ->)|(what & Hw & ->)]; cbn [fst]; [discriminate|].
    intros [= <-]. do 4 right. eauto.
Qed.

Lemma middleware_rejections_witness :
  client_status
    (fst (security_middleware (lib := no_parse_iplib) strict_config call_next_ok
            oversized_post 0 empty_state)) = 500%Z /\
  ((payload_too_large = access_denied /\
    is_ip_allowed (lib := no_parse_iplib) strict_config (get_client_ip oversized_post)
    = false) \/
   (payload_too_large = too_many_requests /\
    fst (check_rate_limit strict_config (get_client_ip oversized_post) 0 empty_state)
    = false) \/
   (payload_too_large = ValueError /\
    exists v, header_get "content-length" oversized_post = Some v /\ py_int v = None) \/
   (payload_too_large = payload_too_large /\
    exists v n, header_get "content-length" oversized_post = Some v /\
                py_int v = Some n /\ (max_request_size strict_config < n)%Z) \/
   (exists what, payload_too_large = Unhandled what /\
                 reply (call_next_ok oversized_post) = Failed what)).
Proof.
  apply (middleware_rejections (lib := no_parse_iplib) strict_config call_next_ok
           oversized_post 0 empty_state payload_too_large).
  vm_compute. reflexivity.
Defined.

(** [int] refuses a numeral of 4301 digits and accepts one of 4300, so
    that a [Content-Length] of 4301 digits ends in [ValueError], not in
    the 413 of an oversized request; and the exception of a failing
    handler passes through the middleware. *)
Lemma long_content_length_is_value_error :
  py_int (long_numeral 4301) = None /\
  (exists n, py_int (long_numeral 4300) = Some n /\
             (max_request_size strict_config < n)%Z) /\
  fst (security_middleware (lib := no_parse_iplib) strict_config call_next_ok
         {| path := "/place/A/devices"; method := "POST";
            headers := [("content-length"%string, long_numeral 4301)];
            client_host := Some "10.0.0.9"%string; body := Some "{}"%string |}
         0 empty_state)
  = Raise ValueError /\
  fst (security_middleware (lib := no_parse_iplib) strict_config call_next_failing
         get_devices 0 empty_state)
  = Raise (Unhandled "TypeError").
Proof.
  split; [vm_compute; reflexivity|]. split; [|split; vm_compute; reflexivity].
  destruct (py_int (long_numeral 4300)) as [n|] eqn:E; [|vm_compute in E; discriminate].
  exists n. split; [reflexivity|].
  assert (Hn : (max_request_size strict_config <? n)%Z = true).
  { assert (H : match py_int (long_numeral 4300) with
                | Some n => (max_request_size strict_config <? n)%Z
                | None => false
                end = true) by (vm_compute; reflexivity).
    now rewrite E in H. }
  now apply Z.ltb_lt.
Qed.

(** *** Order of the checks *)

(** X20.  The size check comes after the limiter: a request that is rejected
    for its [Content-Length] (413, or [ValueError] for a numeral that
    [int] refuses) was admitted by the limiter and stays on the client's
    record, so it counts against the client's rate. *)
Theorem size_rejection_is_counted {lib : IpAddressLib} (cfg : SecurityConfig)
    (call_next : Request -> handled) (req : Request) (t : Q) (st : state) (e : exn) :
  fst (security_middleware cfg call_next req t st) = Raise e ->
  e = payload_too_large \/ e = ValueError ->
  fst (check_rate_limit cfg (get_client_ip req) t st) = true /\
  rate_limit_storage (snd (security_middleware cfg call_next req t st))
    !! get_client_ip req
  = Some (kept_in_window cfg (get_client_ip req) t st ++ [t]).
Proof.
  destruct (middleware_cases cfg call_next req t st)
    as [(_ & ->)|[(_ & _ & Hip & ->)|[(_ & Hf & ->)|[(_ & Hf & _ & ->)|
        [(_ & Hf & v & n & _ & _ & _ & ->)|(_ & _ & ->)]]]]];
    try match goal with
      | |- context [respond ?secure ?h ?s] =>
          destruct (respond_cases secure h s) as [(? & _ & ->)|(? & _ & ->)]
      end;
    cbn [fst snd];
    try discriminate; intros [= <-] [He|He]; try discriminate He;
    split; try exact Hf; simpl; apply (check_rate_limit_admitted _ _ _ _ Hf).
Qed.

Lemma size_rejection_is_counted_witness :
  fst (check_rate_limit strict_config (get_client_ip garbled_length_post) 7 empty_state)
  = true /\
  rate_limit_storage
    (snd (security_middleware (lib := no_parse_iplib) strict_config call_next_ok
            garbled_length_post 7 empty_state))
    !! get_client_ip garbled_length_post
  = Some (kept_in_window strict_config (get_client_ip garbled_length_post) 7 empty_state
          ++ [7]).
Proof.
  apply (size_rejection_is_counted (lib := no_parse_iplib) strict_config call_next_ok
           garbled_length_post 7 empty_state ValueError).
  - vm_compute. reflexivity.
  - right. reflexivity.
Defined.

(** X21.  The allow-list comes before the limiter: a request on a protected
    path from an address that the allow-list refuses makes the middleware
    raise the [HTTPException] of status 403, which the client receives as
    a 500; the refusal is logged as [IP_BLOCKED] with severity HIGH, and it
    leaves the limiter as it was: the request is neither counted nor able
    to block anyone. *)
Theorem refused_address_not_counted {lib : IpAddressLib} (cfg : SecurityConfig)
    (call_next : Request -> handled) (req : Request) (t : Q) (st : state) :
  existsb (String.eqb (path req)) exempt_paths = false ->
  allowed_ips cfg <> [] ->
  is_ip_allowed cfg (get_client_ip req) = false ->
  exists st',
    security_middleware cfg call_next req t st = (Raise access_denied, st') /\
    client_status (fst (security_middleware cfg call_next req t st)) = 500%Z /\
    rate_limit_storage st' = rate_limit_storage st /\
    blocked_ips_cache st' = blocked_ips_cache st /\
    security_log st' = security_log st ++ [ip_blocked_event (get_client_ip req)].
Proof.
  intros Hpath Hal Hip.
  destruct (middleware_cases cfg call_next req t st)
    as [(Hp & _)|[(_ & _ & _ & ->)|[([_ Hr] & _)|[([_ Hr] & _)|
        [([_ Hr] & _)|([_ Hr] & _)]]]]];
    try congruence; try (destruct Hr; congruence).
  eexists. split; [reflexivity|]. repeat split.
Qed.

Lemma refused_address_not_counted_witness :
  exists st',
    security_middleware (lib := no_parse_iplib) local_only_config call_next_ok
      (forwarded "203.0.113.7") 0 empty_state
    = (Raise access_denied, st') /\
    client_status
      (fst (security_middleware (lib := no_parse_iplib) local_only_config call_next_ok
              (forwarded "203.0.113.7") 0 empty_state)) = 500%Z /\
    rate_limit_storage st' = rate_limit_storage empty_state /\
    blocked_ips_cache st' = blocked_ips_cache empty_state /\
    security_log st'
    = security_log empty_state
      ++ [ip_blocked_event (get_client_ip (forwarded "203.0.113.7"))].
Proof.
  apply (refused_address_not_counted (lib := no_parse_iplib) local_only_config
           call_next_ok (forwarded "203.0.113.7") 0 empty_state).
  - reflexivity.
  - vm_compute. discriminate.
  - vm_compute. reflexivity.
Defined.

(** *** Clients do not interfere *)

(** X22.  One request touches the limiter's records of one address only, the
    one that [get_client_ip] derives from it: the timestamps and the block
    of every other address are the same after the middleware has run,
    whatever the outcome. *)
Theorem middleware_isolation {lib : IpAddressLib} (cfg : SecurityConfig)
    (call_next : Request -> handled) (req : Request) (t : Q) (st : state)
    (other : string) :
  other <> get_client_ip req ->
  rate_limit_storage (snd (security_middleware cfg call_next req t st)) !! other
  = rate_limit_storage st !! other /\
  blocked_ips_cache (snd (security_middleware cfg call_next req t st)) !! other
  = blocked_ips_cache st !! other.
Proof.
  intros Hne.
  pose proof (check_rate_limit_others cfg (get_client_ip req) t st other Hne) as Ho.
  destruct (middleware_cases cfg call_next req t st)
    as [(_ & ->)|[(_ & _ & _ & ->)|[(_ & _ & ->)|[(_ & _ & _ & ->)|
        [(_ & _ & v & n & _ & _ & _ & ->)|(_ & _ & ->)]]]]];
    rewrite ?(proj1 (respond_limiter _ _ _)), ?(proj2 (respond_limiter _ _ _));
    cbn [snd]; auto.
  destruct (content_validation_limiter req (get_client_ip req)
              (snd (check_rate_limit cfg (get_client_ip req) t st))) as [-> ->].
  exact Ho.
Qed.

Lemma middleware_isolation_witness :
  rate_limit_storage
    (snd (security_middleware (lib := no_parse_iplib) strict_config call_next_ok
            (forwarded "198.51.100.4") 2 blocked_state)) !! "10.0.0.9"%string
  = rate_limit_storage blocked_state !! "10.0.0.9"%string /\
  blocked_ips_cache
    (snd (security_middleware (lib := no_parse_iplib) strict_config call_next_ok
            (forwarded "198.51.100.4") 2 blocked_state)) !! "10.0.0.9"%string
  = blocked_ips_cache blocked_state !! "10.0.0.9"%string.
Proof.
  apply (middleware_isolation (lib := no_parse_iplib) strict_config call_next_ok
           (forwarded "198.51.100.4") 2 blocked_state "10.0.0.9").
  vm_compute. discriminate.
Defined.

(** *** Security headers *)

Lemma assoc_set_eq (k v : string) (l : list (string * string)) :
  assoc k (assoc_set k v l) = Some v.
Proof.
  induction l as [|[k' v'] l IH]; simpl.
  - now rewrite String.eqb_refl.
  - destruct (String.eqb k k') eqn:E; simpl; rewrite ?String.eqb_refl, ?E; auto.
Qed.

Lemma assoc_set_ne (k k' v : string) (l : list (string * string)) :
  k <> k' -> assoc k (assoc_set k' v l) = assoc k l.
Proof.
  intros Hne. induction l as [|[k0 v0] l IH]; simpl.
  - now rewrite (proj2 (String.eqb_neq k k')).
  - destruct (String.eqb k' k0) eqn:E; simpl.
    + apply String.eqb_eq in E. subst k0.
      now rewrite (proj2 (String.eqb_neq k k')).
    + now rewrite IH.
Qed.

Lemma add_security_headers_set (resp : Response) (h v : string) :
  In (h, v) security_headers ->
  assoc (lower h) (response_headers (add_security_headers resp)) = Some v.
Proof.
  unfold add_security_headers, security_headers.
  cbn [fold_left set_header response_headers fst snd].
  intros Hin. cbn [In] in Hin.
  repeat (destruct Hin as [[= <- <-]|Hin];
          [rewrite ?assoc_set_ne by (vm_compute; congruence); apply assoc_set_eq|]).
  destruct Hin.
Qed.

Lemma add_security_headers_status (resp : Response) :
  status_code (add_security_headers resp) = status_code resp.
Proof. reflexivity. Qed.

Lemma secured_response_set (cfg : SecurityConfig) (resp : Response) (h v : string) :
  In (h, v) security_headers ->
  assoc (lower h) (response_headers (secured_response cfg resp)) = Some v.
Proof.
  intros Hin. unfold secured_response. destruct (ngrok_enabled cfg).
  - cbn [set_header response_headers]. rewrite assoc_set_ne.
    + now apply add_security_headers_set.
    + cbn [In security_headers] in Hin.
      repeat (destruct Hin as [[= <- <-]|Hin]; [vm_compute; congruence|]).
      destruct Hin.
  - now apply add_security_headers_set.
Qed.

(** X23.  Every response that leaves the middleware, on an exempt path or not,
    is the response of the handler: it carries the eight fixed security
    headers with their configured values, whatever headers the handler had
    set under these names, and keeps the status code of the handler. *)
Theorem security_headers_always_set {lib : IpAddressLib} (cfg : SecurityConfig)
    (call_next : Request -> handled) (req : Request) (t : Q) (st : state)
    (resp : Response) :
  fst (security_middleware cfg call_next req t st) = Return resp ->
  (exists resp0, reply (call_next req) = Replied resp0 /\
                 status_code resp = status_code resp0) /\
  forall h v, In (h, v) security_headers ->
    assoc (lower h) (response_headers resp) = Some v.
Proof.
  destruct (middleware_cases cfg call_next req t st)
    as [(_ & ->)|[(_ & _ & _ & ->)|[(_ & _ & ->)|[(_ & _ & _ & ->)|
        [(_ & _ & v & n & _ & _ & _ & ->)|(_ & _ & ->)]]]]];
    try match goal with
      | |- context [respond ?secure ?h ?s] =>
          destruct (respond_cases secure h s) as [(resp0 & Hr & ->)|(what & Hr & ->)]
      end;
    cbn [fst]; try discriminate; intros [= <-].
  - split; [exists resp0; split; [exact Hr | reflexivity]|].
    intros h v. apply add_security_headers_set.
  - split.
    + exists resp0. split; [exact Hr|].
      unfold secured_response. destruct (ngrok_enabled cfg); reflexivity.
    + intros h v. apply secured_response_set.
Qed.

Lemma security_headers_always_set_witness :
  (exists resp0, reply (call_next_ok (forwarded "10.0.0.9")) = Replied resp0 /\
                 status_code (secured_response local_only_config ok_response)
                 = status_code resp0) /\
  forall h v, In (h, v) security_headers ->
    assoc (lower h) (response_headers (secured_response local_only_config ok_response))
    = Some v.
Proof.
  apply (security_headers_always_set (lib := no_parse_iplib) local_only_config
           call_next_ok (forwarded "10.0.0.9") 0 empty_state).
  vm_compute. reflexivity.
Defined.

(** *** The address of the client *)

Lemma get_client_ip_forwarded (req : Request) (v ip : string) :
  header_get "X-Forwarded-For" req = Some v ->
  strip (hd EmptyString (split_comma v)) = ip ->
  ip <> EmptyString -> ip <> "unknown"%string ->
  get_client_ip req = ip.
Proof.
  intros Hh Hip Hne Hnu. unfold get_client_ip, headers_to_check. rewrite Hh.
  destruct v as [|c s]; [vm_compute in Hip; congruence|].
  rewrite Hip.
  rewrite (proj2 (String.eqb_neq ip EmptyString)) by exact Hne.
  rewrite (proj2 (String.eqb_neq ip "unknown")) by exact Hnu.
  reflexivity.
Qed.

(** X24.  The limiter is keyed by what the request says about itself: when
    [X-Forwarded-For] is present, its first entry (stripped, if it is
    neither empty nor ["unknown"]) is the client address, before every
    other header and before the transport peer.  So a request that names
    an address without a record is admitted and recorded under that
    address, whatever record or block the peer's own address has. *)
Theorem forwarded_address_is_rate_limit_key {lib : IpAddressLib} (cfg : SecurityConfig)
    (call_next : Request -> handled) (req : Request) (t : Q) (st : state)
    (v ip : string) :
  header_get "X-Forwarded-For" req = Some v ->
  strip (hd EmptyString (split_comma v)) = ip ->
  ip <> EmptyString -> ip <> "unknown"%string ->
  reaches_rate_limiter cfg req ->
  rate_limit_storage st !! ip = None ->
  blocked_ips_cache st !! ip = None ->
  (0 < rate_limit_requests cfg)%Z ->
  get_client_ip req = ip /\
  fst (security_middleware cfg call_next req t st) <> Raise too_many_requests /\
  rate_limit_storage (snd (security_middleware cfg call_next req t st)) !! ip = Some [t].
Proof.
  intros Hh Hip Hne Hnu Hreach Hs Hb Hn.
  pose proof (get_client_ip_forwarded req v ip Hh Hip Hne Hnu) as Hc.
  split; [exact Hc|].
  assert (Hk : kept_in_window cfg ip t st = []).
  { unfold kept_in_window, stored. now rewrite Hs. }
  assert (Hnb : blocked_at ip t st = false).
  { unfold blocked_at. now rewrite Hb. }
  assert (Hadm : fst (check_rate_limit cfg ip t st) = true).
  { pose proof (check_rate_limit_unblocked cfg ip t st Hnb) as [_ H]. cbv zeta in H.
    rewrite Hk in H. cbn [length] in H. change (Z.of_nat 0) with 0%Z in H.
    rewrite (proj2 (Z.leb_gt (rate_limit_requests cfg) 0)) in H by exact Hn.
    apply H. }
  pose proof (check_rate_limit_admitted cfg ip t st Hadm) as (Hst & _).
  rewrite Hk in Hst. simpl in Hst.
  destruct Hreach as [Hpath Hip'].
  destruct (middleware_cases cfg call_next req t st)
    as [(Hp & _)|[(_ & Hal & Hno & _)|[(_ & Hf & _)|[(_ & _ & _ & ->)|
        [(_ & _ & v' & n & _ & _ & _ & ->)|(_ & _ & ->)]]]]];
    rewrite ?Hc in *; cbn [fst snd]; try congruence.
  - destruct Hip'; congruence.
  - split; [discriminate | exact Hst].
  - split; [discriminate | exact Hst].
  - split.
    + destruct (respond_cases (secured_response cfg) (call_next req)
                  (snd (content_validation req ip (snd (check_rate_limit cfg ip t st)))))
        as [(? & _ & ->)|(? & _ & ->)]; discriminate.
    + rewrite (proj1 (respond_limiter _ _ _)).
      destruct (content_validation_limiter req ip (snd (check_rate_limit cfg ip t st)))
        as [-> _]. exact Hst.
Qed.

Lemma forwarded_address_is_rate_limit_key_witness :
  get_client_ip (forwarded "198.51.100.4, 10.0.0.1") = "198.51.100.4"%string /\
  fst (security_middleware (lib := no_parse_iplib) strict_config call_next_ok
         (forwarded "198.51.100.4, 10.0.0.1") 2 blocked_state)
  <> Raise too_many_requests /\
  rate_limit_storage
    (snd (security_middleware (lib := no_parse_iplib) strict_config call_next_ok
            (forwarded "198.51.100.4, 10.0.0.1") 2 blocked_state))
    !! "198.51.100.4"%string = Some [2].
Proof.
  apply (forwarded_address_is_rate_limit_key (lib := no_parse_iplib) strict_config
           call_next_ok (forwarded "198.51.100.4, 10.0.0.1") 2 blocked_state
           "198.51.100.4, 10.0.0.1" "198.51.100.4").
  - reflexivity.
  - vm_compute. reflexivity.
  - discriminate.
  - discriminate.
  - split; [reflexivity | left; reflexivity].
  - vm_compute. reflexivity.
  - vm_compute. reflexivity.
  - reflexivity.
Defined.

(** *** Allow-list built from the environment *)

Lemma listed_address_In (env_allowed_ips : string) (ngrok : bool) (ip : string) :
  listed_address env_allowed_ips ip -> In ip (get_allowed_ips env_allowed_ips ngrok).
Proof.
  unfold get_allowed_ips. intros [Hd|(entry & Hin & Hne & ->)].
  - apply in_or_app. now left.
  - apply in_or_app. right. apply in_or_app. left.
    apply in_map. apply filter_In. split; [exact Hin|].
    now rewrite (proj2 (String.eqb_neq _ _) Hne).
Qed.

Lemma is_ip_allowed_textual {lib : IpAddressLib} (cfg : SecurityConfig) (ip : string) :
  In ip (allowed_ips cfg) -> is_ip_allowed cfg ip = true.
Proof.
  intros Hin. unfold is_ip_allowed.
  destruct (allowed_ips cfg) as [|a l] eqn:E; [reflexivity|].
  assert (H : existsb (String.eqb ip) (a :: l) = true).
  { apply existsb_exists. exists ip. split; [exact Hin | apply String.eqb_refl]. }
  now rewrite H.
Qed.

(** X25.  With the allow-list that [_get_allowed_ips] builds, whatever
    [ALLOWED_IPS] holds and whatever the [ipaddress] library parses, a
    request whose client address reads [127.0.0.1], [::1] or [localhost],
    or reads as an entry of [ALLOWED_IPS] without its blanks, passes the
    allow-list and is never answered 403; the client address being the
    one of [get_client_ip], a forwarding header suffices for that. *)
Theorem listed_address_never_refused {lib : IpAddressLib} (cfg : SecurityConfig)
    (env_allowed_ips : string) (ngrok : bool)
    (call_next : Request -> handled) (req : Request) (t : Q) (st : state) :
  allowed_ips cfg = get_allowed_ips env_allowed_ips ngrok ->
  listed_address env_allowed_ips (get_client_ip req) ->
  is_ip_allowed cfg (get_client_ip req) = true /\
  fst (security_middleware cfg call_next req t st) <> Raise access_denied.
Proof.
  intros Hcfg Hl.
  assert (Hok : is_ip_allowed cfg (get_client_ip req) = true).
  { apply is_ip_allowed_textual. rewrite Hcfg. now apply listed_address_In. }
  split; [exact Hok|].
  destruct (middleware_cases cfg call_next req t st)
    as [(_ & ->)|[(_ & _ & Hno & _)|[(_ & _ & ->)|[(_ & _ & _ & ->)|
        [(_ & _ & v & n & _ & _ & _ & ->)|(_ & _ & ->)]]]]];
    try match goal with
      | |- context [respond ?secure ?h ?s] =>
          destruct (respond_cases secure h s) as [(? & _ & ->)|(? & _ & ->)]
      end;
    cbn [fst]; try discriminate.
  congruence.
Qed.

Lemma listed_address_never_refused_witness :
  is_ip_allowed (lib := no_parse_iplib) local_only_config
    (get_client_ip (forwarded "127.0.0.1")) = true /\
  fst (security_middleware (lib := no_parse_iplib) local_only_config call_next_ok
         (forwarded "127.0.0.1") 0 empty_state) <> Raise access_denied.
Proof.
  apply (listed_address_never_refused (lib := no_parse_iplib) local_only_config
           " 10.0.0.9 ,, 192.168.1.0/24" false call_next_ok (forwarded "127.0.0.1")
           0 empty_state).
  - reflexivity.
  - left. vm_compute. auto.
Defined.

(** *** Pattern screening *)

Lemma lower_app (a b : string) :
  lower (String.append a b) = String.append (lower a) (lower b).
Proof. induction a as [|c a IH]; simpl; [reflexivity | now rewrite IH]. Qed.

Lemma re_match_app (s post : string) :
  forall r, re_match r s = true -> re_match r (String.append s post) = true.
Proof.
  induction s as [|c s IH]; intros r; simpl.
  - rewrite orb_false_r. intros Hn. destruct post; simpl; now rewrite Hn.
  - destruct (nullable r); [reflexivity|]. simpl. apply IH.
Qed.

Lemma re_search_of_match (r : regex) (s : string) :
  re_match r s = true -> re_search r s = true.
Proof. intros H. destruct s; cbn [re_search]; now rewrite H. Qed.

Lemma re_search_app_r (r : regex) (s post : string) :
  re_search r s = true -> re_search r (String.append s post) = true.
Proof.
  induction s as [|c s IH]; cbn [re_search]; intros H.
  - rewrite orb_false_r in H. apply re_search_of_match.
    exact (re_match_app EmptyString post r H).
  - apply orb_prop in H as [H|H].
    + apply re_search_of_match. exact (re_match_app (String c s) post r H).
    + change (String.append (String c s) post) with (String c (String.append s post)).
      cbn [re_search]. rewrite (IH H). apply orb_true_r.
Qed.

Lemma re_search_app_l (r : regex) (pre s : string) :
  re_search r s = true -> re_search r (String.append pre s) = true.
Proof.
  intros H. induction pre as [|c pre IH]; [exact H|].
  change (String.append (String c pre) s) with (String c (String.append pre s)).
  cbn [re_search]. rewrite IH. apply orb_true_r.
Qed.

Lemma forallb_false {B} (f : B -> bool) (l : list B) :
  forallb f l = false <-> exists x, In x l /\ f x = false.
Proof.
  induction l as [|x l IH]; simpl.
  - split; [discriminate | intros (x & [] & _)].
  - destruct (f x) eqn:E; simpl.
    + rewrite IH. split; intros (y & Hy & Hf); [eauto|].
      destruct Hy as [<-|Hy]; [congruence | eauto].
    + split; [eauto | reflexivity].
Qed.

(** X26.  Screening is monotone: a text that contains an unsafe text is unsafe.
    No prefix, suffix or change of letter case hides a blocked pattern. *)
Theorem unsafe_text_stays_unsafe (a s : string) :
  substring_of (lower a) (lower s) ->
  is_safe_request a = false ->
  is_safe_request s = false.
Proof.
  intros (before & after & Hs). unfold is_safe_request. rewrite !forallb_false.
  intros (p & Hp & Hf). exists p. split; [exact Hp|].
  apply negb_false_iff in Hf. apply negb_false_iff. rewrite Hs.
  apply re_search_app_l. now apply re_search_app_r.
Qed.

Lemma unsafe_text_stays_unsafe_witness :
  is_safe_request "{'q': '1 Union All Select pw', 'n': 3}" = false.
Proof.
  apply (unsafe_text_stays_unsafe "UNION ALL SELECT").
  - exists "{'q': '1 "%string, " pw', 'n': 3}"%string. vm_compute. reflexivity.
  - vm_compute. reflexivity.
Defined.

(** *** Credentials *)

Lemma verify_created_valid {jwt : PyJWTLib} (cfg : SecurityConfig) (claims : pydict)
    (utcnow_exp utcnow_iat now : Q) :
  dict_get "nbf" claims = None -> dict_get "aud" claims = None ->
  well_typed_claims claims ->
  utcnow_iat <= now -> now < inject_Z (expiry cfg utcnow_exp) ->
  verify_jwt_token cfg (create_jwt_token cfg utcnow_exp utcnow_iat claims) now
  = Returned (Some (embedded_payload cfg utcnow_exp utcnow_iat claims)).
Proof.
  intros Hnbf Haud Htyped Hiat Hexp. unfold verify_jwt_token. rewrite decode_created.
  now rewrite (validate_claims_created cfg claims _ _ _ Hnbf Haud Htyped Hiat Hexp).
Qed.

Lemma verify_created_expired {jwt : PyJWTLib} (cfg : SecurityConfig) (claims : pydict)
    (utcnow_exp utcnow_iat now : Q) :
  dict_get "nbf" claims = None ->
  inject_Z (expiry cfg utcnow_exp) <= now ->
  verify_jwt_token cfg (create_jwt_token cfg utcnow_exp utcnow_iat claims) now
  = Returned None.
Proof.
  intros Hnbf Hexp. apply verify_invalid. rewrite create_jwt_token_unfold.
  eapply invalid_expired; [| |apply embedded_exp | exact Hexp].
  - intros v Hv. rewrite embedded_iat in Hv. now injection Hv as <-.
  - intros v Hv. rewrite embedded_other in Hv by discriminate. congruence.
Qed.

Lemma embedded_payload_truthy cfg t_exp t_iat claims :
  py_truthy (JDict (embedded_payload cfg t_exp t_iat claims)) = true.
Proof.
  pose proof (embedded_exp cfg t_exp t_iat claims) as H.
  destruct (embedded_payload cfg t_exp t_iat claims); [discriminate | reflexivity].
Qed.

(** X27.  [validate_api_key] has four outcomes and no other, whatever the
    credentials, the keys, the environment and the clock: it grants access
    and leaves the state alone; or it refuses a request without
    credentials with the 401 ["Authentication required ..."] and logs
    nothing; or it refuses credentials with the 401 ["Invalid
    authentication credentials"] and logs one [INVALID_AUTH] event of
    severity MEDIUM whose client address is ["unknown"]; or the exception
    that [verify_jwt_token] let through leaves it, before the keys are
    looked at and with nothing logged. *)
Theorem credential_check_outcomes {jwt : PyJWTLib} (cfg : SecurityConfig)
    (api_keys : gset string)
    (getenv : string -> option string) (cred : option bearer) (now : Q) (st : state) :
  validate_api_key cfg api_keys getenv cred now st = (Granted, st) \/
  (cred = None /\
   validate_api_key cfg api_keys getenv cred now st = (Denied authentication_required, st)) \/
  (cred <> None /\
   exists st',
     validate_api_key cfg api_keys getenv cred now st = (Denied invalid_credentials, st') /\
     rate_limit_storage st' = rate_limit_storage st /\
     blocked_ips_cache st' = blocked_ips_cache st /\
     security_log st' = security_log st ++ [invalid_auth_event]) \/
  (exists c r,
     cred = Some c /\
     verify_jwt_token cfg (credentials_jwt c) now = Propagated r /\
     validate_api_key cfg api_keys getenv cred now st = (Leaked r, st)).
Proof.
  unfold validate_api_key. destruct cred as [c|].
  - destruct (verify_jwt_token cfg (credentials_jwt c) now) as [p|r] eqn:Hv.
    + destruct (match p with Some payload => py_truthy (JDict payload) | None => false end);
        [now left|].
      destruct (bool_decide (credentials c ∈ api_keys)); [now left|].
      right. right. left. split; [discriminate|]. eexists. split; [reflexivity|].
      repeat split.
    + do 3 right. exists c, r. repeat split; auto.
  - destruct (_ && _); [now left | right; left; auto].
Qed.

(** X28.  A static key needs no valid token and has no lifetime, but the token
    check comes first: bearer credentials whose text is one of the
    configured API keys are granted access at every clock reading at which
    the token check of the text returns, whatever it returns, and nothing
    is logged; where the token check raises, the key is not looked at and
    the exception leaves [validate_api_key]. *)
Theorem api_key_always_granted {jwt : PyJWTLib} (cfg : SecurityConfig)
    (api_keys : gset string)
    (getenv : string -> option string) (c : bearer) (now : Q) (st : state) :
  credentials c ∈ api_keys ->
  ((forall r, verify_jwt_token cfg (credentials_jwt c) now <> Propagated r) ->
   validate_api_key cfg api_keys getenv (Some c) now st = (Granted, st)) /\
  (forall r, verify_jwt_token cfg (credentials_jwt c) now = Propagated r ->
   validate_api_key cfg api_keys getenv (Some c) now st = (Leaked r, st)).
Proof.
  intros Hkey. unfold validate_api_key.
  destruct (verify_jwt_token cfg (credentials_jwt c) now) as [p|r0] eqn:Hv; split.
  - intros _.
    destruct (match p with Some payload => py_truthy (JDict payload) | None => false end);
      [reflexivity|].
    now rewrite bool_decide_eq_true_2.
  - intros r [=].
  - intros H. now destruct (H r0).
  - now intros r [= ->].
Qed.

Lemma api_key_always_granted_witness :
  validate_api_key (jwt := pyjwt_2_10) strict_config (load_api_keys keys_env "m" "b")
    keys_env (Some static_key) 123456789 empty_state
  = (Granted, empty_state).
Proof.
  apply (api_key_always_granted (jwt := pyjwt_2_10) strict_config
           (load_api_keys keys_env "m" "b") keys_env static_key 123456789 empty_state).
  - vm_compute. tauto.
  - intros r. vm_compute. discriminate.
Defined.

(** X29.  Issuing and checking compose: bearer credentials that read as a token
    issued by [create_jwt_token] under the same configuration, from claims
    without [nbf] and [aud] whose [sub] and [jti], where the release of
    PyJWT checks them, are absent or strings, are granted access from the
    issuance up to the token's expiry second, that second excluded, without
    any API key; from that second on they are refused with a 401 unless
    the text is also an API key. *)
Theorem issued_token_authenticates {jwt : PyJWTLib} (cfg : SecurityConfig)
    (api_keys : gset string)
    (getenv : string -> option string) (c : bearer) (claims : pydict)
    (utcnow_exp utcnow_iat now : Q) (st : state) :
  credentials_jwt c = create_jwt_token cfg utcnow_exp utcnow_iat claims ->
  dict_get "nbf" claims = None -> dict_get "aud" claims = None ->
  (well_typed_claims claims ->
   utcnow_iat <= now -> now < inject_Z (expiry cfg utcnow_exp) ->
   validate_api_key cfg api_keys getenv (Some c) now st = (Granted, st)) /\
  (inject_Z (expiry cfg utcnow_exp) <= now -> credentials c ∉ api_keys ->
   validate_api_key cfg api_keys getenv (Some c) now st
   = (Denied invalid_credentials,
      log_security_event "INVALID_AUTH" "Invalid API key/token attempt" "unknown" st)).
Proof.
  intros Hc Hnbf Haud. unfold validate_api_key. rewrite Hc. split.
  - intros Htyped Hiat Hexp.
    rewrite (verify_created_valid cfg claims _ _ _ Hnbf Haud Htyped Hiat Hexp).
    now rewrite embedded_payload_truthy.
  - intros Hexp Hkey. rewrite (verify_created_expired cfg claims _ _ _ Hnbf Hexp).
    now rewrite bool_decide_eq_false_2.
Qed.

Lemma issued_token_authenticates_witness :
  validate_api_key (jwt := pyjwt_2_10) strict_config ∅ no_env (Some minted_token) 3599
    empty_state
  = (Granted, empty_state) /\
  validate_api_key (jwt := pyjwt_2_10) strict_config ∅ no_env (Some minted_token) 3600
    empty_state
  = (Denied invalid_credentials,
     log_security_event "INVALID_AUTH" "Invalid API key/token attempt" "unknown"
       empty_state).
Proof.
  split.
  - destruct (issued_token_authenticates (jwt := pyjwt_2_10) strict_config ∅ no_env
                minted_token gateway_claims (1 # 2) (1 # 2) 3599 empty_state
                eq_refl eq_refl eq_refl)
      as [H _].
    apply H; [intros _; split; exact I | vm_compute; discriminate | vm_compute; reflexivity].
  - destruct (issued_token_authenticates (jwt := pyjwt_2_10) strict_config ∅ no_env
                minted_token gateway_claims (1 # 2) (1 # 2) 3600 empty_state
                eq_refl eq_refl eq_refl)
      as [_ H].
    apply H; [vm_compute; discriminate | apply not_elem_of_empty].
Defined.

(** *** API keys from the environment *)

Lemma kept_keys_In (entries : list string) (k : string) :
  In k (map strip
          (List.filter (fun key => negb (String.eqb (strip key) EmptyString)
                                   && (16 <=? String.length (strip key))%nat) entries))
  <-> exists e, In e entries /\ k = strip e /\ (16 <= String.length k)%nat.
Proof.
  rewrite in_map_iff. split.
  - intros (e & <- & He). apply filter_In in He as [He Hc].
    apply andb_prop in Hc as [_ Hlen]. apply Nat.leb_le in Hlen. eauto.
  - intros (e & He & -> & Hlen). exists e. split; [reflexivity|].
    apply filter_In. split; [exact He|]. apply andb_true_intro. split.
    + destruct (strip e); [simpl in Hlen; lia | reflexivity].
    + now apply Nat.leb_le.
Qed.

(** X30.  The key set is never empty, and [API_KEYS] takes precedence: as soon
    as one of its entries has 16 characters or more once its blanks are
    stripped, the keys are exactly such entries (shorter ones are
    dropped without notice, [MAIN_API_KEY] and [BACKEND_API_KEY] are
    ignored); otherwise the keys are [MAIN_API_KEY] and [BACKEND_API_KEY],
    each replaced by a fresh random value when unset or empty. *)
Theorem api_keys_loaded (getenv : string -> option string)
    (fresh_main fresh_backend : string) :
  load_api_keys getenv fresh_main fresh_backend <> ∅ /\
  ((exists e, In e (api_key_entries getenv) /\ (16 <= String.length (strip e))%nat) ->
   forall k, k ∈ load_api_keys getenv fresh_main fresh_backend <->
             exists e, In e (api_key_entries getenv) /\ k = strip e /\
                       (16 <= String.length k)%nat) /\
  ((forall e, In e (api_key_entries getenv) -> (String.length (strip e) < 16)%nat) ->
   forall k, k ∈ load_api_keys getenv fresh_main fresh_backend <->
             k = env_or getenv "MAIN_API_KEY" fresh_main \/
             k = env_or getenv "BACKEND_API_KEY" fresh_backend).
Proof.
  unfold load_api_keys, api_key_entries, env_or.
  set (entries := split_comma (default EmptyString (getenv "API_KEYS"%string))).
  pose proof (kept_keys_In entries) as Hkept.
  destruct (map strip _) as [|x kept] eqn:E.
  - split; [|split].
    + intros H.
      match type of H with
      | {[?m]} ∪ _ = _ => assert (Hin : m ∈ (∅ : gset string))
      end.
      { rewrite <- H. apply elem_of_union_l, elem_of_singleton. reflexivity. }
      exact (not_elem_of_empty _ Hin).
    + intros (e & He & Hlen). exfalso.
      apply (proj2 (Hkept (strip e))). eauto.
    + intros _ k. rewrite elem_of_union, !elem_of_singleton. reflexivity.
  - split; [|split].
    + intros H. assert (Hin : x ∈ (∅ : gset string)).
      { rewrite <- H. apply elem_of_list_to_set. now left. }
      exact (not_elem_of_empty _ Hin).
    + intros _ k. rewrite elem_of_list_to_set, list_elem_of_In. apply Hkept.
    + intros Hshort. exfalso.
      destruct (proj1 (Hkept x) (or_introl eq_refl)) as (e & He & -> & Hlen).
      specialize (Hshort e He). lia.
Qed.

Lemma api_keys_loaded_witness :
  "0123456789abcdef0123"%string ∈ load_api_keys keys_env "m" "b" /\
  "main-key-main-key-main-key"%string ∉ load_api_keys keys_env "m" "b".
Proof.
  destruct (api_keys_loaded keys_env "m" "b") as (_ & H & _).
  assert (Hex : exists e, In e (api_key_entries keys_env) /\
                          (16 <= String.length (strip e))%nat).
  { exists " 0123456789abcdef0123 "%string. split; [vm_compute; auto | vm_compute; lia]. }
  specialize (H Hex). split.
  - apply H. exists " 0123456789abcdef0123 "%string.
    split; [vm_compute; auto|]. split; [reflexivity | vm_compute; lia].
  - intros Hin. apply H in Hin as (e & He & Heq & _). vm_compute in He.
    destruct He as [<-|[<-|[<-|[<-|[]]]]]; vm_compute in Heq; discriminate.
Defined.

End SecurityExtra.
